(** * Volume processing and surface reconstruction pipeline

    A shallow embedding of [backend/processing.py]: the volume source
    ([process_dicom], [generate_synthetic_volume]), the resampler
    ([resample]), the threshold segmenter ([run_segmentation]) and the
    surface extraction and serialisation stage ([create_3d_model]).

    The Python functions communicate through files at fixed paths and report
    failures by exceptions.  They are modelled in a state-and-exception monad
    over a [world] holding those files; the state reached before an exception
    is kept, as in Python.  Arrays are NumPy-style: a shape and a flat buffer
    in C order.  float64 arithmetic is the kernel's binary64 arithmetic.

    What can fail is what the code leaves to its environment: the calls into
    SimpleITK, SciPy and scikit-image, which are parameters of the model,
    and the writes to disk, whose fate the world lists: a write completes,
    or it is cut short, with or without the writer noticing.  Logging has
    no effect on the files and is left out.  Memory exhaustion inside
    NumPy's own operations is not part of the synthesis as modelled here;
    the functions that call the synthesis are stated for any routine in its
    place, so that what they do when it fails is settled for every cause of
    failure. *)

From Stdlib Require Import ZArith List Bool String Ascii Lia.
From Stdlib Require Import Floats Uint63.
From Stdlib Require Import Permutation Sorted.
Import ListNotations.

Set Implicit Arguments.
Local Open Scope nat_scope.

(* ===================================================================== *)
(** ** Python exceptions and outcomes *)

Inductive exn : Type :=
| FileNotFoundError
| NotADirectoryError
| OSError
| MemoryError
| ValueError
| IndexError
| RuntimeError
| EOFError.

Inductive outcome (A : Type) : Type :=
| Return (a : A)
| Raise (e : exn).

Arguments Return {A} a.
Arguments Raise {A} e.

(* ===================================================================== *)
(** ** float64 helpers *)

Module F64.

Definition of_Z (z : Z) : float :=
  match z with
  | Z0 => 0%float
  | Zpos _ => PrimFloat.of_uint63 (Uint63.of_Z z)
  | Zneg _ => (- PrimFloat.of_uint63 (Uint63.of_Z (- z)))%float
  end.

Definition of_nat (n : nat) : float := of_Z (Z.of_nat n).

(** [np.round] with [decimals = 0] is [rint]: round to the nearest
    integer, ties to even, the sign of zero kept.  Below [2^52] adding and
    subtracting [2^52] performs exactly that rounding; from [2^52] on every
    float64 is an integer already. *)
Definition two52 : float := 0x1p+52%float.

Definition np_round (x : float) : float :=
  if (abs x <? two52)%float then
    if (x <? 0)%float then (- ((- x + two52) - two52))%float
    else if (x =? 0)%float then x
    else ((x + two52) - two52)%float
  else x.

(** Python's [>] and [>=] on floats. *)
Definition gt (x y : float) : bool := (y <? x)%float.
Definition ge (x y : float) : bool := (y <=? x)%float.

End F64.

(* ===================================================================== *)
(** ** NumPy arrays of rank 3 *)

Definition shape3 : Type := (nat * nat * nat)%type.

Record ndarray (A : Type) : Type := mk_ndarray {
  shape : shape3;
  data : list A
}.

Arguments mk_ndarray {A} shape data.

Module Np.

Definition size (sh : shape3) : nat :=
  let '(n0, n1, n2) := sh in n0 * n1 * n2.

(** The invariant of a dense array: the buffer holds one element per
    index. *)
Definition well_formed {A} (a : ndarray A) : Prop :=
  List.length (data a) = size (shape a).

(** Offset of index [(i, j, k)] in C order. *)
Definition ravel (sh : shape3) (i j k : nat) : nat :=
  let '(_, n1, n2) := sh in (i * n1 + j) * n2 + k.

Definition in_bounds (sh : shape3) (i j k : nat) : bool :=
  let '(n0, n1, n2) := sh in (i <? n0) && (j <? n1) && (k <? n2).

(** [a[i, j, k]]; [None] stands for the IndexError of an index out of
    bounds. *)
Definition item {A} (a : ndarray A) (i j k : nat) : option A :=
  if in_bounds (shape a) i j k
  then nth_error (data a) (ravel (shape a) i j k)
  else None.

(** Elementwise operations ([a > t], [a.astype(...)], [a + b]) keep the
    shape and act on the buffer. *)
Definition map {A B} (f : A -> B) (a : ndarray A) : ndarray B :=
  mk_ndarray (shape a) (List.map f (data a)).

(** The array whose element at [(i, j, k)] is [f i j k]. *)
Definition tabulate {A} (sh : shape3) (f : nat -> nat -> nat -> A)
  : ndarray A :=
  let '(n0, n1, n2) := sh in
  mk_ndarray sh
    (flat_map (fun i =>
       flat_map (fun j => List.map (fun k => f i j k) (seq 0 n2))
                (seq 0 n1))
       (seq 0 n0)).

(** [a.transpose(2, 1, 0)]: the result at [(k, j, i)] is [a[i, j, k]]. *)
Definition transpose_2_1_0 {A} (d : A) (a : ndarray A) : ndarray A :=
  let '(n0, n1, n2) := shape a in
  tabulate (n2, n1, n0)
    (fun k j i => nth (ravel (shape a) i j k) (data a) d).

(** [a.min()] and [a.max()]; NumPy raises ValueError on an empty array. *)
Definition amin (a : ndarray Z) : outcome Z :=
  match data a with
  | [] => Raise ValueError
  | x :: xs => Return (fold_left Z.min xs x)
  end.

Definition amax (a : ndarray Z) : outcome Z :=
  match data a with
  | [] => Raise ValueError
  | x :: xs => Return (fold_left Z.max xs x)
  end.

End Np.

(** A persisted [.npy] array carries its dtype: the decoded volume is int16,
    the synthetic one float64. *)
Inductive npy : Type :=
| Int16Array (a : ndarray Z)
| Float64Array (a : ndarray float).

Definition npy_shape (v : npy) : shape3 :=
  match v with
  | Int16Array a => shape a
  | Float64Array a => shape a
  end.

Definition vec3 (R : Type) : Type := (R * R * R)%type.

Definition vmap {A B} (f : A -> B) (v : vec3 A) : vec3 B :=
  let '(a, b, c) := v in (f a, f b, f c).

Definition vmap2 {A B C} (f : A -> B -> C) (u : vec3 A) (v : vec3 B)
  : vec3 C :=
  let '(a, b, c) := u in let '(x, y, z) := v in (f a x, f b y, f c z).

(** The triangle soup held by [stl.mesh.Mesh]: [vectors[i][j]] is vertex [j]
    of triangle [i]. *)
Definition vertex : Type := vec3 float.
Definition triangle : Type := (vertex * vertex * vertex)%type.
Definition stl_mesh : Type := list triangle.

(* ===================================================================== *)
(** ** The world: files at the fixed paths, the disk and the generator *)

(** A file that a writer opened at its destination path holds the whole
    content once the write completed, and whatever had been written when the
    write was interrupted. *)
Inductive file (A : Type) : Type :=
| Whole (content : A)
| Torn (written : nat).

Arguments Whole {A} content.
Arguments Torn {A} written.

Record dirent : Type := mk_dirent {
  d_name : string;
  d_isfile : bool
}.

Inductive node : Type :=
| Missing
| RegularFile
| Directory (entries : list dirent).

(** How a write that does not complete ends.  [np.save] and [Mesh.save]
    hand the array data to a buffered stream of the C library: when the
    failure comes back to the writer it raises OSError ([Reported]); when it
    falls in data that the stream held back, the writer returns as after a
    complete write ([Unnoticed]).  Either way the file holds the [written]
    bytes that reached it. *)
Inductive cut : Type :=
| Reported (written : nat)
| Unnoticed (written : nat).

(** [disk] lists the fate of the successive writes: [None] for a write that
    completes, [Some c] for one that is cut short; past its end every write
    completes.  [normal k] is the [k]-th noise field drawn from
    [np.random.normal(0, 10, ...)], and [draws] counts the fields drawn. *)
Record world : Type := mk_world {
  dicom_dir : node;
  volume_npy : option (file npy);
  spacing_npy : option (file (vec3 float));
  segmented_volume_npy : option (file (ndarray Z));
  organ_model_stl : option (file stl_mesh);
  disk : list (option cut);
  normal : nat -> nat -> nat -> nat -> float;
  draws : nat
}.

Definition DICOM_PATH : string :=
  "SlicerRtData/eclipse-8.1.20-phantom-prostate/Original/CT".

(* ===================================================================== *)
(** ** The monad of Python computations *)

Definition py (A : Type) : Type := world -> outcome A * world.

Definition ret {A} (a : A) : py A := fun w => (Return a, w).

Definition raise {A} (e : exn) : py A := fun w => (Raise e, w).

Definition bind {A B} (m : py A) (k : A -> py B) : py B :=
  fun w =>
    match m w with
    | (Return a, w') => k a w'
    | (Raise e, w') => (Raise e, w')
    end.

(** [try: m except Exception as e: h e]. *)
Definition try_except {A} (m : py A) (h : exn -> py A) : py A :=
  fun w =>
    match m w with
    | (Return a, w') => (Return a, w')
    | (Raise e, w') => h e w'
    end.

(** The outcome of a library call that does not touch the world. *)
Definition lift {A} (o : outcome A) : py A := fun w => (o, w).

Declare Scope py_scope.
Delimit Scope py_scope with py.
Notation "x <- m ;; k" := (bind m (fun x => k))
  (at level 61, m at next level, right associativity) : py_scope.
Notation "m ;;; k" := (bind m (fun _ => k))
  (at level 61, right associativity) : py_scope.
Local Open Scope py_scope.

(* ===================================================================== *)
(** ** File primitives *)

Definition set_volume_npy (f : option (file npy)) (w : world) : world :=
  mk_world (dicom_dir w) f (spacing_npy w) (segmented_volume_npy w)
           (organ_model_stl w) (disk w) (normal w) (draws w).

Definition set_spacing_npy (f : option (file (vec3 float))) (w : world)
  : world :=
  mk_world (dicom_dir w) (volume_npy w) f (segmented_volume_npy w)
           (organ_model_stl w) (disk w) (normal w) (draws w).

Definition set_segmented_volume_npy (f : option (file (ndarray Z)))
  (w : world) : world :=
  mk_world (dicom_dir w) (volume_npy w) (spacing_npy w) f
           (organ_model_stl w) (disk w) (normal w) (draws w).

Definition set_organ_model_stl (f : option (file stl_mesh)) (w : world)
  : world :=
  mk_world (dicom_dir w) (volume_npy w) (spacing_npy w)
           (segmented_volume_npy w) f (disk w) (normal w) (draws w).

Definition set_disk (d : list (option cut)) (w : world) : world :=
  mk_world (dicom_dir w) (volume_npy w) (spacing_npy w)
           (segmented_volume_npy w) (organ_model_stl w) d (normal w)
           (draws w).

Definition set_draws (n : nat) (w : world) : world :=
  mk_world (dicom_dir w) (volume_npy w) (spacing_npy w)
           (segmented_volume_npy w) (organ_model_stl w) (disk w) (normal w)
           n.

(** [np.save(path, a)] and [Mesh.save(path)] are handed the final path and
    open it for writing: the file there is replaced by the new content, or
    by the part written when the write is cut short; a cut that the writer
    sees raises OSError, one that it does not see lets it return. *)
Definition save {A} (put : option (file A) -> world -> world) (content : A)
  : py unit :=
  fun w =>
    match disk w with
    | [] => (Return tt, put (Some (Whole content)) w)
    | None :: rest => (Return tt, put (Some (Whole content)) (set_disk rest w))
    | Some (Reported n) :: rest =>
        (Raise OSError, put (Some (Torn n)) (set_disk rest w))
    | Some (Unnoticed n) :: rest =>
        (Return tt, put (Some (Torn n)) (set_disk rest w))
    end.

(** [np.load(path)]: a file without a single byte is reported as
    EOFError ('No data left in file'), any other incomplete file as
    ValueError, from the magic string, the header or the reshaping of the
    data read. *)
Definition load {A} (get : world -> option (file A)) : py A :=
  fun w =>
    match get w with
    | None => (Raise FileNotFoundError, w)
    | Some (Torn 0) => (Raise EOFError, w)
    | Some (Torn (S _)) => (Raise ValueError, w)
    | Some (Whole a) => (Return a, w)
    end.

(** [os.path.exists(path)] for a file of the store. *)
Definition exists_file {A} (get : world -> option (file A)) : py bool :=
  fun w => (Return (match get w with None => false | Some _ => true end), w).

(** [os.path.exists(DICOM_PATH)] and [os.listdir(DICOM_PATH)]. *)
Definition os_path_exists_DICOM_PATH : py bool :=
  fun w =>
    (Return (match dicom_dir w with Missing => false | _ => true end), w).

Definition os_listdir_DICOM_PATH : py (list dirent) :=
  fun w =>
    match dicom_dir w with
    | Missing => (Raise FileNotFoundError, w)
    | RegularFile => (Raise NotADirectoryError, w)
    | Directory entries => (Return entries, w)
    end.

(** [np.random.normal(0, 10, shape)]: the next noise field of the world. *)
Definition np_random_normal (sh : shape3) : py (ndarray float) :=
  fun w =>
    (Return (Np.tabulate sh (normal w (draws w))), set_draws (S (draws w)) w).

(** The disk accepts the next [n] writes. *)
Definition accepts (n : nat) (d : list (option cut)) : bool :=
  forallb (fun o => match o with None => true | Some _ => false end)
          (firstn n d).

(* ===================================================================== *)
(** ** generate_synthetic_volume *)

Module Synthetic.

Definition size : nat := 128.
Definition center : Z := Z.of_nat size / 2.
Definition radius : Z := Z.of_nat size / 4.
Definition small_center : vec3 Z := (center + 15, center - 10, center)%Z.
Definition small_radius : Z := Z.of_nat size / 8.

(** [np.sqrt((x - cx)**2 + (y - cy)**2 + (z - cz)**2)]. *)
Definition distance (x y z : nat) (c : vec3 Z) : float :=
  let '(cx, cy, cz) := c in
  PrimFloat.sqrt
    (F64.of_Z ((Z.of_nat x - cx) ^ 2 + (Z.of_nat y - cy) ^ 2
               + (Z.of_nat z - cz) ^ 2)).

(** Body of the first loop nest at voxel [(z, y, x)]; [old] is the value
    the voxel holds. *)
Definition central_sphere (z y x : nat) (old : float) : float :=
  let d := distance x y z (center, center, center) in
  if (d <? F64.of_Z radius)%float then 50%float
  else if (d <? F64.of_Z (radius + 5))%float && F64.ge d (F64.of_Z radius)
       then 800%float
       else old.

(** Body of the second loop nest. *)
Definition offset_sphere (z y x : nat) (old : float) : float :=
  let d := distance x y z small_center in
  if (d <? F64.of_Z small_radius)%float then 100%float else old.

(** The array after both loop nests, which each touch voxel [(z, y, x)]
    in iteration [(z, y, x)] only, starting from [np.zeros]. *)
Definition structures (z y x : nat) : float :=
  offset_sphere z y x (central_sphere z y x 0%float).

Definition cube : shape3 := (size, size, size).

(** [volume + noise], elementwise: the float32 structure values 0, 50, 100
    and 800 are exact in float64, the dtype of the sum. *)
Definition add (a b : ndarray float) : ndarray float :=
  mk_ndarray (shape a)
    (List.map (fun p => (fst p + snd p)%float) (combine (data a) (data b))).

Definition spacing : vec3 float := (1%float, 1%float, 1%float).

End Synthetic.

(** The array that [generate_synthetic_volume] stores when the noise field
    drawn is [noise]. *)
Definition synthetic_volume (noise : nat -> nat -> nat -> float)
  : ndarray float :=
  Synthetic.add (Np.tabulate Synthetic.cube Synthetic.structures)
                (Np.tabulate Synthetic.cube noise).

Definition generate_synthetic_volume : py bool :=
  try_except
    (let volume := Np.tabulate Synthetic.cube Synthetic.structures in
     noise <- np_random_normal (shape volume) ;;
     let volume := Synthetic.add volume noise in
     let spacing := Synthetic.spacing in
     save set_volume_npy (Float64Array volume) ;;;
     save set_spacing_npy spacing ;;;
     ret true)
    (fun e => raise e).

(* ===================================================================== *)
(** ** Strings: the file-name test of the candidate scan *)

Module Str.

Definition lower_ascii (c : ascii) : ascii :=
  let n := nat_of_ascii c in
  if (65 <=? n) && (n <=? 90) then ascii_of_nat (n + 32) else c.

Fixpoint lower (s : string) : string :=
  match s with
  | EmptyString => EmptyString
  | String c s' => String (lower_ascii c) (lower s')
  end.

Definition endswith (s suffix : string) : bool :=
  let n := String.length s in
  let m := String.length suffix in
  (m <=? n) && String.eqb (substring (n - m) m s) suffix.

Fixpoint contains (c : ascii) (s : string) : bool :=
  match s with
  | EmptyString => false
  | String c' s' => Ascii.eqb c c' || contains c s'
  end.

(** [s.split(sep)] for a one-character separator. *)
Fixpoint split_aux (sep : ascii) (s : string) (cur : string)
  : list string :=
  match s with
  | EmptyString => [cur]
  | String c s' =>
      if Ascii.eqb c sep
      then cur :: split_aux sep s' EmptyString
      else split_aux sep s' (cur ++ String c EmptyString)
  end.

Definition split (sep : ascii) (s : string) : list string :=
  split_aux sep s EmptyString.

(** [os.path.join(dir, name)]. *)
Definition path_join (dir name : string) : string :=
  (dir ++ "/" ++ name)%string.

End Str.

(* ===================================================================== *)
(** ** Intensity normalisation (process_dicom, "Convert to HU") *)

(** [astype(np.int16)] on an integer sample wraps around. *)
Definition astype_int16 (v : Z) : Z := ((v + 32768) mod 65536 - 32768)%Z.

Definition sentinel : Z := (-2000)%Z.

(** [image_array[image_array == -2000] = 0] at one voxel. *)
Definition handle_air (v : Z) : Z := if (v =? sentinel)%Z then 0%Z else v.

Definition convert_to_hu (image_array : ndarray Z) : ndarray Z :=
  let image_array := Np.map astype_int16 image_array in
  Np.map handle_air image_array.

(* ===================================================================== *)
(** ** resample: the arithmetic of the new grid

    The arithmetic is stated over the number operations it uses and read
    in float64, as NumPy computes it. *)

Class Number (R : Type) : Type := {
  ndiv : R -> R -> R;
  nmul : R -> R -> R;
  nround : R -> R;
  of_count : nat -> R
}.

Section ResampleGrid.

Context {R : Type} {num : Number R}.

Definition resize_factor (original_spacing new_spacing : vec3 R) : vec3 R :=
  vmap2 ndiv original_spacing new_spacing.

Definition new_shape (sh : shape3) (original_spacing new_spacing : vec3 R)
  : vec3 R :=
  vmap nround
    (vmap2 nmul (vmap of_count sh)
                (resize_factor original_spacing new_spacing)).

Definition real_resize_factor (sh : shape3)
  (original_spacing new_spacing : vec3 R) : vec3 R :=
  vmap2 ndiv (new_shape sh original_spacing new_spacing) (vmap of_count sh).

Definition resampled_spacing (sh : shape3)
  (original_spacing new_spacing : vec3 R) : vec3 R :=
  vmap2 ndiv original_spacing
        (real_resize_factor sh original_spacing new_spacing).

(** The two sides of the rounding-consistency law of the specification:
    [original_spacing / new_spacing] as the resampler reports it, and
    [round(count * original_spacing / target) / count]. *)
Definition reported_ratio (sh : shape3) (original_spacing target : vec3 R)
  : vec3 R :=
  vmap2 ndiv original_spacing (resampled_spacing sh original_spacing target).

Definition rounded_ratio (sh : shape3) (original_spacing target : vec3 R)
  : vec3 R :=
  vmap2 ndiv
    (vmap nround
       (vmap2 ndiv (vmap2 nmul (vmap of_count sh) original_spacing) target))
    (vmap of_count sh).

End ResampleGrid.

(** [v[i]] for an axis [i] of 0, 1 or 2. *)
Definition axis {R} (i : nat) (v : vec3 R) : R :=
  let '(a, b, c) := v in
  match i with
  | 0 => a
  | 1 => b
  | _ => c
  end.

Definition vforall {R} (P : R -> Prop) (v : vec3 R) : Prop :=
  let '(a, b, c) := v in P a /\ P b /\ P c.

Definition vforall2 {R S} (P : R -> S -> Prop) (u : vec3 R) (v : vec3 S)
  : Prop :=
  let '(a, b, c) := u in let '(x, y, z) := v in P a x /\ P b y /\ P c z.

#[export] Instance float64 : Number float := {
  ndiv := PrimFloat.div;
  nmul := PrimFloat.mul;
  nround := F64.np_round;
  of_count := F64.of_nat
}.

(* ===================================================================== *)
(** ** SimpleITK images and the library interface *)

Record image : Type := mk_image {
  GetArrayFromImage : ndarray Z;          (* samples, shape (z, y, x) *)
  GetSpacing : vec3 float;                (* (x, y, z) *)
  MetaData : list (string * string)
}.

Definition HasMetaDataKey (img : image) (key : string) : bool :=
  existsb (fun kv => String.eqb (fst kv) key) (MetaData img).

Definition GetMetaData (img : image) (key : string) : outcome string :=
  match find (fun kv => String.eqb (fst kv) key) (MetaData img) with
  | Some kv => Return (snd kv)
  | None => Raise RuntimeError
  end.

(** What the pipeline asks of its libraries.  Their results depend on file
    contents and on numerical code outside the repository, so they are
    parameters of the model.  [Execute names] is an [ImageSeriesReader] run
    on [names]; [float] is Python's string-to-float conversion; [zoom] is
    [scipy.ndimage.zoom(volume, factor, mode='nearest')].  [sort_unordered]
    is [list.sort(key=...)] on keys that [<] does not order, that is with a
    NaN among them: what comes out then is a matter of the merge strategy
    of the interpreter. *)
Record libraries : Type := mk_libraries {
  GetGDCMSeriesIDs : string -> outcome (list string);
  GetGDCMSeriesFileNames : string -> string -> outcome (list string);
  Execute : list string -> outcome image;
  ReadImage : string -> outcome image;
  float_of_string : string -> outcome float;
  zoom : ndarray Z -> vec3 float -> outcome (ndarray Z);
  sort_unordered :
    list (float * string * image) -> list (float * string * image)
}.

Definition obind {A B} (o : outcome A) (k : A -> outcome B) : outcome B :=
  match o with
  | Return a => k a
  | Raise e => Raise e
  end.

Section VolumeSource.

Variable lib : libraries.

(** The synthesis that the Volume Source falls back to,
    [generate_synthetic_volume] in the code; the functions that call it are
    stated for any routine in its place, so that what they do with its
    failures does not depend on what can fail inside it. *)
Variable synthesis : py bool.

(** The candidate test of the directory scan. *)
Definition is_candidate (file : string) : bool :=
  Str.endswith (Str.lower file) ".dcm"
  || Str.endswith (Str.lower file) ".dicom"
  || negb (Str.contains "."%char file).

Definition candidates (entries : list dirent) : list string :=
  flat_map (fun d =>
              if d_isfile d && is_candidate (d_name d)
              then [Str.path_join DICOM_PATH (d_name d)]
              else [])
           entries.

(** The ordering key of a slice: image position, then slice location,
    then instance number, else 0. *)
Definition slice_position (slice_img : image) : outcome float :=
  if HasMetaDataKey slice_img "0020|0032" then
    obind (GetMetaData slice_img "0020|0032") (fun s =>
      match nth_error (Str.split "\"%char s) 2 with
      | Some part => float_of_string lib part
      | None => Raise IndexError
      end)
  else if HasMetaDataKey slice_img "0020|1041" then
    obind (GetMetaData slice_img "0020|1041") (float_of_string lib)
  else if HasMetaDataKey slice_img "0020|0013" then
    obind (GetMetaData slice_img "0020|0013") (float_of_string lib)
  else Return 0%float.

Definition slice_entry : Type := (float * string * image)%type.

(** The loop over the candidate files; a file whose reading or key
    extraction raises is skipped. *)
Fixpoint read_slices (dicom_files : list string) : list slice_entry :=
  match dicom_files with
  | [] => []
  | file_path :: rest =>
      match obind (ReadImage lib file_path) (fun slice_img =>
              obind (slice_position slice_img) (fun position =>
                Return (position, file_path, slice_img))) with
      | Return entry => entry :: read_slices rest
      | Raise _ => read_slices rest
      end
  end.

(** [slices_data.sort(key=lambda x: x[0])] compares keys with [<] only.
    Where [<] orders the keys, that is without NaN, the result is the
    stable ascending arrangement, which inserting the entries one after the
    other behind their equals produces; with a NaN among the keys the
    result is the library's. *)
Definition sort_key (e : slice_entry) : float := fst (fst e).

Fixpoint insert_slice (e : slice_entry) (sorted : list slice_entry)
  : list slice_entry :=
  match sorted with
  | [] => [e]
  | e' :: rest =>
      if (sort_key e <? sort_key e')%float
      then e :: sorted
      else e' :: insert_slice e rest
  end.

Definition insertion_sort (slices_data : list slice_entry)
  : list slice_entry :=
  fold_left (fun sorted e => insert_slice e sorted) slices_data [].

Definition ordered_keys (slices_data : list slice_entry) : bool :=
  forallb (fun e => negb (PrimFloat.is_nan (sort_key e))) slices_data.

Definition sort_slices (slices_data : list slice_entry)
  : list slice_entry :=
  if ordered_keys slices_data then insertion_sort slices_data
  else sort_unordered lib slices_data.

(** The [try] block that reads the series (lines 121-172).  It ends with
    the image to process ([inl]) or with the value the function returns
    at once ([inr]). *)
Definition read_series_with (dicom_files : list string)
  : py (image + bool) :=
  try_except
    (series_IDs <- lift (GetGDCMSeriesIDs lib DICOM_PATH) ;;
     match series_IDs with
     | series_ID :: _ =>
         dicom_series_files <-
           lift (GetGDCMSeriesFileNames lib DICOM_PATH series_ID) ;;
         image <- lift (Execute lib dicom_series_files) ;;
         ret (inl image)
     | [] =>
         match read_slices dicom_files with
         | [] => b <- synthesis ;; ret (inr b)
         | (_ :: _) as slices_data =>
             let slices_data := sort_slices slices_data in
             try_except
               (image <-
                  lift (Execute lib
                          (List.map (fun x => snd (fst x)) slices_data)) ;;
                ret (inl image))
               (fun _ =>
                  match slices_data with
                  | first :: _ => ret (inl (snd first))
                  | [] => raise IndexError
                  end)
         end
     end)
    (fun _ => b <- synthesis ;; ret (inr b)).

Definition default_new_spacing : vec3 float := (1%float, 1%float, 1%float).

Definition resample (volume : ndarray Z)
  (original_spacing new_spacing : vec3 float)
  : outcome (ndarray Z * vec3 float) :=
  let real_resize_factor :=
    real_resize_factor (shape volume) original_spacing new_spacing in
  let new_spacing :=
    resampled_spacing (shape volume) original_spacing new_spacing in
  obind (zoom lib volume real_resize_factor) (fun resampled =>
    Return (resampled, new_spacing)).

(** The rounded voxel count of some axis is not positive. *)
Definition nonpositive_count (sh : shape3)
  (original_spacing new_spacing : vec3 float) : bool :=
  let '(a, b, c) := new_shape sh original_spacing new_spacing in
  (a <=? 0)%float || (b <=? 0)%float || (c <=? 0)%float.

(** [list(image.GetSpacing())[::-1]]. *)
Definition reversed (v : vec3 float) : vec3 float :=
  let '(x, y, z) := v in (z, y, x).

(** The [try] block of [process_dicom] (lines 93-198). *)
Definition decode_and_store_with : py bool :=
  present <- os_path_exists_DICOM_PATH ;;
  no_files <-
    (if present
     then entries <- os_listdir_DICOM_PATH ;;
          ret (List.length entries =? 0)
     else ret true) ;;
  if (no_files : bool) then synthesis
  else
    entries <- os_listdir_DICOM_PATH ;;
    match candidates entries with
    | [] => synthesis
    | (_ :: _) as dicom_files =>
        r <- read_series_with dicom_files ;;
        match r with
        | inr b => ret b
        | inl image =>
            let image_array := GetArrayFromImage image in
            let spacing := reversed (GetSpacing image) in
            let image_array := convert_to_hu image_array in
            rs <- lift (resample image_array spacing
                                 default_new_spacing) ;;
            let '(resampled_volume, new_spacing) := rs in
            save set_volume_npy (Int16Array resampled_volume) ;;;
            save set_spacing_npy new_spacing ;;;
            ret true
        end
    end.

(** "If any error occurs, fall back to synthetic data". *)
Definition process_dicom_with : py bool :=
  try_except decode_and_store_with (fun _ => synthesis).

(** The input gives nothing to decode: the path is absent or not a
    directory, the directory is empty or without candidate files, the
    series scan fails, the series it finds cannot be read, or it finds no
    series and no candidate file can be read. *)
Inductive no_decodable_input : node -> Prop :=
| input_missing : no_decodable_input Missing
| input_not_a_directory : no_decodable_input RegularFile
| input_empty : no_decodable_input (Directory [])
| input_no_candidates entries :
    candidates entries = [] ->
    no_decodable_input (Directory entries)
| input_scan_fails entries e :
    GetGDCMSeriesIDs lib DICOM_PATH = Raise e ->
    no_decodable_input (Directory entries)
| input_series_unreadable entries series_ID others e :
    GetGDCMSeriesIDs lib DICOM_PATH = Return (series_ID :: others) ->
    obind (GetGDCMSeriesFileNames lib DICOM_PATH series_ID) (Execute lib)
    = Raise e ->
    no_decodable_input (Directory entries)
| input_slices_unreadable entries :
    GetGDCMSeriesIDs lib DICOM_PATH = Return [] ->
    (forall file_path, In file_path (candidates entries) ->
                       exists e, ReadImage lib file_path = Raise e) ->
    no_decodable_input (Directory entries).

End VolumeSource.

(** The functions of the code: the synthesis is
    [generate_synthetic_volume]. *)
Definition read_series (lib : libraries)
  : list string -> py (image + bool) :=
  read_series_with lib generate_synthetic_volume.

Definition decode_and_store (lib : libraries) : py bool :=
  decode_and_store_with lib generate_synthetic_volume.

Definition process_dicom (lib : libraries) : py bool :=
  process_dicom_with lib generate_synthetic_volume.

(* ===================================================================== *)
(** ** run_segmentation *)

Definition threshold : Z := 200%Z.

(** [volume > threshold], by dtype. *)
Definition greater (volume : npy) (t : Z) : ndarray bool :=
  match volume with
  | Int16Array a => Np.map (fun v => (v >? t)%Z) a
  | Float64Array a => Np.map (fun v => F64.gt v (F64.of_Z t)) a
  end.

Definition astype_uint8 (a : ndarray bool) : ndarray Z :=
  Np.map (fun b : bool => if b then 1%Z else 0%Z) a.

(** Sample [(i, j, k)] of a persisted volume strictly exceeds [t], and is
    equal to [t]. *)
Definition exceeds (volume : npy) (t : Z) (i j k : nat) : Prop :=
  match volume with
  | Int16Array a => exists v, Np.item a i j k = Some v /\ (t < v)%Z
  | Float64Array a =>
      exists v, Np.item a i j k = Some v /\ (F64.of_Z t <? v)%float = true
  end.

Definition sample_is (volume : npy) (t : Z) (i j k : nat) : Prop :=
  match volume with
  | Int16Array a => Np.item a i j k = Some t
  | Float64Array a => Np.item a i j k = Some (F64.of_Z t)
  end.

Definition npy_length (v : npy) : nat :=
  match v with
  | Int16Array a => List.length (data a)
  | Float64Array a => List.length (data a)
  end.

Definition run_segmentation : py bool :=
  try_except
    (volume <- load volume_npy ;;
     let segmented_volume := astype_uint8 (greater volume threshold) in
     save set_segmented_volume_npy segmented_volume ;;;
     ret true)
    (fun e => raise e).

(* ===================================================================== *)
(** ** create_3d_model *)

Definition face : Type := (nat * nat * nat)%type.

(** A mask whose voxels are all 0, or all 1. *)
Definition degenerate (mask : ndarray Z) : Prop :=
  Forall (fun v => v = 0%Z) (data mask)
  \/ Forall (fun v => v = 1%Z) (data mask).

Section SurfaceExtraction.

(** The triangulation proper of [skimage.measure.marching_cubes]: from the
    scalar field and the level to vertices and faces. *)
Variable lewiner : ndarray Z -> float -> list vertex * list face.

(** [measure.marching_cubes(volume, level)].  The function belongs to
    scikit-image; what is modelled is the validation it performs around the
    triangulation: ValueError 'Input array must be at least 2x2x2.',
    ValueError 'Surface level must be within volume data range.' when
    [level < volume.min()] or [level > volume.max()], and RuntimeError
    'No surface found at the given iso value.' when the triangulation has no
    vertex. *)
Definition marching_cubes (volume : ndarray Z) (level : float)
  : outcome (list vertex * list face) :=
  let '(n0, n1, n2) := shape volume in
  if (n0 <? 2) || (n1 <? 2) || (n2 <? 2) then Raise ValueError
  else
    obind (Np.amin volume) (fun lo =>
    obind (Np.amax volume) (fun hi =>
      if (level <? F64.of_Z lo)%float || F64.gt level (F64.of_Z hi)
      then Raise ValueError
      else
        let '(verts, faces) := lewiner volume level in
        match verts with
        | [] => Raise RuntimeError
        | _ :: _ => Return (verts, faces)
        end)).

(** [stl_mesh.vectors[i][j] = verts[f[j]]] for every face. *)
Definition face_vectors (verts : list vertex) (f : face)
  : outcome triangle :=
  let '(f0, f1, f2) := f in
  match nth_error verts f0, nth_error verts f1, nth_error verts f2 with
  | Some v0, Some v1, Some v2 => Return (v0, v1, v2)
  | _, _, _ => Raise IndexError
  end.

Fixpoint fill_vectors (verts : list vertex) (faces : list face)
  : outcome stl_mesh :=
  match faces with
  | [] => Return []
  | f :: rest =>
      obind (face_vectors verts f) (fun t =>
      obind (fill_vectors verts rest) (fun ts => Return (t :: ts)))
  end.

Definition create_3d_model : py bool :=
  try_except
    (present <- exists_file segmented_volume_npy ;;
     (if (present : bool) then ret tt else raise FileNotFoundError) ;;;
     volume <- load segmented_volume_npy ;;
     let volume := Np.transpose_2_1_0 0%Z volume in
     vf <- lift (marching_cubes volume 0.5%float) ;;
     let '(verts, faces) := vf in
     stl_mesh <- lift (fill_vectors verts faces) ;;
     save set_organ_model_stl stl_mesh ;;;
     ret true)
    (fun e => raise e).

End SurfaceExtraction.

(* ===================================================================== *)
(** ** Vocabulary for the behaviour of the stages *)

(** The candidate file can be read and its ordering key extracted. *)
Definition readable (lib : libraries) (file_path : string) : bool :=
  match obind (ReadImage lib file_path) (slice_position lib) with
  | Return _ => true
  | Raise _ => false
  end.

(** Every vertex index of the face is an index into [verts]. *)
Definition face_in_range (verts : list vertex) (f : face) : Prop :=
  let '(f0, f1, f2) := f in
  f0 < List.length verts /\ f1 < List.length verts /\ f2 < List.length verts.

(** A computation leaves the files for which [keeps] holds as they were,
    whatever its outcome. *)
Definition frames {A} (keeps : world -> world -> Prop) (m : py A) : Prop :=
  forall w r w', m w = (r, w') -> keeps w w'.

(** The input directory, the mask and the mesh are as before. *)
Definition keeps_downstream (w w' : world) : Prop :=
  dicom_dir w' = dicom_dir w
  /\ segmented_volume_npy w' = segmented_volume_npy w
  /\ organ_model_stl w' = organ_model_stl w.

(** The input directory, the volume, the spacing and the generator are as
    before. *)
Definition keeps_upstream (w w' : world) : Prop :=
  dicom_dir w' = dicom_dir w
  /\ volume_npy w' = volume_npy w
  /\ spacing_npy w' = spacing_npy w
  /\ draws w' = draws w.

(** In the order of the slices, [b] may follow [a]: its key is not below
    the key of [a]. *)
Definition may_follow (a b : slice_entry) : Prop :=
  (sort_key b <? sort_key a)%float = false.

(** The ways in which the series reader of [process_dicom] arrives at an
    image for the candidate files: the first series that GDCM identifies;
    or, when it identifies none, the join of the readable slices in sorted
    order; or, when that join fails, the first slice of the sorted list
    alone. *)
Inductive decodes (lib : libraries) (dicom_files : list string)
  : image -> Prop :=
| decodes_series series_ID others dicom_series_files image :
    GetGDCMSeriesIDs lib DICOM_PATH = Return (series_ID :: others) ->
    GetGDCMSeriesFileNames lib DICOM_PATH series_ID
    = Return dicom_series_files ->
    Execute lib dicom_series_files = Return image ->
    decodes lib dicom_files image
| decodes_joined_slices image :
    GetGDCMSeriesIDs lib DICOM_PATH = Return [] ->
    read_slices lib dicom_files <> [] ->
    Execute lib
      (List.map (fun x : slice_entry => snd (fst x))
                (sort_slices lib (read_slices lib dicom_files)))
    = Return image ->
    decodes lib dicom_files image
| decodes_first_slice first rest e :
    GetGDCMSeriesIDs lib DICOM_PATH = Return [] ->
    sort_slices lib (read_slices lib dicom_files) = first :: rest ->
    Execute lib
      (List.map (fun x : slice_entry => snd (fst x))
                (sort_slices lib (read_slices lib dicom_files)))
    = Raise e ->
    decodes lib dicom_files (snd first).

(** The two artifacts that the Volume Source stores for a decoded image
    when the interpolation routine returns [resampled]. *)
Definition stored_volume (resampled : ndarray Z) : option (file npy) :=
  Some (Whole (Int16Array resampled)).

Definition stored_spacing (image : image) : option (file (vec3 float)) :=
  Some (Whole (resampled_spacing
                 (shape (convert_to_hu (GetArrayFromImage image)))
                 (reversed (GetSpacing image)) default_new_spacing)).

(** The file is the one that a write intended, or what a write that was cut
    short left of it. *)
Definition stored_or_torn {A} (intended f : option (file A)) : Prop :=
  f = intended \/ exists n, f = Some (Torn n).

(** The factor handed to the interpolation routine for a decoded image. *)
Definition zoom_factor (image : image) : vec3 float :=
  real_resize_factor (shape (convert_to_hu (GetArrayFromImage image)))
                     (reversed (GetSpacing image)) default_new_spacing.

(* ===================================================================== *)
(** ** backend/routes.py: the HTTP handlers around the pipeline

    A handler is a Python function that returns a Flask response; the
    response is kept as the data the handler builds it from.  The request of
    the upload handler is the list of the file names of its [dicomFiles]
    part, or nothing when the part is missing. *)

Inductive payload : Type :=
| ModelFile (f : file stl_mesh)
| VolumeFile (f : file npy)
| SegmentedFile (f : file (ndarray Z)).

Inductive message : Type :=
| Text (s : string)
| Str (e : exn)                     (* str(e) *)
| SuccessfullyUploaded (n : nat).   (* f"Successfully uploaded {n} ..." *)

Inductive response : Type :=
| SendFile (p : payload)                                (* 200 *)
| JsonError (error : message) (code : nat)              (* {"error": ..} *)
| JsonStatus (status : string) (msg : message) (code : nat).

Definition status_code (r : response) : nat :=
  match r with
  | SendFile _ => 200
  | JsonError _ code => code
  | JsonStatus _ _ code => code
  end.

(** [send_file(path)]: the response carries the file as it is on disk. *)
Definition send_file {A} (get : world -> option (file A))
  (wrap : file A -> payload) : py response :=
  fun w =>
    match get w with
    | Some f => (Return (SendFile (wrap f)), w)
    | None => (Raise FileNotFoundError, w)
    end.

(** The common shape of [serve_model], [serve_volume] and
    [serve_segmented_volume]. *)
Definition serve {A} (get : world -> option (file A))
  (wrap : file A -> payload) (not_found : string) : py response :=
  try_except
    (present <- exists_file get ;;
     if negb present then ret (JsonError (Text not_found) 404)
     else send_file get wrap)
    (fun e => ret (JsonError (Str e) 500)).

Definition serve_model : py response :=
  serve organ_model_stl ModelFile "Model file not found".

Definition serve_volume : py response :=
  serve volume_npy VolumeFile "Volume data not found".

Definition serve_segmented_volume : py response :=
  serve segmented_volume_npy SegmentedFile "Segmented volume data not found".

Definition set_dicom_dir (d : node) (w : world) : world :=
  mk_world d (volume_npy w) (spacing_npy w) (segmented_volume_npy w)
           (organ_model_stl w) (disk w) (normal w) (draws w).

(** [os.unlink(os.path.join(dicom_path, name))] removes the regular file of
    that name. *)
Definition os_unlink (name : string) : py unit :=
  fun w =>
    match dicom_dir w with
    | Directory entries =>
        (Return tt,
         set_dicom_dir
           (Directory
              (filter (fun d => negb (String.eqb (d_name d) name
                                      && d_isfile d)) entries)) w)
    | _ => (Raise FileNotFoundError, w)
    end.

(** The loop that clears the directory: regular files are unlinked, other
    entries are left. *)
Fixpoint clear_files (old_files : list dirent) : py unit :=
  match old_files with
  | [] => ret tt
  | old_file :: rest =>
      (if d_isfile old_file then os_unlink (d_name old_file) else ret tt) ;;;
      clear_files rest
  end.

(** [os.makedirs(dicom_path, exist_ok=True)]; the FileExistsError raised
    over a regular file is an OSError. *)
Definition os_makedirs_DICOM_PATH : py unit :=
  fun w =>
    match dicom_dir w with
    | Missing => (Return tt, set_dicom_dir (Directory []) w)
    | Directory _ => (Return tt, w)
    | RegularFile => (Raise OSError, w)
    end.

(** [file.save(os.path.join(dicom_path, filename))] opens the path for
    writing: an empty name or the name of a sub-directory is a directory
    path, refused with IsADirectoryError, an OSError; otherwise the file is
    created or replaced, wholly or, when the write is cut short, in part.
    The stream is written and closed by Python's own file object, which
    raises OSError for every write that does not complete. *)
Definition with_file (filename : string) (entries : list dirent)
  : list dirent :=
  if existsb (fun d => String.eqb (d_name d) filename) entries
  then entries
  else entries ++ [mk_dirent filename true].

Definition file_save (filename : string) : py unit :=
  fun w =>
    match dicom_dir w with
    | Directory entries =>
        if String.eqb filename EmptyString
           || existsb (fun d => String.eqb (d_name d) filename
                                && negb (d_isfile d)) entries
        then (Raise OSError, w)
        else
          let saved := set_dicom_dir (Directory (with_file filename entries))
          in
          match disk w with
          | [] => (Return tt, saved w)
          | None :: rest => (Return tt, saved (set_disk rest w))
          | Some _ :: rest => (Raise OSError, saved (set_disk rest w))
          end
    | _ => (Raise FileNotFoundError, w)
    end.

Section Routes.

Variable lib : libraries.
Variable lewiner : ndarray Z -> float -> list vertex * list face.

(** [werkzeug.utils.secure_filename]. *)
Variable secure_filename : string -> string.

(** The loop that saves the uploaded files; files without a name are
    passed over. *)
Fixpoint save_files (files : list string) (uploaded_count : nat) : py nat :=
  match files with
  | [] => ret uploaded_count
  | filename :: rest =>
      if String.eqb filename EmptyString then save_files rest uploaded_count
      else
        file_save (secure_filename filename) ;;;
        save_files rest (uploaded_count + 1)
  end.

Definition upload_dicom (request_files : option (list string))
  : py response :=
  try_except
    (match request_files with
     | None =>
         ret (JsonStatus "error" (Text "No files part in the request") 400)
     | Some files =>
         if (List.length files =? 0)
            || forallb (fun filename => String.eqb filename EmptyString) files
         then ret (JsonStatus "error" (Text "No files selected") 400)
         else
           present <- os_path_exists_DICOM_PATH ;;
           (if (present : bool)
            then old_files <- os_listdir_DICOM_PATH ;; clear_files old_files
            else ret tt) ;;;
           os_makedirs_DICOM_PATH ;;;
           uploaded_count <- save_files files 0 ;;
           ret (JsonStatus "success" (SuccessfullyUploaded uploaded_count)
                           200)
     end)
    (fun e => ret (JsonStatus "error" (Str e) 500)).

Definition start_processing : py response :=
  try_except
    (process_dicom lib ;;;
     run_segmentation ;;;
     create_3d_model lewiner ;;;
     ret (JsonStatus "success" (Text "Processing complete") 200))
    (fun e => ret (JsonStatus "error" (Str e) 500)).

End Routes.

(** The responses of the two POST handlers. *)
Definition processing_complete : response :=
  JsonStatus "success" (Text "Processing complete") 200.

Definition processing_error (e : exn) : response :=
  JsonStatus "error" (Str e) 500.

Definition upload_complete (uploaded_count : nat) : response :=
  JsonStatus "success" (SuccessfullyUploaded uploaded_count) 200.

(** The names under which the files of a request are saved: the secure
    names of the files that have a name, in the order of the request. *)
Definition uploaded_names (secure_filename : string -> string)
  (files : list string) : list string :=
  List.map secure_filename
           (filter (fun filename => negb (String.eqb filename EmptyString))
                   files).

(** The entries of the input directory; none when it does not exist. *)
Definition old_entries (w : world) : list dirent :=
  match dicom_dir w with
  | Directory entries => entries
  | _ => []
  end.

(** What the upload handler leaves alone: the four artifacts of the
    pipeline and the noise source. *)
Definition keeps_artifacts (w w' : world) : Prop :=
  volume_npy w' = volume_npy w
  /\ spacing_npy w' = spacing_npy w
  /\ segmented_volume_npy w' = segmented_volume_npy w
  /\ organ_model_stl w' = organ_model_stl w
  /\ draws w' = draws w.

(** The requests that the upload handler answers with status 400: no
    [dicomFiles] part, or no file with a name. *)
Definition rejected (request_files : option (list string)) : Prop :=
  match request_files with
  | None => True
  | Some files =>
      forall filename, In filename files -> filename = EmptyString
  end.

(* ===================================================================== *)
(** ** Concrete libraries, images and worlds

    Instances of the library interface and small worlds on which the
    pipeline is evaluated. *)

Module Scenario.

(** Truncation of a float64 to an integer. *)
Definition to_Z (x : float) : Z :=
  match Prim2SF x with
  | S754_finite s m e =>
      let v := if (0 <=? e)%Z then (Zpos m * 2 ^ e)%Z
               else (Zpos m / 2 ^ (- e))%Z in
      if s then (- v)%Z else v
  | _ => 0%Z
  end.

Definition to_nat (x : float) : nat := Z.to_nat (to_Z x).

(** A total interpolation routine: the output has [round(n * factor)]
    samples per axis and takes each sample from the input voxel below
    it. *)
Definition zoom_order0 (a : ndarray Z) (factor : vec3 float)
  : outcome (ndarray Z) :=
  let '(n0, n1, n2) := shape a in
  let '(f0, f1, f2) := factor in
  let m0 := to_nat (F64.np_round (F64.of_nat n0 * f0)) in
  let m1 := to_nat (F64.np_round (F64.of_nat n1 * f1)) in
  let m2 := to_nat (F64.np_round (F64.of_nat n2 * f2)) in
  Return (Np.tabulate (m0, m1, m2)
            (fun i j k =>
               nth (Np.ravel (shape a) (i * n0 / m0) (j * n1 / m1)
                             (k * n2 / m2))
                   (data a) 0%Z)).

Definition zoom_out_of_memory (a : ndarray Z) (factor : vec3 float)
  : outcome (ndarray Z) := Raise MemoryError.

(** One slice of 2x2 samples with 1 mm voxels. *)
Definition phantom : image :=
  mk_image (mk_ndarray (1, 2, 2) [-2000; 0; 300; 63536]%Z)
           (1%float, 1%float, 1%float)
           [].

(** [list.sort(key=...)] as CPython 3.11 runs it on a list of fewer than
    64 entries, comparing keys with [<] only: the run at the head is found,
    ascending while no entry is below its predecessor or strictly
    descending and then reversed, and the entries behind it are inserted
    one by one at the place a binary search gives.  Longer lists are merged
    from several such runs, which is not reproduced here. *)
Fixpoint run_end (descending : bool) (prev : slice_entry)
  (l : list slice_entry) : nat :=
  match l with
  | [] => 0
  | x :: rest =>
      if Bool.eqb (sort_key x <? sort_key prev)%float descending
      then S (run_end descending x rest)
      else 0
  end.

Fixpoint binary_search (fuel : nat) (pivot : slice_entry)
  (sorted : list slice_entry) (l r : nat) : nat :=
  match fuel with
  | 0 => l
  | S fuel' =>
      let p := l + (r - l) / 2 in
      match nth_error sorted p with
      | None => l
      | Some x =>
          let '(l', r') :=
            if (sort_key pivot <? sort_key x)%float then (l, p)
            else (S p, r) in
          if l' <? r' then binary_search fuel' pivot sorted l' r' else l'
      end
  end.

Definition binary_insert (sorted : list slice_entry) (pivot : slice_entry)
  : list slice_entry :=
  let l := binary_search (S (List.length sorted)) pivot sorted 0
                         (List.length sorted) in
  firstn l sorted ++ pivot :: skipn l sorted.

Definition python_sort (slices_data : list slice_entry)
  : list slice_entry :=
  match slices_data with
  | a0 :: a1 :: rest =>
      let descending := (sort_key a1 <? sort_key a0)%float in
      let n := 2 + run_end descending a1 rest in
      let run := firstn n slices_data in
      fold_left binary_insert (skipn n slices_data)
                (if descending then rev run else run)
  | _ => slices_data
  end.

(** A directory whose files SimpleITK cannot read. *)
Definition lib_undecodable : libraries :=
  mk_libraries (fun _ => Return [])
               (fun _ _ => Raise RuntimeError)
               (fun _ => Raise RuntimeError)
               (fun _ => Raise RuntimeError)
               (fun _ => Raise ValueError)
               zoom_order0
               python_sort.

(** A directory holding one series that reads as [phantom]. *)
Definition lib_series (zoom : ndarray Z -> vec3 float -> outcome (ndarray Z))
  : libraries :=
  mk_libraries (fun _ => Return ["1.2.840.1"%string])
               (fun _ _ => Return [Str.path_join DICOM_PATH "ct001.dcm"])
               (fun _ => Return phantom)
               (fun _ => Return phantom)
               (fun _ => Raise ValueError)
               zoom
               python_sort.

Definition quiet : nat -> nat -> nat -> nat -> float :=
  fun _ _ _ _ => 0%float.

(** Noise whose first field puts exactly the sentinel at voxel
    [(0, 0, 0)]. *)
Definition sentinel_noise : nat -> nat -> nat -> nat -> float :=
  fun _ z y x =>
    match z, y, x with
    | O, O, O => (-2000)%float
    | _, _, _ => 0%float
    end.

(** Nothing on disk, no input directory. *)
Definition fresh (noise : nat -> nat -> nat -> nat -> float) : world :=
  mk_world Missing None None None None [] noise 0.

Definition one_file : node :=
  Directory [mk_dirent "ct001.dcm" true].

(** An input directory with one slice file; [d] is the fate of the
    writes to come. *)
Definition uploaded (d : list (option cut)) : world :=
  mk_world one_file None None None None d quiet 0.

(** The world after the write of the decoded volume was interrupted at
    once: a torn volume file, and two writes that the disk will accept. *)
Definition after_torn_volume : world :=
  mk_world one_file (Some (Torn 0)) None None None [None; None] quiet 0.

(** A persisted volume of 1x2x2 int16 samples, and one of float64. *)
Definition int16_volume : npy :=
  Int16Array (mk_ndarray (1, 2, 2) [199; 200; 201; -5]%Z).

Definition float64_volume : npy :=
  Float64Array
    (mk_ndarray (1, 2, 2) [200%float; 200.5%float; nan; 800%float]).

Definition with_volume (v : npy) : world :=
  mk_world Missing (Some (Whole v)) None None None [] quiet 0.

(** Masks of 2x2x2 voxels. *)
Definition all_zero : ndarray Z :=
  mk_ndarray (2, 2, 2) [0; 0; 0; 0; 0; 0; 0; 0]%Z.

Definition all_one : ndarray Z :=
  mk_ndarray (2, 2, 2) [1; 1; 1; 1; 1; 1; 1; 1]%Z.

Definition corner : ndarray Z :=
  mk_ndarray (2, 2, 2) [1; 0; 0; 0; 0; 0; 0; 0]%Z.

(** The triangulation of a constant field is empty. *)
Definition lewiner_empty (volume : ndarray Z) (level : float)
  : list vertex * list face := ([], []).

(** A triangulation that cuts one corner: three vertices on the edges
    leaving voxel [(0, 0, 0)] and the one face through them, its vertices
    listed from the last to the first. *)
Definition lewiner_corner (volume : ndarray Z) (level : float)
  : list vertex * list face :=
  ([(0.5%float, 0%float, 0%float);
    (0%float, 0.5%float, 0%float);
    (0%float, 0%float, 0.5%float)],
   [(2, 1, 0)]).

Definition old_mesh : stl_mesh :=
  [((0%float, 0%float, 0%float),
    (1%float, 0%float, 0%float),
    (0%float, 1%float, 0%float))].

(** A mask on disk, an optional earlier mesh, and the fate of the
    writes to come. *)
Definition segmented (mask : ndarray Z) (stl : option (file stl_mesh))
  (d : list (option cut)) : world :=
  mk_world Missing None None (Some (Whole mask)) stl d quiet 0.

End Scenario.

(* ===================================================================== *)
(** ** Further concrete cases *)

Module Cases.

(** Vertices and faces of a tetrahedron, and a face list whose second face
    names a vertex that does not exist. *)
Definition tetra_verts : list vertex :=
  [(0, 0, 0); (1, 0, 0); (0, 1, 0); (0, 0, 1)]%float.

Definition tetra_faces : list face :=
  [(0, 1, 2); (0, 1, 3); (0, 2, 3); (1, 2, 3)].

Definition broken_faces : list face := [(0, 1, 2); (0, 1, 4)].

(** A mask file whose write was interrupted. *)
Definition torn_mask : world :=
  mk_world Missing None None (Some (Torn 128)) None [] Scenario.quiet 0.

(** A store whose mask file was cut before its first byte. *)
Definition empty_mask : world :=
  mk_world Missing None None (Some (Torn 0)) None [] Scenario.quiet 0.

(** A directory with a slice in upper case, an extensionless slice, a text
    file and a sub-directory named like a slice. *)
Definition mixed_entries : list dirent :=
  [mk_dirent "CT001.DCM" true; mk_dirent "IMG0002" true;
   mk_dirent "notes.txt" true; mk_dirent "old.dcm" false].

(** Libraries that read every file but "bad" as the phantom image. *)
Definition lib_reads_all_but_bad : libraries :=
  mk_libraries (fun _ => Return [])
               (fun _ _ => Raise RuntimeError)
               (fun _ => Raise RuntimeError)
               (fun p => if String.eqb p "bad" then Raise RuntimeError
                         else Return Scenario.phantom)
               (fun _ => Raise ValueError)
               Scenario.zoom_order0
               Scenario.python_sort.

(** Two slices with instance numbers: "s2" sorts after "s1". *)
Definition slice (n : string) : image :=
  mk_image (mk_ndarray (1, 2, 2) [0; 0; 300; 0]%Z)
           (1%float, 1%float, 1%float)
           [("0020|0013"%string, n)].

(** Libraries that find no series, read "…/s2" and "…/s1" as slices with
    instance numbers 2 and 1, and cannot join them. *)
Definition lib_unjoinable : libraries :=
  mk_libraries (fun _ => Return [])
               (fun _ _ => Raise RuntimeError)
               (fun _ => Raise RuntimeError)
               (fun p => if String.eqb p (Str.path_join DICOM_PATH "s2")
                         then Return (slice "2")
                         else Return (slice "1"))
               (fun s => if String.eqb s "2" then Return 2%float
                         else Return 1%float)
               Scenario.zoom_order0
               Scenario.python_sort.

Definition two_slices : list string :=
  [Str.path_join DICOM_PATH "s2"; Str.path_join DICOM_PATH "s1"].

(** The world after the one-file series was decoded and stored. *)
Definition decoded : world :=
  mk_world Scenario.one_file
           (Some (Whole (Int16Array
                           (mk_ndarray (1, 2, 2) [0; 0; 300; 0]%Z))))
           (Some (Whole (1, 1, 1)%float))
           None None [] Scenario.quiet 0.

(** The store after the same run when both writes are cut after 130
    bytes, unnoticed. *)
Definition torn_decoded : world :=
  mk_world Scenario.one_file (Some (Torn 130)) (Some (Torn 130)) None None
           [] Scenario.quiet 0.

(** The triangle soup of the corner triangulation. *)
Definition corner_soup : stl_mesh :=
  [((0, 0, 0.5), (0, 0.5, 0), (0.5, 0, 0))%float].


(** A series of four slices whose single bright voxel gives a mask with one
    corner set, and the libraries that read it. *)
Definition bright_corner : image :=
  mk_image (mk_ndarray (2, 2, 2) [300; 0; 0; 0; 0; 0; 0; 0]%Z)
           (1%float, 1%float, 1%float)
           [].

Definition lib_bright : libraries :=
  mk_libraries (fun _ => Return ["1.2.840.1"%string])
               (fun _ _ => Return [Str.path_join DICOM_PATH "ct001.dcm"])
               (fun _ => Return bright_corner)
               (fun _ => Return bright_corner)
               (fun _ => Raise ValueError)
               Scenario.zoom_order0
               Scenario.python_sort.

(** A sanitiser in the manner of [secure_filename]: path separators are
    not modelled, and a name made of dots only has no secure name. *)
Definition secure_basic (filename : string) : string :=
  if String.eqb filename ".." || String.eqb filename "."
  then EmptyString else filename.

(** The store after a run on the one-slice series, whose mask is one voxel
    deep: the extraction raises and no mesh is written. *)
Definition unextractable : world :=
  mk_world Scenario.one_file
           (Some (Whole (Int16Array
                           (mk_ndarray (1, 2, 2) [0; 0; 300; 0]%Z))))
           (Some (Whole (1, 1, 1)%float))
           (Some (Whole (mk_ndarray (1, 2, 2) [0; 0; 1; 0]%Z)))
           None [] Scenario.quiet 0.

(** The same run when the write of the mesh is cut after its header. *)
Definition interrupted : world :=
  mk_world Scenario.one_file
           (Some (Whole (Int16Array
                           (mk_ndarray (2, 2, 2)
                                       [300; 0; 0; 0; 0; 0; 0; 0]%Z))))
           (Some (Whole (1, 1, 1)%float))
           (Some (Whole Scenario.corner))
           (Some (Torn 84))
           [] Scenario.quiet 0.

(** An input directory left by an earlier upload, beside a sub-directory. *)
Definition earlier_upload : world :=
  mk_world (Directory [mk_dirent "old001.dcm" true;
                       mk_dirent "notes" false;
                       mk_dirent "old002.dcm" true])
           None None None (Some (Whole corner_soup)) [] Scenario.quiet 0.

(** The same store when the second write of the upload is interrupted. *)
Definition earlier_upload_faulty : world :=
  mk_world (Directory [mk_dirent "old001.dcm" true;
                       mk_dirent "notes" false;
                       mk_dirent "old002.dcm" true])
           None None None (Some (Whole corner_soup)) [None; Some (Reported 10)]
           Scenario.quiet 0.

(** A request with two named files, one of them twice, and a part without
    a name. *)
Definition request : list string :=
  ["ct001.dcm"; EmptyString; "ct002.dcm"; "ct001.dcm"]%string.

(** The store after the upload of [request] over [earlier_upload]. *)
Definition after_upload : world :=
  mk_world (Directory [mk_dirent "notes" false;
                       mk_dirent "ct001.dcm" true;
                       mk_dirent "ct002.dcm" true])
           None None None (Some (Whole corner_soup)) [] Scenario.quiet 0.

(** A request with a file whose name has no secure name. *)
Definition request_dots : list string := ["ct001.dcm"; ".."]%string.

End Cases.

(* ===================================================================== *)
(** * Properties *)

(** After unfolding a function of the code, name again the functions it
    calls. *)
Ltac fold_stages :=
  repeat match goal with
         | |- context [read_series_with ?l generate_synthetic_volume] =>
             progress fold (read_series l)
         | |- context [decode_and_store_with ?l generate_synthetic_volume] =>
             progress fold (decode_and_store l)
         end.

Ltac open_process_dicom :=
  unfold process_dicom, process_dicom_with; fold_stages.

Ltac open_decode_and_store :=
  unfold decode_and_store, decode_and_store_with; fold_stages.

Ltac open_read_series :=
  unfold read_series, read_series_with; fold_stages.

(** ** Arrays *)

Section ArrayFacts.

Context {A : Type}.

Lemma shape_tabulate (sh : shape3) (f : nat -> nat -> nat -> A) :
  shape (Np.tabulate sh f) = sh.
Proof. destruct sh as [[n0 n1] n2]. reflexivity. Qed.

(** Element [i * m + j] of the concatenation of rows of length [m]. *)
Lemma nth_error_rows (g : nat -> list A) (m : nat) :
  (forall x, List.length (g x) = m) ->
  forall n s i j, i < n -> j < m ->
    nth_error (flat_map g (seq s n)) (i * m + j) = nth_error (g (s + i)) j.
Proof.
  intros Hlen. induction n as [|n IH]; intros s i j Hi Hj; [lia|].
  cbn [seq flat_map]. destruct i as [|i].
  - rewrite nth_error_app1 by (rewrite Hlen; lia).
    now rewrite Nat.add_0_r.
  - cbn [Nat.mul].
    rewrite nth_error_app2 by (rewrite Hlen; lia).
    rewrite Hlen.
    replace (m + i * m + j - m) with (i * m + j) by lia.
    rewrite IH by lia. f_equal. f_equal. lia.
Qed.

Lemma length_rows (g : nat -> list A) (m : nat) :
  (forall x, List.length (g x) = m) ->
  forall n s, List.length (flat_map g (seq s n)) = n * m.
Proof.
  intros Hlen. induction n as [|n IH]; intros s; [reflexivity|].
  cbn [seq flat_map Nat.mul]. rewrite length_app, Hlen, IH. lia.
Qed.

Lemma length_tabulate (sh : shape3) (f : nat -> nat -> nat -> A) :
  List.length (data (Np.tabulate sh f)) = Np.size sh.
Proof.
  destruct sh as [[n0 n1] n2]. cbn [Np.tabulate data Np.size].
  rewrite length_rows with (m := n1 * n2); [lia|].
  intros i. rewrite length_rows with (m := n2); [lia|].
  intros j. now rewrite length_map, length_seq.
Qed.

Lemma well_formed_tabulate (sh : shape3) (f : nat -> nat -> nat -> A) :
  Np.well_formed (Np.tabulate sh f).
Proof.
  unfold Np.well_formed. now rewrite length_tabulate, shape_tabulate.
Qed.

Lemma nth_error_tabulate (n0 n1 n2 : nat) (f : nat -> nat -> nat -> A)
  (i j k : nat) :
  i < n0 -> j < n1 -> k < n2 ->
  nth_error (data (Np.tabulate (n0, n1, n2) f)) ((i * n1 + j) * n2 + k)
  = Some (f i j k).
Proof.
  intros Hi Hj Hk. cbn [Np.tabulate data].
  replace ((i * n1 + j) * n2 + k) with (i * (n1 * n2) + (j * n2 + k))
    by lia.
  rewrite nth_error_rows with (m := n1 * n2); [| |lia|nia].
  - rewrite nth_error_rows with (m := n2); [| |lia|lia].
    + rewrite nth_error_map, nth_error_seq.
      destruct (Nat.ltb_spec k n2); [reflexivity|lia].
    + intros y. now rewrite length_map, length_seq.
  - intros x. rewrite length_rows with (m := n2); [lia|].
    intros y. now rewrite length_map, length_seq.
Qed.

Lemma in_bounds_lt (n0 n1 n2 i j k : nat) :
  Np.in_bounds (n0, n1, n2) i j k = true <-> i < n0 /\ j < n1 /\ k < n2.
Proof.
  cbn [Np.in_bounds]. rewrite !andb_true_iff, !Nat.ltb_lt. tauto.
Qed.

Lemma item_tabulate (sh : shape3) (f : nat -> nat -> nat -> A)
  (i j k : nat) :
  Np.in_bounds sh i j k = true ->
  Np.item (Np.tabulate sh f) i j k = Some (f i j k).
Proof.
  intros Hb. unfold Np.item. rewrite shape_tabulate, Hb.
  destruct sh as [[n0 n1] n2]. apply in_bounds_lt in Hb.
  cbn [Np.ravel]. now apply nth_error_tabulate.
Qed.

(** Every element of a tabulated array is a value of the function at an
    index within bounds. *)
Lemma in_tabulate (n0 n1 n2 : nat) (f : nat -> nat -> nat -> A) (v : A) :
  In v (data (Np.tabulate (n0, n1, n2) f)) ->
  exists i j k, i < n0 /\ j < n1 /\ k < n2 /\ v = f i j k.
Proof.
  cbn [Np.tabulate data]. intros H.
  apply in_flat_map in H as (i & Hi & H).
  apply in_flat_map in H as (j & Hj & H).
  apply in_map_iff in H as (k & <- & Hk).
  apply in_seq in Hi, Hj, Hk. exists i, j, k. repeat split; lia.
Qed.

Lemma ravel_lt (n0 n1 n2 i j k : nat) :
  i < n0 -> j < n1 -> k < n2 ->
  Np.ravel (n0, n1, n2) i j k < Np.size (n0, n1, n2).
Proof.
  cbn [Np.ravel Np.size]. intros Hi Hj Hk.
  assert (H1 : i * n1 + j + 1 <= n0 * n1) by nia.
  assert (H2 : (i * n1 + j + 1) * n2 <= n0 * n1 * n2)
    by now apply Nat.mul_le_mono_r.
  nia.
Qed.

End ArrayFacts.

Lemma item_map {A B} (f : A -> B) (a : ndarray A) (i j k : nat) :
  Np.item (Np.map f a) i j k = option_map f (Np.item a i j k).
Proof.
  unfold Np.item, Np.map. cbn [shape data].
  destruct (Np.in_bounds (shape a) i j k); [|reflexivity].
  apply nth_error_map.
Qed.

(* ===================================================================== *)
(** ** The store *)

(** A write that the disk accepts stores the whole content. *)
Lemma save_accepted {A} (put : option (file A) -> world -> world)
  (content : A) (w : world) :
  accepts 1 (disk w) = true ->
  save put content w
  = (Return tt, put (Some (Whole content)) (set_disk (tl (disk w)) w)).
Proof.
  unfold save. destruct w as [dd v s g m d nz dr]; cbn [disk].
  destruct d as [|[[n|n]|] rest]; cbn; intros H;
    [reflexivity|discriminate|discriminate|reflexivity].
Qed.

(** A write that is cut short leaves the torn file; it raises when the cut
    is reported and returns when it is not. *)
Lemma save_reported {A} (put : option (file A) -> world -> world)
  (content : A) (w : world) (n : nat) (rest : list (option cut)) :
  disk w = Some (Reported n) :: rest ->
  save put content w = (Raise OSError, put (Some (Torn n)) (set_disk rest w)).
Proof. unfold save. now intros ->. Qed.

Lemma save_unnoticed {A} (put : option (file A) -> world -> world)
  (content : A) (w : world) (n : nat) (rest : list (option cut)) :
  disk w = Some (Unnoticed n) :: rest ->
  save put content w = (Return tt, put (Some (Torn n)) (set_disk rest w)).
Proof. unfold save. now intros ->. Qed.

(* ===================================================================== *)
(** ** Mask Segmenter *)

Lemma mask_values (volume : npy) (t : Z) (v : Z) :
  In v (data (astype_uint8 (greater volume t))) -> (v = 0 \/ v = 1)%Z.
Proof.
  unfold astype_uint8, Np.map. cbn [data]. intros H.
  apply in_map_iff in H as ([|] & <- & _); auto.
Qed.

Lemma mask_shape (volume : npy) (t : Z) :
  shape (astype_uint8 (greater volume t)) = npy_shape volume
  /\ List.length (data (astype_uint8 (greater volume t))) = npy_length volume.
Proof.
  destruct volume as [a|a]; cbn; now rewrite !length_map.
Qed.

Lemma mask_item (volume : npy) (t : Z) (i j k : nat) :
  Np.item (astype_uint8 (greater volume t)) i j k = Some 1%Z
  <-> exceeds volume t i j k.
Proof.
  unfold astype_uint8. rewrite item_map.
  destruct volume as [a|a]; cbn [greater exceeds]; rewrite item_map;
    destruct (Np.item a i j k) as [v|]; cbn [option_map].
  - destruct (Z.gtb_spec v t) as [Hgt|Hle]; split.
    + intros _. exists v. split; [reflexivity|lia].
    + reflexivity.
    + discriminate.
    + intros (v' & [= <-] & Hlt). lia.
  - split; [discriminate|]. now intros (v' & [=] & _).
  - unfold F64.gt. destruct (F64.of_Z t <? v)%float eqn:E; split.
    + intros _. now exists v.
    + reflexivity.
    + discriminate.
    + intros (v' & [= <-] & Hlt). congruence.
  - split; [discriminate|]. now intros (v' & [=] & _).
Qed.

Lemma mask_at_threshold (volume : npy) (i j k : nat) :
  sample_is volume threshold i j k ->
  Np.item (astype_uint8 (greater volume threshold)) i j k = Some 0%Z.
Proof.
  unfold astype_uint8. rewrite item_map.
  destruct volume as [a|a]; cbn [greater sample_is]; rewrite item_map;
    intros ->; reflexivity.
Qed.

(** C1. For every persisted volume, [run_segmentation] stores a mask of the
    same shape whose elements are 0 or 1; a voxel of the mask is 1 exactly
    when the sample of the volume strictly exceeds the threshold 200, so a
    sample equal to the threshold gives 0. *)
Theorem run_segmentation_threshold_mask (w : world) (volume : npy) :
  volume_npy w = Some (Whole volume) ->
  accepts 1 (disk w) = true ->
  exists w' mask,
    run_segmentation w = (Return true, w')
    /\ segmented_volume_npy w' = Some (Whole mask)
    /\ shape mask = npy_shape volume
    /\ List.length (data mask) = npy_length volume
    /\ (forall v, In v (data mask) -> v = 0 \/ v = 1)%Z
    /\ (forall i j k,
          Np.item mask i j k = Some 1%Z <-> exceeds volume 200 i j k)
    /\ (forall i j k,
          sample_is volume 200 i j k -> Np.item mask i j k = Some 0%Z).
Proof.
  intros Hvol Hdisk.
  exists (set_segmented_volume_npy
            (Some (Whole (astype_uint8 (greater volume threshold))))
            (set_disk (tl (disk w)) w)),
         (astype_uint8 (greater volume threshold)).
  split; [|split; [reflexivity|]].
  - unfold run_segmentation, try_except, bind, load.
    rewrite Hvol, save_accepted by assumption. reflexivity.
  - destruct (mask_shape volume threshold) as [Hs Hl].
    repeat split; try assumption.
    + apply mask_values.
    + apply mask_item.
    + apply mask_item.
    + apply mask_at_threshold.
Qed.

(** The int16 volume [[199, 200, 201, -5]]: only the third voxel is set. *)
Lemma run_segmentation_threshold_mask_witness :
  exists w' mask,
    run_segmentation (Scenario.with_volume Scenario.int16_volume)
    = (Return true, w')
    /\ segmented_volume_npy w' = Some (Whole mask)
    /\ shape mask = (1, 2, 2)
    /\ List.length (data mask) = 4
    /\ (forall v, In v (data mask) -> v = 0 \/ v = 1)%Z
    /\ (forall i j k,
          Np.item mask i j k = Some 1%Z
          <-> exceeds Scenario.int16_volume 200 i j k)
    /\ (forall i j k,
          sample_is Scenario.int16_volume 200 i j k ->
          Np.item mask i j k = Some 0%Z).
Proof.
  apply (@run_segmentation_threshold_mask
           (Scenario.with_volume Scenario.int16_volume)
           Scenario.int16_volume); reflexivity.
Defined.

Example run_segmentation_int16 :
  segmented_volume_npy
    (snd (run_segmentation (Scenario.with_volume Scenario.int16_volume)))
  = Some (Whole (mk_ndarray (1, 2, 2) [0; 0; 1; 0]%Z)).
Proof. reflexivity. Qed.

(** Float samples: 200.0 and NaN give 0, 200.5 and 800.0 give 1. *)
Example run_segmentation_float64 :
  segmented_volume_npy
    (snd (run_segmentation (Scenario.with_volume Scenario.float64_volume)))
  = Some (Whole (mk_ndarray (1, 2, 2) [0; 1; 0; 1]%Z)).
Proof. reflexivity. Qed.

(* ===================================================================== *)
(** ** Intensity Normalizer *)

Lemma astype_int16_id (v : Z) :
  (-32768 <= v <= 32767)%Z -> astype_int16 v = v.
Proof.
  intros H. unfold astype_int16.
  rewrite Z.mod_small by lia. lia.
Qed.

Lemma astype_int16_range (v : Z) :
  (-32768 <= astype_int16 v <= 32767)%Z.
Proof.
  unfold astype_int16.
  pose proof (Z.mod_pos_bound (v + 32768) 65536 ltac:(lia)). lia.
Qed.

(** C7. The normaliser is one function of the sample applied to every voxel
    whatever its position; it keeps the shape and yields int16 values; after
    the conversion to int16 a voxel equal to the sentinel -2000 becomes 0
    and every other voxel keeps its converted value, which for a sample
    within the int16 range is the sample itself. *)
Theorem convert_to_hu_per_voxel (image_array : ndarray Z) :
  convert_to_hu image_array
  = Np.map (fun v => handle_air (astype_int16 v)) image_array
  /\ shape (convert_to_hu image_array) = shape image_array
  /\ List.length (data (convert_to_hu image_array))
     = List.length (data image_array)
  /\ forall i j k v,
       Np.item image_array i j k = Some v ->
       exists hu,
         Np.item (convert_to_hu image_array) i j k = Some hu
         /\ (-32768 <= hu <= 32767)%Z
         /\ (astype_int16 v = -2000 -> hu = 0)%Z
         /\ (astype_int16 v <> -2000 -> hu = astype_int16 v)%Z
         /\ ((-32768 <= v <= 32767)%Z -> v <> (-2000)%Z -> hu = v).
Proof.
  assert (E : convert_to_hu image_array
              = Np.map (fun v => handle_air (astype_int16 v)) image_array).
  { unfold convert_to_hu, Np.map. cbn [shape data]. now rewrite map_map. }
  split; [exact E|]. rewrite E. split; [reflexivity|].
  split; [apply length_map|].
  intros i j k v Hv. rewrite item_map, Hv. cbn [option_map].
  eexists. split; [reflexivity|]. unfold handle_air, sentinel.
  pose proof (astype_int16_range v) as Hrange.
  destruct (Z.eqb_spec (astype_int16 v) (-2000)) as [Heq|Hne].
  - repeat split; intros; try reflexivity; try contradiction; try lia.
    rewrite astype_int16_id in Heq by assumption. contradiction.
  - repeat split; intros; try reflexivity; try contradiction; try lia.
    now apply astype_int16_id.
Qed.

Lemma convert_to_hu_per_voxel_witness :
  exists hu,
    Np.item (convert_to_hu (GetArrayFromImage Scenario.phantom)) 0 1 0
    = Some hu
    /\ (-32768 <= hu <= 32767)%Z
    /\ (astype_int16 300 = -2000 -> hu = 0)%Z
    /\ (astype_int16 300 <> -2000 -> hu = astype_int16 300)%Z
    /\ ((-32768 <= 300 <= 32767)%Z -> 300%Z <> (-2000)%Z -> hu = 300%Z).
Proof.
  apply (proj2 (proj2 (proj2
           (convert_to_hu_per_voxel (GetArrayFromImage Scenario.phantom))))
           0 1 0 300%Z).
  reflexivity.
Defined.

(** The slice [[-2000, 0, 300, 63536]]: the sentinel and the sample that
    wraps around to the sentinel both become 0. *)
Example convert_to_hu_phantom :
  convert_to_hu (GetArrayFromImage Scenario.phantom)
  = mk_ndarray (1, 2, 2) [0; 0; 300; 0]%Z.
Proof. reflexivity. Qed.

(* ===================================================================== *)
(** ** The monad *)

Lemma bind_return {A B} (m : py A) (k : A -> py B) (w w' : world) (a : A) :
  m w = (Return a, w') -> bind m k w = k a w'.
Proof. unfold bind. now intros ->. Qed.

Lemma try_return {A} (m : py A) (h : exn -> py A) (w w' : world) (a : A) :
  m w = (Return a, w') -> try_except m h w = (Return a, w').
Proof. unfold try_except. now intros ->. Qed.

(** A handler that ignores which exception it caught. *)
Lemma try_raise_any {A} (m : py A) (h : exn -> py A) (w w' : world)
  (r : outcome A * world) :
  (exists e, m w = (Raise e, w')) -> (forall e, h e w' = r) ->
  try_except m h w = r.
Proof. intros [e He] Hh. unfold try_except. now rewrite He. Qed.

(** A handler that re-raises changes nothing. *)
Lemma try_reraise {A} (m : py A) (w : world) :
  try_except m (fun e => raise e) w = m w.
Proof.
  unfold try_except, raise. now destruct (m w) as [[a|e] w'].
Qed.

(* ===================================================================== *)
(** ** Procedural synthesis *)

Lemma accepts_2 (d : list (option cut)) :
  accepts 2 d = true ->
  accepts 1 d = true /\ accepts 1 (tl d) = true.
Proof.
  destruct d as [|[c|] [|[c'|] rest]]; cbn; intros H;
    try discriminate; now split.
Qed.

(** With a disk that accepts its two writes the synthesis succeeds: it
    stores the synthetic array and the unit spacing and touches nothing
    else. *)
Lemma generate_synthetic_volume_accepted (w : world) :
  accepts 2 (disk w) = true ->
  exists w',
    generate_synthetic_volume w = (Return true, w')
    /\ volume_npy w'
       = Some (Whole (Float64Array (synthetic_volume (normal w (draws w)))))
    /\ spacing_npy w' = Some (Whole Synthetic.spacing)
    /\ dicom_dir w' = dicom_dir w
    /\ segmented_volume_npy w' = segmented_volume_npy w
    /\ organ_model_stl w' = organ_model_stl w
    /\ disk w' = skipn 2 (disk w).
Proof.
  intros H. apply accepts_2 in H as [H1 H2].
  unfold generate_synthetic_volume. rewrite try_reraise.
  unfold bind at 1, np_random_normal. rewrite shape_tabulate.
  unfold bind at 1. rewrite save_accepted by exact H1.
  unfold bind at 1. rewrite save_accepted by exact H2.
  eexists. split; [reflexivity|].
  destruct w as [dd v s g m d nz dr]. cbn [disk] in *.
  destruct d as [|o [|o' rest]]; repeat split; reflexivity.
Qed.

(** The synthesis of the model raises only when one of its two writes is
    cut short and the cut is reported; it then raises OSError and leaves a
    torn file. *)
Lemma generate_synthetic_volume_raises (w w' : world) (e : exn) :
  generate_synthetic_volume w = (Raise e, w') ->
  e = OSError
  /\ accepts 2 (disk w) = false
  /\ exists n, volume_npy w' = Some (Torn n) \/ spacing_npy w' = Some (Torn n).
Proof.
  unfold generate_synthetic_volume. rewrite try_reraise.
  unfold bind at 1, np_random_normal. rewrite shape_tabulate.
  destruct w as [dd v s g m d nz dr].
  destruct d as [|[[n|n]|] [|[[n'|n']|] rest]];
    cbv [bind save set_draws set_disk set_volume_npy set_spacing_npy
         ret disk dicom_dir volume_npy spacing_npy segmented_volume_npy
         organ_model_stl normal draws];
    intros H; try discriminate H;
    pose proof (f_equal fst H) as He; pose proof (f_equal snd H) as Hw;
    cbn [fst snd] in He, Hw; injection He as <-; subst w';
    (split; [reflexivity|split; [reflexivity|]]);
    eexists; first [left; reflexivity|right; reflexivity].
Qed.

(* ===================================================================== *)
(** ** Volume Source *)

Section VolumeSourceFacts.

Variable lib : libraries.

Lemma read_slices_unreadable (dicom_files : list string) :
  (forall file_path, In file_path dicom_files ->
                     exists e, ReadImage lib file_path = Raise e) ->
  read_slices lib dicom_files = [].
Proof.
  induction dicom_files as [|file_path rest IH]; intros H; [reflexivity|].
  cbn [read_slices].
  destruct (H file_path (or_introl eq_refl)) as [e ->]. cbn [obind].
  apply IH. intros p Hp. apply H. now right.
Qed.

(** When the series cannot be read, [read_series] ends with the value of
    the synthesis. *)
Lemma read_series_falls_back (dicom_files : list string) (w w' : world)
  (b : bool) :
  (exists e, GetGDCMSeriesIDs lib DICOM_PATH = Raise e)
  \/ (exists series_ID others e,
        GetGDCMSeriesIDs lib DICOM_PATH = Return (series_ID :: others)
        /\ obind (GetGDCMSeriesFileNames lib DICOM_PATH series_ID)
                 (Execute lib) = Raise e)
  \/ (GetGDCMSeriesIDs lib DICOM_PATH = Return []
      /\ read_slices lib dicom_files = []) ->
  generate_synthetic_volume w = (Return b, w') ->
  read_series lib dicom_files w = (Return (inr b), w').
Proof.
  intros Hcase Hgen. open_read_series.
  assert (Hfallback :
            bind generate_synthetic_volume (fun b => ret (inr b)) w
            = (Return (@inr image bool b), w')).
  { erewrite bind_return; [reflexivity|exact Hgen]. }
  destruct Hcase as [[e He]|[(id & ids & e & Hid & Hex)|[Hid Hsl]]].
  - apply try_raise_any with (w' := w); [|intros _; exact Hfallback].
    exists e. unfold bind, lift. now rewrite He.
  - apply try_raise_any with (w' := w); [|intros _; exact Hfallback].
    unfold bind, lift. rewrite Hid.
    destruct (GetGDCMSeriesFileNames lib DICOM_PATH id) as [names|e'];
      cbn [obind] in Hex; [exists e; now rewrite Hex|now exists e'].
  - erewrite try_return; [reflexivity|].
    unfold bind at 1, lift. rewrite Hid, Hsl. exact Hfallback.
Qed.

(** With nothing to decode, the Volume Source does what the synthesis does
    on the same world. *)
Lemma process_dicom_falls_back (w w' : world) (b : bool) :
  no_decodable_input lib (dicom_dir w) ->
  generate_synthetic_volume w = (Return b, w') ->
  process_dicom lib w = (Return b, w').
Proof.
  intros Hno Hgen. open_process_dicom.
  assert (Hdirectory : forall entries,
             dicom_dir w = Directory entries ->
             (candidates entries = []
              \/ forall dicom_files,
                   read_series lib dicom_files w = (Return (inr b), w')) ->
             decode_and_store lib w = (Return b, w')).
  { intros entries Hdir Hcase. open_decode_and_store.
    unfold bind at 1, os_path_exists_DICOM_PATH. rewrite Hdir.
    unfold bind at 1. unfold bind at 1, os_listdir_DICOM_PATH.
    rewrite Hdir. unfold ret at 1.
    destruct entries as [|d entries']; [exact Hgen|].
    cbn [List.length Nat.eqb]. unfold bind at 1. rewrite Hdir.
    destruct Hcase as [-> | Hread]; [exact Hgen|].
    destruct (candidates (d :: entries')) as [|f fs]; [exact Hgen|].
    unfold bind at 1. now rewrite Hread. }
  inversion Hno as [Hd|Hd|Hd|entries Hc Hd|entries e He Hd
                    |entries id ids e Hid Hex Hd|entries Hid Hun Hd];
    symmetry in Hd.
  - apply try_return. open_decode_and_store.
    unfold bind at 1, os_path_exists_DICOM_PATH. rewrite Hd.
    exact Hgen.
  - apply try_raise_any with (w' := w); [|intros _; exact Hgen].
    exists NotADirectoryError. open_decode_and_store.
    unfold bind at 1, os_path_exists_DICOM_PATH. rewrite Hd.
    unfold bind at 1. unfold bind at 1, os_listdir_DICOM_PATH.
    now rewrite Hd.
  - apply try_return, (Hdirectory []); [exact Hd|now left].
  - apply try_return, (Hdirectory entries); [exact Hd|now left].
  - apply try_return, (Hdirectory entries); [exact Hd|right].
    intros files. apply read_series_falls_back; [|exact Hgen].
    left. now exists e.
  - apply try_return, (Hdirectory entries); [exact Hd|].
    destruct (candidates entries) eqn:Hc; [now left|right].
    intros files. apply read_series_falls_back; [|exact Hgen].
    right. left. now exists id, ids, e.
  - apply try_return. open_decode_and_store.
    unfold bind at 1, os_path_exists_DICOM_PATH. rewrite Hd.
    unfold bind at 1. unfold bind at 1, os_listdir_DICOM_PATH.
    rewrite Hd. unfold ret at 1.
    destruct entries as [|d entries']; [exact Hgen|].
    cbn [List.length Nat.eqb]. unfold bind at 1. rewrite Hd.
    destruct (candidates (d :: entries')) as [|f fs] eqn:Hc;
      [exact Hgen|].
    unfold bind at 1.
    rewrite (@read_series_falls_back (f :: fs) w w' b);
      [reflexivity| |exact Hgen].
    right. right. split; [exact Hid|].
    now apply read_slices_unreadable.
Qed.

End VolumeSourceFacts.

Lemma nth_error_combine {A B} (l : list A) (l' : list B) (n : nat)
  (a : A) (b : B) :
  nth_error l n = Some a -> nth_error l' n = Some b ->
  nth_error (combine l l') n = Some (a, b).
Proof.
  revert l' n. induction l as [|x l IH]; intros [|y l'] [|n]; cbn;
    try discriminate.
  - now intros [= ->] [= ->].
  - apply IH.
Qed.

Lemma shape_add (a b : ndarray float) :
  shape (Synthetic.add a b) = shape a.
Proof. reflexivity. Qed.

Lemma data_add (a b : ndarray float) :
  data (Synthetic.add a b)
  = List.map (fun p => (fst p + snd p)%float) (combine (data a) (data b)).
Proof. reflexivity. Qed.

Lemma shape_synthetic_volume (noise : nat -> nat -> nat -> float) :
  shape (synthetic_volume noise) = Synthetic.cube.
Proof.
  unfold synthetic_volume. rewrite shape_add. apply shape_tabulate.
Qed.

Lemma cube_128 : Synthetic.cube = (128, 128, 128).
Proof. reflexivity. Qed.

Lemma well_formed_synthetic_volume (noise : nat -> nat -> nat -> float) :
  Np.well_formed (synthetic_volume noise).
Proof.
  unfold Np.well_formed. rewrite shape_synthetic_volume.
  unfold synthetic_volume.
  rewrite data_add, length_map, length_combine, !length_tabulate.
  apply Nat.min_id.
Qed.

(** Every voxel of the stored array is the structure value plus the noise
    drawn for it. *)
Lemma item_synthetic_volume (noise : nat -> nat -> nat -> float)
  (z y x : nat) :
  Np.in_bounds Synthetic.cube z y x = true ->
  Np.item (synthetic_volume noise) z y x
  = Some (Synthetic.structures z y x + noise z y x)%float.
Proof.
  intros Hb. unfold Np.item. rewrite shape_synthetic_volume, Hb.
  unfold synthetic_volume. rewrite data_add, nth_error_map.
  unfold Synthetic.cube in *. apply in_bounds_lt in Hb as (Hz & Hy & Hx).
  unfold Np.ravel.
  erewrite nth_error_combine;
    [reflexivity|apply nth_error_tabulate; assumption..].
Qed.

(** C3. Whenever the input directory is absent, empty or without decodable
    slice files, and the disk accepts the two writes, the Volume Source
    returns without raising, having stored a volume of shape (128,128,128)
    and the spacing (1.0, 1.0, 1.0). *)
Theorem process_dicom_synthesis_fallback (lib : libraries) (w : world) :
  no_decodable_input lib (dicom_dir w) ->
  accepts 2 (disk w) = true ->
  exists w' volume,
    process_dicom lib w = (Return true, w')
    /\ volume_npy w' = Some (Whole (Float64Array volume))
    /\ shape volume = (128, 128, 128)
    /\ Np.well_formed volume
    /\ spacing_npy w' = Some (Whole (1%float, 1%float, 1%float)).
Proof.
  intros Hno Hdisk.
  destruct (generate_synthetic_volume_accepted w Hdisk)
    as (w' & Hgen & Hvol & Hsp & _).
  exists w', (synthetic_volume (normal w (draws w))).
  split; [now apply process_dicom_falls_back|].
  split; [exact Hvol|].
  split; [rewrite shape_synthetic_volume; apply cube_128|].
  split; [apply well_formed_synthetic_volume|exact Hsp].
Qed.

(** No input directory and nothing on disk. *)
Lemma process_dicom_synthesis_fallback_witness :
  exists w' volume,
    process_dicom Scenario.lib_undecodable (Scenario.fresh Scenario.quiet)
    = (Return true, w')
    /\ volume_npy w' = Some (Whole (Float64Array volume))
    /\ shape volume = (128, 128, 128)
    /\ Np.well_formed volume
    /\ spacing_npy w' = Some (Whole (1%float, 1%float, 1%float)).
Proof.
  apply (@process_dicom_synthesis_fallback Scenario.lib_undecodable
           (Scenario.fresh Scenario.quiet)).
  - apply input_missing.
  - reflexivity.
Defined.

Example is_candidate_values :
  is_candidate "IMG0001" = true
  /\ is_candidate "ct001.DCM" = true
  /\ is_candidate "slice.dicom" = true
  /\ is_candidate "notes.txt" = false.
Proof. repeat split; reflexivity. Qed.

(** A directory whose only candidate file cannot be read. *)
Example undecodable_upload_is_no_input :
  no_decodable_input Scenario.lib_undecodable
    (dicom_dir (Scenario.uploaded [])).
Proof.
  apply input_slices_unreadable; [reflexivity|].
  intros file_path _. now exists RuntimeError.
Qed.

(** C10. On the synthesis fallback the Volume Source is the synthesis
    itself, whatever the libraries: the stored volume is the raw synthetic
    array, each voxel the structure value plus the noise drawn for it, on
    the 128-cube with the literal unit spacing; no voxel is normalised and
    the grid is not resampled, and this array is what the Segmenter
    loads. *)
Theorem synthesis_fallback_stores_raw_array (lib : libraries) (w : world) :
  no_decodable_input lib (dicom_dir w) ->
  accepts 2 (disk w) = true ->
  exists w' volume,
    process_dicom lib w = (Return true, w')
    /\ generate_synthetic_volume w = (Return true, w')
    /\ volume_npy w' = Some (Whole (Float64Array volume))
    /\ shape volume = Synthetic.cube
    /\ (forall z y x,
          Np.in_bounds Synthetic.cube z y x = true ->
          Np.item volume z y x
          = Some (Synthetic.structures z y x + normal w (draws w) z y x)%float)
    /\ spacing_npy w' = Some (Whole Synthetic.spacing)
    /\ load volume_npy w' = (Return (Float64Array volume), w').
Proof.
  intros Hno Hdisk.
  destruct (generate_synthetic_volume_accepted w Hdisk)
    as (w' & Hgen & Hvol & Hsp & _).
  exists w', (synthetic_volume (normal w (draws w))).
  split; [now apply process_dicom_falls_back|].
  split; [exact Hgen|].
  split; [exact Hvol|].
  split; [apply shape_synthetic_volume|].
  split; [intros z y x; apply item_synthetic_volume|].
  split; [exact Hsp|].
  unfold load. now rewrite Hvol.
Qed.

Lemma synthesis_fallback_stores_raw_array_witness :
  exists w' volume,
    process_dicom Scenario.lib_undecodable
      (Scenario.fresh Scenario.sentinel_noise) = (Return true, w')
    /\ generate_synthetic_volume (Scenario.fresh Scenario.sentinel_noise)
       = (Return true, w')
    /\ volume_npy w' = Some (Whole (Float64Array volume))
    /\ shape volume = Synthetic.cube
    /\ (forall z y x,
          Np.in_bounds Synthetic.cube z y x = true ->
          Np.item volume z y x
          = Some (Synthetic.structures z y x
                  + Scenario.sentinel_noise 0 z y x)%float)
    /\ spacing_npy w' = Some (Whole Synthetic.spacing)
    /\ load volume_npy w' = (Return (Float64Array volume), w').
Proof.
  apply (@synthesis_fallback_stores_raw_array Scenario.lib_undecodable
           (Scenario.fresh Scenario.sentinel_noise)).
  - apply input_missing.
  - reflexivity.
Defined.

(** A voxel that the noise puts exactly at the sentinel is stored as
    -2000.0: the normaliser would have made it 0. *)
Example synthetic_sentinel_is_kept :
  Np.item (synthetic_volume (Scenario.sentinel_noise 0)) 0 0 0
  = Some (-2000)%float
  /\ handle_air (-2000) = 0%Z.
Proof.
  split; [|reflexivity].
  rewrite item_synthetic_volume by reflexivity.
  f_equal.
Qed.

(** Values of the structures: background, central sphere, shell, offset
    sphere. *)
Example structures_values :
  Synthetic.structures 0 0 0 = 0%float
  /\ Synthetic.structures 64 64 64 = 50%float
  /\ Synthetic.structures 64 64 96 = 800%float
  /\ Synthetic.structures 64 64 95 = 50%float
  /\ Synthetic.structures 64 64 101 = 0%float
  /\ Synthetic.structures 64 54 79 = 100%float.
Proof. repeat split; vm_compute; reflexivity. Qed.

(* ===================================================================== *)
(** ** Surface Extractor and Mesh Serializer *)

Lemma shape_transpose {A} (d : A) (a : ndarray A) :
  shape (Np.transpose_2_1_0 d a)
  = (let '(n0, n1, n2) := shape a in (n2, n1, n0)).
Proof.
  unfold Np.transpose_2_1_0. destruct (shape a) as [[n0 n1] n2].
  apply shape_tabulate.
Qed.

(** Transposition only moves the samples of a well-formed array. *)
Lemma Forall_transpose {A} (P : A -> Prop) (d : A) (a : ndarray A) :
  Np.well_formed a -> Forall P (data a) ->
  Forall P (data (Np.transpose_2_1_0 d a)).
Proof.
  unfold Np.well_formed, Np.transpose_2_1_0. intros Hwf Hall.
  destruct (shape a) as [[n0 n1] n2]. apply Forall_forall. intros v Hv.
  apply in_tabulate in Hv as (k & j & i & Hk & Hj & Hi & ->).
  rewrite Forall_forall in Hall. apply Hall, nth_In.
  rewrite Hwf. now apply ravel_lt.
Qed.

Lemma fold_min_constant (c : Z) (xs : list Z) :
  Forall (fun v => v = c) xs -> fold_left Z.min xs c = c.
Proof.
  induction 1 as [|x xs -> _ IH]; cbn; [reflexivity|].
  now rewrite Z.min_id.
Qed.

Lemma fold_max_constant (c : Z) (xs : list Z) :
  Forall (fun v => v = c) xs -> fold_left Z.max xs c = c.
Proof.
  induction 1 as [|x xs -> _ IH]; cbn; [reflexivity|].
  now rewrite Z.max_id.
Qed.

Section SurfaceFacts.

Variable lewiner : ndarray Z -> float -> list vertex * list face.

(** The level 0.5 is outside the data range of a constant 0 or constant 1
    field, so the extraction raises. *)
Lemma marching_cubes_degenerate (volume : ndarray Z) :
  degenerate volume ->
  marching_cubes lewiner volume 0.5 = Raise ValueError.
Proof.
  intros Hdeg. unfold degenerate in Hdeg.
  unfold marching_cubes, Np.amin, Np.amax.
  destruct (shape volume) as [[n0 n1] n2].
  destruct ((n0 <? 2) || (n1 <? 2) || (n2 <? 2)); [reflexivity|].
  destruct (data volume) as [|x xs]; [reflexivity|].
  cbn [obind].
  destruct Hdeg as [H|H]; inversion H as [|y ys Hy Hys]; subst;
    rewrite fold_min_constant, fold_max_constant by exact Hys;
    reflexivity.
Qed.

(** [fill_vectors] builds one triangle per face, from the vertices the
    face names. *)
Lemma fill_vectors_spec (verts : list vertex) (faces : list face)
  (soup : stl_mesh) :
  fill_vectors verts faces = Return soup ->
  List.length soup = List.length faces
  /\ forall i f0 f1 f2,
       nth_error faces i = Some (f0, f1, f2) ->
       exists v0 v1 v2,
         nth_error soup i = Some (v0, v1, v2)
         /\ nth_error verts f0 = Some v0
         /\ nth_error verts f1 = Some v1
         /\ nth_error verts f2 = Some v2.
Proof.
  revert soup.
  induction faces as [|[[g0 g1] g2] faces IH]; intros soup; cbn.
  - intros [= <-]. split; [reflexivity|]. now intros [|i].
  - destruct (nth_error verts g0) as [v0|] eqn:E0; [|discriminate].
    destruct (nth_error verts g1) as [v1|] eqn:E1; [|discriminate].
    destruct (nth_error verts g2) as [v2|] eqn:E2; [|discriminate].
    cbn [obind].
    destruct (fill_vectors verts faces) as [ts|e]; [|discriminate].
    cbn [obind]. intros [= <-].
    destruct (IH ts eq_refl) as [Hlen Hnth].
    split; [cbn; now rewrite Hlen|].
    intros [|i] f0 f1 f2; cbn.
    + intros [= <- <- <-]. now exists v0, v1, v2.
    + apply Hnth.
Qed.

Lemma create_3d_model_extraction_raises (w : world) (mask : ndarray Z)
  (e : exn) :
  segmented_volume_npy w = Some (Whole mask) ->
  marching_cubes lewiner (Np.transpose_2_1_0 0%Z mask) 0.5 = Raise e ->
  create_3d_model lewiner w = (Raise e, w).
Proof.
  intros Hseg Hmc. unfold create_3d_model. rewrite try_reraise.
  unfold bind at 1, exists_file. rewrite Hseg.
  unfold bind at 1, ret at 1. unfold bind at 1, load. rewrite Hseg.
  unfold bind at 1, lift at 1. now rewrite Hmc.
Qed.

Lemma create_3d_model_saves (w : world) (mask : ndarray Z)
  (verts : list vertex) (faces : list face) (soup : stl_mesh) :
  segmented_volume_npy w = Some (Whole mask) ->
  marching_cubes lewiner (Np.transpose_2_1_0 0%Z mask) 0.5
  = Return (verts, faces) ->
  fill_vectors verts faces = Return soup ->
  create_3d_model lewiner w
  = bind (save set_organ_model_stl soup) (fun _ => ret true) w.
Proof.
  intros Hseg Hmc Hfill. unfold create_3d_model. rewrite try_reraise.
  unfold bind at 1, exists_file. rewrite Hseg.
  unfold bind at 1, ret at 1. unfold bind at 1, load. rewrite Hseg.
  unfold bind at 1, lift at 1. rewrite Hmc.
  unfold bind at 1, lift at 1. now rewrite Hfill.
Qed.

End SurfaceFacts.

(** C5 (as the code behaves). On a degenerate mask, all voxels 0 or all
    voxels 1, the extraction rejects the level 0.5 as outside the data range
    and [create_3d_model] re-raises the ValueError: no mesh is produced and
    the store is left as it was. *)
Theorem create_3d_model_degenerate_mask
  (lewiner : ndarray Z -> float -> list vertex * list face)
  (w : world) (mask : ndarray Z) :
  segmented_volume_npy w = Some (Whole mask) ->
  Np.well_formed mask ->
  degenerate mask ->
  create_3d_model lewiner w = (Raise ValueError, w).
Proof.
  intros Hseg Hwf Hdeg.
  apply create_3d_model_extraction_raises with (mask := mask);
    [exact Hseg|].
  apply marching_cubes_degenerate.
  destruct Hdeg as [H|H]; [left|right]; now apply Forall_transpose.
Qed.

Lemma create_3d_model_degenerate_mask_witness :
  create_3d_model Scenario.lewiner_empty
    (Scenario.segmented Scenario.all_one None [])
  = (Raise ValueError, Scenario.segmented Scenario.all_one None []).
Proof.
  apply (@create_3d_model_degenerate_mask Scenario.lewiner_empty
           (Scenario.segmented Scenario.all_one None []) Scenario.all_one).
  - reflexivity.
  - reflexivity.
  - right. repeat constructor.
Defined.

(** Against C5 as stated.  The all-zero mask of 2x2x2 voxels, with the
    triangulation that finds no surface in it: [create_3d_model] raises
    instead of returning an empty mesh, and writes no mesh file. *)
Lemma degenerate_mask_is_an_error :
  degenerate Scenario.all_zero
  /\ create_3d_model Scenario.lewiner_empty
       (Scenario.segmented Scenario.all_zero None [])
     = (Raise ValueError, Scenario.segmented Scenario.all_zero None [])
  /\ ~ exists w',
         create_3d_model Scenario.lewiner_empty
           (Scenario.segmented Scenario.all_zero None [])
         = (Return true, w').
Proof.
  assert (E : create_3d_model Scenario.lewiner_empty
                (Scenario.segmented Scenario.all_zero None [])
              = (Raise ValueError,
                 Scenario.segmented Scenario.all_zero None []))
    by reflexivity.
  split; [left; repeat constructor|]. split; [exact E|].
  intros [w' H]. rewrite E in H. discriminate H.
Qed.

(** C6 (as the code behaves). The mesh is written straight to its final
    path: when the write is cut short, the torn file stands in place of
    whatever mesh was there before, and [create_3d_model] re-raises the
    OSError when the writer reports the cut and returns True when it does
    not; when the write completes, the whole mesh is stored.  No other file
    is touched in any of the cases. *)
Theorem create_3d_model_writes_in_place
  (lewiner : ndarray Z -> float -> list vertex * list face)
  (w : world) (mask : ndarray Z) (verts : list vertex) (faces : list face)
  (soup : stl_mesh) :
  segmented_volume_npy w = Some (Whole mask) ->
  marching_cubes lewiner (Np.transpose_2_1_0 0%Z mask) 0.5
  = Return (verts, faces) ->
  fill_vectors verts faces = Return soup ->
  (forall n rest,
     disk w = Some (Reported n) :: rest ->
     create_3d_model lewiner w
     = (Raise OSError, set_organ_model_stl (Some (Torn n)) (set_disk rest w)))
  /\ (forall n rest,
        disk w = Some (Unnoticed n) :: rest ->
        create_3d_model lewiner w
        = (Return true,
           set_organ_model_stl (Some (Torn n)) (set_disk rest w)))
  /\ (accepts 1 (disk w) = true ->
      create_3d_model lewiner w
      = (Return true,
         set_organ_model_stl (Some (Whole soup)) (set_disk (tl (disk w)) w))).
Proof.
  intros Hseg Hmc Hfill.
  rewrite (create_3d_model_saves lewiner w Hseg Hmc Hfill).
  split; [|split].
  - intros n rest Hdisk. unfold bind.
    now rewrite (save_reported _ _ w Hdisk).
  - intros n rest Hdisk. unfold bind.
    now rewrite (save_unnoticed _ _ w Hdisk).
  - intros Hdisk. unfold bind. now rewrite save_accepted.
Qed.

(** A mesh is on disk and the write of the new one is cut after the 84
    bytes of its header, unnoticed. *)
Lemma create_3d_model_writes_in_place_witness :
  create_3d_model Scenario.lewiner_corner
    (Scenario.segmented Scenario.corner (Some (Whole Scenario.old_mesh))
       [Some (Unnoticed 84)])
  = (Return true,
     Scenario.segmented Scenario.corner (Some (Torn 84)) []).
Proof.
  apply (proj1 (proj2 (@create_3d_model_writes_in_place
                         Scenario.lewiner_corner
                         (Scenario.segmented Scenario.corner
                            (Some (Whole Scenario.old_mesh))
                            [Some (Unnoticed 84)])
                         Scenario.corner
                         (fst (Scenario.lewiner_corner Scenario.corner 0.5))
                         (snd (Scenario.lewiner_corner Scenario.corner 0.5))
                         [((0, 0, 0.5), (0, 0.5, 0), (0.5, 0, 0))%float]
                         eq_refl eq_refl eq_refl))
           84 []).
  reflexivity.
Defined.

(** Against C6 as stated.  A mesh is on disk and the write of the new one
    is cut short after the header: the partial file has replaced the earlier
    mesh, it is neither the earlier mesh nor absent, and [create_3d_model]
    does not even fail. *)
Lemma interrupted_mesh_write_leaves_torn_file :
  let w := Scenario.segmented Scenario.corner
             (Some (Whole Scenario.old_mesh)) [Some (Unnoticed 84)] in
  let '(r, w') := create_3d_model Scenario.lewiner_corner w in
  r = Return true
  /\ organ_model_stl w = Some (Whole Scenario.old_mesh)
  /\ organ_model_stl w' = Some (Torn 84)
  /\ organ_model_stl w' <> organ_model_stl w
  /\ organ_model_stl w' <> None.
Proof.
  cbv zeta.
  change (create_3d_model Scenario.lewiner_corner
            (Scenario.segmented Scenario.corner
               (Some (Whole Scenario.old_mesh)) [Some (Unnoticed 84)]))
    with (@Return bool true,
          Scenario.segmented Scenario.corner (Some (Torn 84)) []).
  repeat split; discriminate.
Qed.

(* ===================================================================== *)
(** ** Isotropic Resampler *)

(** *** float64: zeros, signs and infinities

    Read off the specification of the binary64 operations. *)

Lemma is_zero_inv (x : float) :
  PrimFloat.is_zero x = true -> exists s, Prim2SF x = S754_zero s.
Proof.
  unfold PrimFloat.is_zero. rewrite FloatAxioms.eqb_spec.
  change (Prim2SF zero) with (S754_zero false).
  destruct (Prim2SF x) as [s|s| |s m e]; try discriminate.
  - intros _. now exists s.
  - destruct s; discriminate.
  - destruct s; discriminate.
Qed.

Lemma is_zero_intro (x : float) (s : bool) :
  Prim2SF x = S754_zero s -> PrimFloat.is_zero x = true.
Proof.
  intros H. unfold PrimFloat.is_zero.
  rewrite FloatAxioms.eqb_spec, H. reflexivity.
Qed.

Lemma positive_inv (x : float) :
  (0 <? x)%float = true ->
  Prim2SF x = S754_infinity false
  \/ exists m e, Prim2SF x = S754_finite false m e.
Proof.
  rewrite FloatAxioms.ltb_spec.
  change (Prim2SF 0) with (S754_zero false).
  destruct (Prim2SF x) as [s|s| |s m e]; try discriminate.
  - destruct s; [discriminate|]. now left.
  - destruct s; [discriminate|]. right. now exists m, e.
Qed.

(** Zero divided by a positive number is zero. *)
Lemma zero_div_positive (n c : float) :
  PrimFloat.is_zero n = true -> (0 <? c)%float = true ->
  PrimFloat.is_zero (n / c) = true.
Proof.
  intros Hn Hc. destruct (is_zero_inv Hn) as [sn Hsn].
  destruct (positive_inv Hc) as [Hinf|(m & e & Hfin)];
    apply is_zero_intro with (s := xorb sn false);
    rewrite FloatAxioms.div_spec, Hsn; [rewrite Hinf|rewrite Hfin]; reflexivity.
Qed.

(** A positive number divided by zero is infinite. *)
Lemma positive_div_zero (s f : float) :
  (0 <? s)%float = true -> PrimFloat.is_zero f = true ->
  PrimFloat.is_infinity (s / f) = true.
Proof.
  intros Hs Hf. destruct (is_zero_inv Hf) as [sf Hsf].
  unfold PrimFloat.is_infinity.
  rewrite FloatAxioms.eqb_spec, FloatAxioms.abs_spec, FloatAxioms.div_spec, Hsf.
  change (Prim2SF infinity) with (S754_infinity false).
  destruct (positive_inv Hs) as [Hinf|(m & e & Hfin)];
    [rewrite Hinf|rewrite Hfin]; now destruct sf.
Qed.

(** *** float64: quotients that are exact

    A number divided by itself is 1 and a number divided by 1 is itself,
    from the specification of the binary64 division. *)

Section ExactQuotients.

Local Open Scope Z_scope.





End ExactQuotients.





(** The grid of [resample] axis by axis. *)
Lemma axis_vmap {A B} (f : A -> B) (i : nat) (v : vec3 A) :
  axis i (vmap f v) = f (axis i v).
Proof. destruct v as [[a b] c]. now destruct i as [|[|i]]. Qed.

Lemma axis_vmap2 {A B C} (f : A -> B -> C) (i : nat) (u : vec3 A)
  (v : vec3 B) :
  axis i (vmap2 f u v) = f (axis i u) (axis i v).
Proof.
  destruct u as [[a b] c], v as [[x y] z]. now destruct i as [|[|i]].
Qed.


Lemma axis_real_resize_factor (i : nat) (sh : shape3) (s t : vec3 float) :
  axis i (real_resize_factor sh s t)
  = (axis i (new_shape sh s t) / F64.of_nat (axis i sh))%float.
Proof.
  unfold real_resize_factor. now rewrite axis_vmap2, axis_vmap.
Qed.

Lemma axis_resampled_spacing (i : nat) (sh : shape3) (s t : vec3 float) :
  axis i (resampled_spacing sh s t)
  = (axis i s / axis i (real_resize_factor sh s t))%float.
Proof. unfold resampled_spacing. now rewrite axis_vmap2. Qed.




(** Three voxels of 0.35 mm resampled to 0.3 mm: the code rounds
    [3 * (0.35 / 0.3) = 3.5] to 4 voxels, where [3 * 0.35 / 0.3], which is
    [3.4999999999999996], rounds to 3; the two sides of the law as it is
    written are 4/3 and 1. *)
Example resample_rounding_law_counts_differ :
  let sh := (3, 1, 1) in
  let s := (0x1.6666666666666p-2, 1, 1)%float in
  let t := (0x1.3333333333333p-2, 1, 1)%float in
  new_shape sh s t = (4, 1, 1)%float
  /\ reported_ratio sh s t = (0x1.5555555555555p+0, 1, 1)%float
  /\ rounded_ratio sh s t = (1, 1, 1)%float.
Proof. vm_compute. repeat split; reflexivity. Qed.

Example np_round_values :
  (F64.np_round 0.5 = 0 /\ F64.np_round 1.5 = 2 /\ F64.np_round 2.5 = 2
   /\ F64.np_round (-0.5) = -0 /\ F64.np_round (-1.5) = -2
   /\ F64.np_round 358.375 = 358 /\ F64.np_round 0.375 = 0
   /\ F64.np_round nan = nan /\ F64.np_round infinity = infinity)%float.
Proof. vm_compute. repeat split; reflexivity. Qed.

(** C8 (as the code behaves). The resampler checks no voxel count: it fails
    exactly when the interpolation routine raises, with that exception, and
    otherwise returns the routine's array with the spacing computed from the
    rounded counts, whatever these counts are.  On an axis of positive count
    and positive spacing whose rounded count is zero, the factor handed to
    the routine is zero and the reported spacing is infinite. *)
Theorem resample_has_no_count_guard (lib : libraries) (volume : ndarray Z)
  (original_spacing new_spacing : vec3 float) :
  (forall e,
     resample lib volume original_spacing new_spacing = Raise e
     <-> zoom lib volume
           (real_resize_factor (shape volume) original_spacing new_spacing)
         = Raise e)
  /\ (forall resampled,
        zoom lib volume
          (real_resize_factor (shape volume) original_spacing new_spacing)
        = Return resampled ->
        resample lib volume original_spacing new_spacing
        = Return (resampled,
                  resampled_spacing (shape volume) original_spacing
                                    new_spacing))
  /\ (forall i,
        (0 <? F64.of_nat (axis i (shape volume)))%float = true ->
        (0 <? axis i original_spacing)%float = true ->
        PrimFloat.is_zero
          (axis i (new_shape (shape volume) original_spacing new_spacing))
        = true ->
        PrimFloat.is_zero
          (axis i (real_resize_factor (shape volume) original_spacing
                                      new_spacing)) = true
        /\ PrimFloat.is_infinity
             (axis i (resampled_spacing (shape volume) original_spacing
                                        new_spacing)) = true).
Proof.
  split; [|split].
  - unfold resample.
    destruct (zoom lib volume
                (real_resize_factor (shape volume) original_spacing
                                    new_spacing)) as [r|e0]; cbn [obind];
      intros e; split; try discriminate; now intros [= ->].
  - unfold resample. now intros resampled ->.
  - intros i Hcount Hspacing Hzero.
    assert (Hfactor :
              PrimFloat.is_zero
                (axis i (real_resize_factor (shape volume) original_spacing
                                            new_spacing)) = true).
    { rewrite axis_real_resize_factor. now apply zero_div_positive. }
    split; [exact Hfactor|].
    rewrite axis_resampled_spacing. now apply positive_div_zero.
Qed.

(** One slice of 0.375 mm: the rounded depth is 0. *)
Lemma resample_has_no_count_guard_witness :
  let volume := mk_ndarray (1, 2, 2) [10; 20; 30; 40]%Z in
  let s := (0.375, 1, 1)%float in
  resample (Scenario.lib_series Scenario.zoom_order0) volume s
           default_new_spacing
  = Return (mk_ndarray (0, 2, 2) [],
            resampled_spacing (shape volume) s default_new_spacing)
  /\ PrimFloat.is_zero
       (axis 0 (real_resize_factor (shape volume) s default_new_spacing))
     = true
  /\ PrimFloat.is_infinity
       (axis 0 (resampled_spacing (shape volume) s default_new_spacing))
     = true.
Proof.
  cbv zeta.
  destruct (@resample_has_no_count_guard
              (Scenario.lib_series Scenario.zoom_order0)
              (mk_ndarray (1, 2, 2) [10; 20; 30; 40]%Z)
              (0.375, 1, 1)%float default_new_spacing)
    as (_ & Hreturns & Haxis).
  split.
  - apply Hreturns. vm_compute. reflexivity.
  - apply (Haxis 0); vm_compute; reflexivity.
Defined.

(** Against C8 as stated.  One slice of 0.375 mm: the rounded depth is 0,
    and with an interpolation routine that returns, the resampler returns
    too: an empty volume and an infinite spacing on that axis. *)
Lemma resample_zero_count_returns :
  let volume := mk_ndarray (1, 2, 2) [10; 20; 30; 40]%Z in
  let s := (0.375, 1, 1)%float in
  new_shape (shape volume) s default_new_spacing = (0, 2, 2)%float
  /\ nonpositive_count (shape volume) s default_new_spacing = true
  /\ resample (Scenario.lib_series Scenario.zoom_order0) volume s
              default_new_spacing
     = Return (mk_ndarray (0, 2, 2) [], (infinity, 1, 1)%float)
  /\ ~ (forall lib : libraries,
          exists e, resample lib volume s default_new_spacing = Raise e).
Proof.
  cbv zeta.
  assert (E : resample (Scenario.lib_series Scenario.zoom_order0)
                (mk_ndarray (1, 2, 2) [10; 20; 30; 40]%Z)
                (0.375, 1, 1)%float default_new_spacing
              = Return (mk_ndarray (0, 2, 2) [], (infinity, 1, 1)%float))
    by (vm_compute; reflexivity).
  split; [vm_compute; reflexivity|]. split; [vm_compute; reflexivity|].
  split; [exact E|].
  intros H. destruct (H (Scenario.lib_series Scenario.zoom_order0)) as [e He].
  rewrite E in He. discriminate He.
Qed.

(* ===================================================================== *)
(** ** Failure semantics of the Volume Source *)

(** An exception of the [try] block is handled by running the synthesis on
    the state reached. *)
Lemma process_dicom_absorbs (lib : libraries) (w w1 : world) (e : exn) :
  decode_and_store lib w = (Raise e, w1) ->
  process_dicom lib w = generate_synthetic_volume w1.
Proof.
  intros H. open_process_dicom; unfold try_except. now rewrite H.
Qed.

(** An exception of [process_dicom] is an exception of the synthesis run
    by the handler. *)
Lemma process_dicom_raise_inv (lib : libraries) (w w' : world) (e : exn) :
  process_dicom lib w = (Raise e, w') ->
  exists e0 w1,
    decode_and_store lib w = (Raise e0, w1)
    /\ generate_synthetic_volume w1 = (Raise e, w').
Proof.
  open_process_dicom; unfold try_except.
  destruct (decode_and_store lib w) as [[b|e0] w1]; intros H.
  - pose proof (f_equal fst H) as Hf. discriminate Hf.
  - now exists e0, w1.
Qed.

(** C4 (as the code behaves). Any exception of the decode path, whatever
    its kind, a failure of array construction or of storage included, is
    absorbed by the synthesis fallback; the Volume Source fails towards its
    caller exactly when the synthesis run by its handler fails, whatever
    fails in it, and with that exception.  With the synthesis of the code
    the fallback succeeds when the disk accepts its two writes. *)
Theorem process_dicom_failure_semantics (lib : libraries)
  (synthesis : py bool) (w : world) :
  (forall e w1,
     decode_and_store_with lib synthesis w = (Raise e, w1) ->
     process_dicom_with lib synthesis w = synthesis w1)
  /\ (forall e w',
        process_dicom_with lib synthesis w = (Raise e, w')
        <-> exists e0 w1,
              decode_and_store_with lib synthesis w = (Raise e0, w1)
              /\ synthesis w1 = (Raise e, w'))
  /\ (forall e w1,
        decode_and_store lib w = (Raise e, w1) ->
        accepts 2 (disk w1) = true ->
        exists w',
          process_dicom lib w = (Return true, w')
          /\ volume_npy w'
             = Some (Whole (Float64Array
                              (synthetic_volume (normal w1 (draws w1)))))
          /\ spacing_npy w' = Some (Whole Synthetic.spacing)).
Proof.
  split; [|split].
  - intros e w1 Hdec. unfold process_dicom_with, try_except.
    now rewrite Hdec.
  - intros e w'. unfold process_dicom_with, try_except.
    destruct (decode_and_store_with lib synthesis w) as [[b|e0] w1].
    + split; [discriminate|]. intros (e1 & w2 & Hdec & _). discriminate.
    + split; [intros H; now exists e0, w1|].
      intros (e1 & w2 & Hdec & Hsyn).
      injection Hdec as <- <-. exact Hsyn.
  - intros e w1 Hdec Hdisk.
    destruct (generate_synthetic_volume_accepted w1 Hdisk)
      as (w' & Hgen & Hvol & Hsp & _).
    exists w'. rewrite (process_dicom_absorbs _ _ Hdec). now repeat split.
Qed.

(** The resampler runs out of memory on an uploaded series: the exception
    is absorbed and the synthetic volume is stored.  And a synthesis that
    runs out of memory itself, where nothing can be decoded: the exception
    reaches the caller. *)
Lemma process_dicom_failure_semantics_witness :
  (process_dicom (Scenario.lib_series Scenario.zoom_out_of_memory)
     (Scenario.uploaded [])
   = generate_synthetic_volume (Scenario.uploaded [])
   /\ exists w',
        process_dicom (Scenario.lib_series Scenario.zoom_out_of_memory)
          (Scenario.uploaded []) = (Return true, w')
        /\ volume_npy w'
           = Some (Whole (Float64Array (synthetic_volume (Scenario.quiet 0))))
        /\ spacing_npy w' = Some (Whole Synthetic.spacing))
  /\ process_dicom_with Scenario.lib_undecodable (raise MemoryError)
       (Scenario.fresh Scenario.quiet)
     = (Raise MemoryError, Scenario.fresh Scenario.quiet).
Proof.
  split.
  - destruct (@process_dicom_failure_semantics
                (Scenario.lib_series Scenario.zoom_out_of_memory)
                generate_synthetic_volume (Scenario.uploaded []))
      as (Habs & _ & Hok).
    split.
    + apply (Habs MemoryError (Scenario.uploaded [])). reflexivity.
    + apply (Hok MemoryError (Scenario.uploaded [])); reflexivity.
  - apply (proj1 (proj2 (@process_dicom_failure_semantics
                           Scenario.lib_undecodable (raise MemoryError)
                           (Scenario.fresh Scenario.quiet)))).
    exists MemoryError, (Scenario.fresh Scenario.quiet).
    split; reflexivity.
Defined.

(** Against C4 as stated.  The write of the decoded volume is cut short at
    once and the next two writes complete: storing the artifact failed with
    OSError, yet the Volume Source returns True, with the synthetic volume
    in place. *)
Lemma storage_failure_is_absorbed :
  let lib := Scenario.lib_series Scenario.zoom_order0 in
  let w := Scenario.uploaded [Some (Reported 0); None; None] in
  decode_and_store lib w = (Raise OSError, Scenario.after_torn_volume)
  /\ exists w',
       process_dicom lib w = (Return true, w')
       /\ volume_npy w'
          = Some (Whole (Float64Array (synthetic_volume (Scenario.quiet 0))))
       /\ disk w' = [].
Proof.
  cbv zeta.
  assert (Hdec : decode_and_store (Scenario.lib_series Scenario.zoom_order0)
                   (Scenario.uploaded [Some (Reported 0); None; None])
                 = (Raise OSError, Scenario.after_torn_volume))
    by reflexivity.
  split; [exact Hdec|].
  destruct (generate_synthetic_volume_accepted Scenario.after_torn_volume
              eq_refl) as (w' & Hgen & Hvol & _ & _ & _ & _ & Hdisk).
  exists w'. rewrite (process_dicom_absorbs _ _ Hdec).
  repeat split; assumption.
Qed.

(** With the same series and a disk that accepts every write, the decoded
    volume is normalised, resampled and stored as int16. *)
Example process_dicom_decodes :
  let w' := snd (process_dicom (Scenario.lib_series Scenario.zoom_order0)
                               (Scenario.uploaded [])) in
  volume_npy w'
  = Some (Whole (Int16Array (mk_ndarray (1, 2, 2) [0; 0; 300; 0]%Z)))
  /\ spacing_npy w' = Some (Whole (1, 1, 1)%float).
Proof. lazy. split; reflexivity. Qed.

(** The sort of the slices is ascending and keeps the order of equal
    keys. *)
Example sort_slices_stable :
  List.map (fun e : slice_entry => snd (fst e))
    (sort_slices Scenario.lib_undecodable
       [(2%float, "a"%string, Scenario.phantom);
        (1%float, "b"%string, Scenario.phantom);
        (2%float, "c"%string, Scenario.phantom);
        (0%float, "d"%string, Scenario.phantom)])
  = ["d"; "b"; "a"; "c"]%string.
Proof. reflexivity. Qed.

(** With a NaN among the keys the order is the interpreter's: on three
    slices it leaves 2, NaN, 1 as they are, and orders 3, 1, NaN, 2. *)
Example sort_slices_nan :
  List.map (fun e : slice_entry => snd (fst e))
    (sort_slices Scenario.lib_undecodable
       [(2%float, "a"%string, Scenario.phantom);
        (nan, "b"%string, Scenario.phantom);
        (1%float, "c"%string, Scenario.phantom)])
  = ["a"; "b"; "c"]%string
  /\ List.map (fun e : slice_entry => snd (fst e))
       (sort_slices Scenario.lib_undecodable
          [(3%float, "a"%string, Scenario.phantom);
           (1%float, "b"%string, Scenario.phantom);
           (nan, "c"%string, Scenario.phantom);
           (2%float, "d"%string, Scenario.phantom)])
     = ["b"; "d"; "a"; "c"]%string.
Proof. split; reflexivity. Qed.

(** The whole chain on the one-slice series: the volume is stored, the mask
    is [[0, 0, 1, 0]], and the extraction rejects a mask that is one voxel
    deep. *)
Example one_slice_pipeline :
  let lib := Scenario.lib_series Scenario.zoom_order0 in
  let w1 := snd (process_dicom lib (Scenario.uploaded [])) in
  let w2 := snd (run_segmentation w1) in
  fst (process_dicom lib (Scenario.uploaded [])) = Return true
  /\ fst (run_segmentation w1) = Return true
  /\ segmented_volume_npy w2
     = Some (Whole (mk_ndarray (1, 2, 2) [0; 0; 1; 0]%Z))
  /\ fst (create_3d_model Scenario.lewiner_corner w2) = Raise ValueError.
Proof. lazy. repeat split; reflexivity. Qed.

(* ===================================================================== *)
(** * Further properties of the stages *)

(** ** run_segmentation: absent input and what is left untouched *)

(** The outcome of [run_segmentation] by cases on the volume file and on
    the fate of the next write. *)
Lemma run_segmentation_cases (w : world) :
  match volume_npy w with
  | None => run_segmentation w = (Raise FileNotFoundError, w)
  | Some (Torn 0) => run_segmentation w = (Raise EOFError, w)
  | Some (Torn (S _)) => run_segmentation w = (Raise ValueError, w)
  | Some (Whole volume) =>
      run_segmentation w
      = bind (save set_segmented_volume_npy
                (astype_uint8 (greater volume threshold)))
             (fun _ => ret true) w
  end.
Proof.
  destruct (volume_npy w) as [[volume|[|n]]|] eqn:Hv;
    unfold run_segmentation; rewrite try_reraise;
    unfold bind at 1, load; now rewrite Hv.
Qed.

(** X1. Without a complete volume file the Segmenter raises and changes
    nothing: FileNotFoundError when the file is absent, EOFError when it is
    empty, ValueError when it is otherwise incomplete; in particular no mask
    is written. *)
Theorem run_segmentation_without_volume (w : world) :
  (volume_npy w = None ->
   run_segmentation w = (Raise FileNotFoundError, w))
  /\ (volume_npy w = Some (Torn 0) ->
      run_segmentation w = (Raise EOFError, w))
  /\ (forall n, volume_npy w = Some (Torn (S n)) ->
                run_segmentation w = (Raise ValueError, w)).
Proof.
  pose proof (run_segmentation_cases w) as H.
  split; [|split].
  - intros E. now rewrite E in H.
  - intros E. now rewrite E in H.
  - intros n E. now rewrite E in H.
Qed.

(** No volume file, and the empty file that a write cut at once leaves. *)
Lemma run_segmentation_without_volume_witness :
  run_segmentation (Scenario.fresh Scenario.quiet)
  = (Raise FileNotFoundError, Scenario.fresh Scenario.quiet)
  /\ run_segmentation Scenario.after_torn_volume
     = (Raise EOFError, Scenario.after_torn_volume).
Proof.
  split.
  - apply (proj1 (run_segmentation_without_volume
                    (Scenario.fresh Scenario.quiet))).
    reflexivity.
  - apply (proj1 (proj2 (run_segmentation_without_volume
                           Scenario.after_torn_volume))).
    reflexivity.
Defined.

(** A write changes the file it is given and the disk, nothing else. *)
Lemma save_segmented_keeps_upstream (mask : ndarray Z) :
  frames keeps_upstream (save set_segmented_volume_npy mask).
Proof.
  intros w r w'. unfold save.
  destruct w as [dd v s g m d nz dr]. cbn [disk].
  destruct d as [|[[n|n]|] rest]; intros H;
    pose proof (f_equal snd H) as Hw; cbn [snd] in Hw; subst w';
    repeat split.
Qed.

(** X2. Whatever its outcome, the Segmenter leaves the input directory, the
    volume, the spacing and the mesh as they were.  It returns True only
    after loading a complete volume, over the threshold mask of that volume
    or, when the write was cut short unnoticed, over a torn mask; it raises
    OSError over a torn mask when the cut is reported; any other outcome is
    the FileNotFoundError, EOFError or ValueError of the load and leaves the
    world unchanged. *)
Theorem run_segmentation_frame (w w' : world) (r : outcome bool) :
  run_segmentation w = (r, w') ->
  keeps_upstream w w'
  /\ organ_model_stl w' = organ_model_stl w
  /\ ((r = Return true
       /\ exists volume,
            volume_npy w = Some (Whole volume)
            /\ (segmented_volume_npy w'
                = Some (Whole (astype_uint8 (greater volume threshold)))
                \/ exists n, segmented_volume_npy w' = Some (Torn n)))
      \/ (r = Raise OSError
          /\ exists n, segmented_volume_npy w' = Some (Torn n))
      \/ (w' = w
          /\ (r = Raise FileNotFoundError \/ r = Raise EOFError
              \/ r = Raise ValueError))).
Proof.
  pose proof (run_segmentation_cases w) as Hc. intros H.
  destruct (volume_npy w) as [[volume|[|n]]|] eqn:Hv.
  - rewrite Hc in H. clear Hc. revert H. unfold bind, save, ret.
    destruct w as [dd v s g m d nz dr]. cbn [disk volume_npy] in *.
    destruct d as [|[[k|k]|] rest]; intros H;
      pose proof (f_equal fst H) as Hr; pose proof (f_equal snd H) as Hw;
      cbn [fst snd] in Hr, Hw; subst r w';
      (split; [repeat split|split; [reflexivity|]]).
    + left. split; [reflexivity|]. exists volume. split; [reflexivity|].
      now left.
    + right. left. split; [reflexivity|]. now exists k.
    + left. split; [reflexivity|]. exists volume. split; [reflexivity|].
      right. now exists k.
    + left. split; [reflexivity|]. exists volume. split; [reflexivity|].
      now left.
  - rewrite Hc in H.
    pose proof (f_equal fst H) as Hr; pose proof (f_equal snd H) as Hw.
    cbn [fst snd] in Hr, Hw. subst r w'.
    split; [repeat split|split; [reflexivity|]]. right. right. auto.
  - rewrite Hc in H.
    pose proof (f_equal fst H) as Hr; pose proof (f_equal snd H) as Hw.
    cbn [fst snd] in Hr, Hw. subst r w'.
    split; [repeat split|split; [reflexivity|]]. right. right. auto.
  - rewrite Hc in H.
    pose proof (f_equal fst H) as Hr; pose proof (f_equal snd H) as Hw.
    cbn [fst snd] in Hr, Hw. subst r w'.
    split; [repeat split|split; [reflexivity|]]. right. right. auto.
Qed.

(** The int16 volume of four samples when the write of the mask is cut
    after 130 bytes, unnoticed. *)
Lemma run_segmentation_frame_witness :
  let w := set_disk [Some (Unnoticed 130)]
             (Scenario.with_volume Scenario.int16_volume) in
  let w' := set_segmented_volume_npy (Some (Torn 130))
              (Scenario.with_volume Scenario.int16_volume) in
  keeps_upstream w w'
  /\ organ_model_stl w' = organ_model_stl w
  /\ ((Return true = Return true
       /\ exists volume,
            volume_npy w = Some (Whole volume)
            /\ (segmented_volume_npy w'
                = Some (Whole (astype_uint8 (greater volume threshold)))
                \/ exists n, segmented_volume_npy w' = Some (Torn n)))
      \/ (@Return bool true = Raise OSError
          /\ exists n, segmented_volume_npy w' = Some (Torn n))
      \/ (w' = w
          /\ (@Return bool true = Raise FileNotFoundError
              \/ @Return bool true = Raise EOFError
              \/ @Return bool true = Raise ValueError))).
Proof.
  apply (@run_segmentation_frame
           (set_disk [Some (Unnoticed 130)]
              (Scenario.with_volume Scenario.int16_volume))
           (set_segmented_volume_npy (Some (Torn 130))
              (Scenario.with_volume Scenario.int16_volume))
           (Return true)).
  reflexivity.
Defined.

(* ===================================================================== *)
(** ** create_3d_model: absent input, outcomes, the triangle soup *)

Section SurfaceOutcomes.

Variable lewiner : ndarray Z -> float -> list vertex * list face.

Lemma create_3d_model_fill_raises (w : world) (mask : ndarray Z)
  (verts : list vertex) (faces : list face) (e : exn) :
  segmented_volume_npy w = Some (Whole mask) ->
  marching_cubes lewiner (Np.transpose_2_1_0 0%Z mask) 0.5
  = Return (verts, faces) ->
  fill_vectors verts faces = Raise e ->
  create_3d_model lewiner w = (Raise e, w).
Proof.
  intros Hseg Hmc Hfill. unfold create_3d_model. rewrite try_reraise.
  unfold bind at 1, exists_file. rewrite Hseg.
  unfold bind at 1, ret at 1. unfold bind at 1, load. rewrite Hseg.
  unfold bind at 1, lift at 1. rewrite Hmc.
  unfold bind at 1, lift at 1. now rewrite Hfill.
Qed.

Lemma create_3d_model_no_mask (w : world) :
  segmented_volume_npy w = None ->
  create_3d_model lewiner w = (Raise FileNotFoundError, w).
Proof.
  intros Hseg. unfold create_3d_model. rewrite try_reraise.
  unfold bind at 1, exists_file. rewrite Hseg.
  reflexivity.
Qed.

Lemma create_3d_model_torn_mask (w : world) (n : nat) :
  segmented_volume_npy w = Some (Torn n) ->
  create_3d_model lewiner w
  = (Raise match n with 0 => EOFError | S _ => ValueError end, w).
Proof.
  intros Hseg. unfold create_3d_model. rewrite try_reraise.
  unfold bind at 1, exists_file. rewrite Hseg.
  unfold bind at 1, ret at 1. unfold bind at 1, load. rewrite Hseg.
  now destruct n.
Qed.

End SurfaceOutcomes.

(** X3. Without a complete mask file the Surface Extractor raises and
    changes nothing: the explicit check raises FileNotFoundError when the
    file is absent, and loading raises EOFError on an empty file and
    ValueError on a file that is otherwise incomplete; the triangulation is
    not consulted and no mesh is written. *)
Theorem create_3d_model_without_mask
  (lewiner : ndarray Z -> float -> list vertex * list face) (w : world) :
  (segmented_volume_npy w = None ->
   create_3d_model lewiner w = (Raise FileNotFoundError, w))
  /\ (segmented_volume_npy w = Some (Torn 0) ->
      create_3d_model lewiner w = (Raise EOFError, w))
  /\ (forall n, segmented_volume_npy w = Some (Torn (S n)) ->
                create_3d_model lewiner w = (Raise ValueError, w)).
Proof.
  split; [|split].
  - apply create_3d_model_no_mask.
  - intros H. exact (create_3d_model_torn_mask lewiner w H).
  - intros n H. exact (create_3d_model_torn_mask lewiner w H).
Qed.

Lemma create_3d_model_without_mask_witness :
  create_3d_model Scenario.lewiner_corner (Scenario.fresh Scenario.quiet)
  = (Raise FileNotFoundError, Scenario.fresh Scenario.quiet)
  /\ create_3d_model Scenario.lewiner_corner Cases.empty_mask
     = (Raise EOFError, Cases.empty_mask)
  /\ create_3d_model Scenario.lewiner_corner Cases.torn_mask
     = (Raise ValueError, Cases.torn_mask).
Proof.
  split; [|split].
  - apply (proj1 (create_3d_model_without_mask Scenario.lewiner_corner
                    (Scenario.fresh Scenario.quiet))).
    reflexivity.
  - apply (proj1 (proj2 (create_3d_model_without_mask
                           Scenario.lewiner_corner Cases.empty_mask))).
    reflexivity.
  - apply (proj2 (proj2 (create_3d_model_without_mask
                           Scenario.lewiner_corner Cases.torn_mask)) 127).
    reflexivity.
Defined.

(** X4. Whatever the triangulation and whatever the outcome,
    [create_3d_model] leaves the input directory, the volume, the spacing
    and the mask as they were.  It returns True only after loading a
    complete mask and building the triangle soup of its extraction, over
    that soup or, when the write was cut short unnoticed, over a torn mesh
    file; when the cut is reported it raises OSError over a torn mesh file;
    every other failure leaves the world unchanged. *)
Theorem create_3d_model_outcomes
  (lewiner : ndarray Z -> float -> list vertex * list face)
  (w w' : world) (r : outcome bool) :
  create_3d_model lewiner w = (r, w') ->
  keeps_upstream w w'
  /\ segmented_volume_npy w' = segmented_volume_npy w
  /\ ((r = Return true
       /\ exists mask verts faces soup,
            segmented_volume_npy w = Some (Whole mask)
            /\ marching_cubes lewiner (Np.transpose_2_1_0 0%Z mask) 0.5
               = Return (verts, faces)
            /\ fill_vectors verts faces = Return soup
            /\ (organ_model_stl w' = Some (Whole soup)
                \/ exists n, organ_model_stl w' = Some (Torn n)))
      \/ (r = Raise OSError
          /\ exists n, organ_model_stl w' = Some (Torn n))
      \/ (w' = w /\ exists e, r = Raise e)).
Proof.
  intros H.
  assert (Hsame : forall e,
             create_3d_model lewiner w = (Raise e, w) ->
             keeps_upstream w w'
             /\ segmented_volume_npy w' = segmented_volume_npy w
             /\ ((r = Return true
                  /\ exists mask verts faces soup,
                       segmented_volume_npy w = Some (Whole mask)
                       /\ marching_cubes lewiner
                            (Np.transpose_2_1_0 0%Z mask) 0.5
                          = Return (verts, faces)
                       /\ fill_vectors verts faces = Return soup
                       /\ (organ_model_stl w' = Some (Whole soup)
                           \/ exists n, organ_model_stl w' = Some (Torn n)))
                 \/ (r = Raise OSError
                     /\ exists n, organ_model_stl w' = Some (Torn n))
                 \/ (w' = w /\ exists e, r = Raise e))).
  { intros e He. rewrite He in H.
    pose proof (f_equal fst H) as Hr; pose proof (f_equal snd H) as Hw.
    cbn [fst snd] in Hr, Hw. subst r w'.
    split; [repeat split|split; [reflexivity|]].
    right. right. split; [reflexivity|]. now exists e. }
  destruct (segmented_volume_npy w) as [[mask|n]|] eqn:Hseg.
  - destruct (marching_cubes lewiner (Np.transpose_2_1_0 0%Z mask) 0.5)
      as [[verts faces]|e] eqn:Hmc.
    + destruct (fill_vectors verts faces) as [soup|e] eqn:Hfill.
      * clear Hsame.
        rewrite (create_3d_model_saves lewiner w Hseg Hmc Hfill) in H.
        revert H. unfold bind, save, ret.
        destruct w as [dd v s g m d nz dr].
        cbn [disk segmented_volume_npy] in *. subst g.
        destruct d as [|[[k|k]|] rest]; intros H;
          pose proof (f_equal fst H) as Hr;
          pose proof (f_equal snd H) as Hw;
          cbn [fst snd] in Hr, Hw; subst r w';
          (split; [repeat split|split; [reflexivity|]]).
        -- left. split; [reflexivity|].
           exists mask, verts, faces, soup.
           repeat split; [exact Hmc|exact Hfill|now left].
        -- right. left. split; [reflexivity|]. now exists k.
        -- left. split; [reflexivity|].
           exists mask, verts, faces, soup.
           repeat split; [exact Hmc|exact Hfill|right; now exists k].
        -- left. split; [reflexivity|].
           exists mask, verts, faces, soup.
           repeat split; [exact Hmc|exact Hfill|now left].
      * apply (Hsame e).
        now apply create_3d_model_fill_raises
          with (mask := mask) (verts := verts) (faces := faces).
    + apply (Hsame e).
      now apply create_3d_model_extraction_raises with (mask := mask).
  - apply (Hsame match n with 0 => EOFError | S _ => ValueError end).
    now apply create_3d_model_torn_mask.
  - apply (Hsame FileNotFoundError). now apply create_3d_model_no_mask.
Qed.

(** The corner mask when the write of the mesh is cut after the 84 bytes
    of its header, unnoticed: True over the torn mesh. *)
Lemma create_3d_model_outcomes_witness :
  let w := Scenario.segmented Scenario.corner None [Some (Unnoticed 84)] in
  let w' := Scenario.segmented Scenario.corner (Some (Torn 84)) [] in
  create_3d_model Scenario.lewiner_corner w = (Return true, w')
  /\ keeps_upstream w w'
  /\ segmented_volume_npy w' = segmented_volume_npy w
  /\ organ_model_stl w' = Some (Torn 84).
Proof.
  cbv zeta.
  destruct (@create_3d_model_outcomes Scenario.lewiner_corner
              (Scenario.segmented Scenario.corner None
                 [Some (Unnoticed 84)])
              (Scenario.segmented Scenario.corner (Some (Torn 84)) [])
              (Return true) eq_refl) as (Hup & Hseg & _).
  repeat split; try reflexivity; apply Hup.
Defined.

(** X5. The triangle soup has one triangle per face, in the order of the
    faces, and the three corners of triangle [i] are the vertices that face
    [i] names. *)
Theorem fill_vectors_soup (verts : list vertex) (faces : list face)
  (soup : stl_mesh) :
  fill_vectors verts faces = Return soup ->
  List.length soup = List.length faces
  /\ forall i f0 f1 f2,
       nth_error faces i = Some (f0, f1, f2) ->
       exists v0 v1 v2,
         nth_error soup i = Some (v0, v1, v2)
         /\ nth_error verts f0 = Some v0
         /\ nth_error verts f1 = Some v1
         /\ nth_error verts f2 = Some v2.
Proof.
  revert soup.
  induction faces as [|[[g0 g1] g2] faces IH]; intros soup; cbn.
  - intros [= <-]. split; [reflexivity|]. now intros [|i].
  - destruct (nth_error verts g0) as [v0|] eqn:E0; [|discriminate].
    destruct (nth_error verts g1) as [v1|] eqn:E1; [|discriminate].
    destruct (nth_error verts g2) as [v2|] eqn:E2; [|discriminate].
    cbn [obind].
    destruct (fill_vectors verts faces) as [ts|e]; [|discriminate].
    cbn [obind]. intros [= <-].
    destruct (IH ts eq_refl) as [Hlen Hnth].
    split; [cbn; now rewrite Hlen|].
    intros [|i] f0 f1 f2; cbn.
    + intros [= <- <- <-]. now exists v0, v1, v2.
    + apply Hnth.
Qed.

Lemma fill_vectors_soup_witness :
  List.length
    [((0, 0, 0), (1, 0, 0), (0, 1, 0)); ((0, 0, 0), (1, 0, 0), (0, 0, 1));
     ((0, 0, 0), (0, 1, 0), (0, 0, 1));
     ((1, 0, 0), (0, 1, 0), (0, 0, 1))]%float
  = List.length Cases.tetra_faces.
Proof.
  apply (proj1 (@fill_vectors_soup Cases.tetra_verts Cases.tetra_faces
                  [((0, 0, 0), (1, 0, 0), (0, 1, 0));
                   ((0, 0, 0), (1, 0, 0), (0, 0, 1));
                   ((0, 0, 0), (0, 1, 0), (0, 0, 1));
                   ((1, 0, 0), (0, 1, 0), (0, 0, 1))]%float
                  eq_refl)).
Defined.

Lemma face_vectors_in_range (verts : list vertex) (f : face) :
  face_in_range verts f -> exists t, face_vectors verts f = Return t.
Proof.
  destruct f as [[f0 f1] f2]. cbn [face_in_range face_vectors].
  intros (H0 & H1 & H2).
  apply nth_error_Some in H0, H1, H2.
  destruct (nth_error verts f0) as [v0|]; [|contradiction].
  destruct (nth_error verts f1) as [v1|]; [|contradiction].
  destruct (nth_error verts f2) as [v2|]; [|contradiction].
  now exists (v0, v1, v2).
Qed.

Lemma face_vectors_out_of_range (verts : list vertex) (f : face) :
  ~ face_in_range verts f -> face_vectors verts f = Raise IndexError.
Proof.
  destruct f as [[f0 f1] f2]. cbn [face_in_range face_vectors].
  intros H.
  destruct (nth_error verts f0) as [v0|] eqn:E0; [|reflexivity].
  destruct (nth_error verts f1) as [v1|] eqn:E1; [|reflexivity].
  destruct (nth_error verts f2) as [v2|] eqn:E2; [|reflexivity].
  exfalso. apply H. repeat split; apply nth_error_Some; congruence.
Qed.

(** X6. Filling the vectors succeeds exactly when every face names existing
    vertices; as soon as one face has an index beyond the vertex list the
    result is IndexError, and nothing else can go wrong. *)
Theorem fill_vectors_index_check (verts : list vertex) (faces : list face) :
  (Forall (face_in_range verts) faces ->
   exists soup, fill_vectors verts faces = Return soup)
  /\ (~ Forall (face_in_range verts) faces ->
      fill_vectors verts faces = Raise IndexError).
Proof.
  induction faces as [|f faces [IHok IHbad]].
  - split; [now exists []|]. intros H. exfalso. apply H. constructor.
  - split.
    + intros H. inversion H as [|? ? Hf Hrest]; subst.
      destruct (face_vectors_in_range verts f Hf) as [t Ht].
      destruct (IHok Hrest) as [ts Hts].
      exists (t :: ts). cbn [fill_vectors]. now rewrite Ht, Hts.
    + intros H. cbn [fill_vectors].
      destruct (face_vectors verts f) as [t|e] eqn:Ef.
      * cbn [obind]. rewrite IHbad; [reflexivity|].
        intros Hrest. apply H. constructor; [|exact Hrest].
        destruct f as [[f0 f1] f2]. cbn [face_in_range face_vectors] in *.
        destruct (nth_error verts f0) eqn:E0; [|discriminate].
        destruct (nth_error verts f1) eqn:E1; [|discriminate].
        destruct (nth_error verts f2) eqn:E2; [|discriminate].
        repeat split; apply nth_error_Some; congruence.
      * cbn [obind].
        assert (Hcases : face_in_range verts f \/ ~ face_in_range verts f).
        { destruct f as [[f0 f1] f2]. cbn [face_in_range]. lia. }
        destruct Hcases as [Hin|Hout].
        -- destruct (face_vectors_in_range verts f Hin) as [t Ht].
           rewrite Ht in Ef. discriminate Ef.
        -- rewrite (face_vectors_out_of_range verts f Hout) in Ef.
           injection Ef as <-. reflexivity.
Qed.

Lemma fill_vectors_index_check_witness :
  (exists soup, fill_vectors Cases.tetra_verts Cases.tetra_faces = Return soup)
  /\ fill_vectors Cases.tetra_verts Cases.broken_faces = Raise IndexError.
Proof.
  split.
  - apply (proj1 (fill_vectors_index_check Cases.tetra_verts
                    Cases.tetra_faces)).
    repeat constructor.
  - apply (proj2 (fill_vectors_index_check Cases.tetra_verts
                    Cases.broken_faces)).
    intros H. inversion H as [|? ? _ H2]. inversion H2 as [|? ? Hf _].
    cbn in Hf. lia.
Defined.

(* ===================================================================== *)
(** ** The directory scan *)

Lemma length_append_string (s t : string) :
  String.length (s ++ t) = String.length s + String.length t.
Proof. induction s as [|c s IH]; cbn; [reflexivity|now rewrite IH]. Qed.

Lemma substring_all (t : string) : substring 0 (String.length t) t = t.
Proof. induction t as [|c t IH]; cbn; [reflexivity|now rewrite IH]. Qed.

Lemma substring_skip (s t : string) :
  substring (String.length s) (String.length t) (s ++ t) = t.
Proof.
  induction s as [|c s IH]; cbn; [apply substring_all|exact IH].
Qed.

Lemma endswith_append (s suffix : string) :
  Str.endswith (s ++ suffix) suffix = true.
Proof.
  unfold Str.endswith. rewrite length_append_string.
  replace (String.length s + String.length suffix - String.length suffix)
    with (String.length s) by lia.
  rewrite substring_skip, String.eqb_refl, andb_true_r.
  apply Nat.leb_le. lia.
Qed.

Lemma lower_append (s t : string) :
  Str.lower (s ++ t) = (Str.lower s ++ Str.lower t)%string.
Proof. induction s as [|c s IH]; cbn; [reflexivity|now rewrite IH]. Qed.

(** X7. A file name is a candidate whenever it contains no dot, and
    whenever it ends in .dcm or .dicom written in any mixture of upper and
    lower case, whatever precedes the extension. *)
Theorem is_candidate_extension (stem ext : string) :
  (Str.contains "." stem = false -> is_candidate stem = true)
  /\ (Str.lower ext = ".dcm"%string \/ Str.lower ext = ".dicom"%string ->
      is_candidate (stem ++ ext) = true).
Proof.
  unfold is_candidate. split.
  - intros ->. apply orb_true_r.
  - rewrite lower_append. intros [-> | ->]; rewrite endswith_append.
    + reflexivity.
    + now rewrite orb_true_r.
Qed.

Lemma is_candidate_extension_witness :
  is_candidate "IMG0002" = true /\ is_candidate ("CT001" ++ ".DcM") = true.
Proof.
  split.
  - apply (proj1 (is_candidate_extension "IMG0002" EmptyString)). reflexivity.
  - apply (proj2 (is_candidate_extension "CT001" ".DcM")). now left.
Defined.

(** X8. The candidate list holds exactly the paths [DICOM_PATH/name] of the
    regular files whose name passes the test, so a sub-directory is never a
    candidate, and it is never longer than the directory listing. *)
Theorem candidates_membership (entries : list dirent) (file_path : string) :
  (In file_path (candidates entries) <->
   exists d, In d entries
             /\ d_isfile d = true
             /\ is_candidate (d_name d) = true
             /\ file_path = Str.path_join DICOM_PATH (d_name d))
  /\ List.length (candidates entries) <= List.length entries.
Proof.
  split.
  - unfold candidates. rewrite in_flat_map. split.
    + intros (d & Hd & Hin).
      destruct (d_isfile d) eqn:Hf; [|contradiction].
      destruct (is_candidate (d_name d)) eqn:Hc; [|contradiction].
      destruct Hin as [<-|[]]. now exists d.
    + intros (d & Hd & Hf & Hc & ->). exists d. split; [exact Hd|].
      rewrite Hf, Hc. now left.
  - induction entries as [|d entries IH]; [reflexivity|].
    unfold candidates in *. cbn [flat_map]. rewrite length_app.
    destruct (d_isfile d && is_candidate (d_name d));
      cbn [List.length]; lia.
Qed.

Lemma candidates_membership_witness :
  In (Str.path_join DICOM_PATH "IMG0002") (candidates Cases.mixed_entries)
  /\ ~ In (Str.path_join DICOM_PATH "old.dcm")
         (candidates Cases.mixed_entries).
Proof.
  split.
  - apply (proj1 (@candidates_membership Cases.mixed_entries
                    (Str.path_join DICOM_PATH "IMG0002"))).
    exists (mk_dirent "IMG0002" true).
    repeat split. cbn. auto.
  - intros H.
    apply (proj1 (@candidates_membership Cases.mixed_entries
                    (Str.path_join DICOM_PATH "old.dcm"))) in H.
    destruct H as (d & Hin & Hfile & _ & Hname).
    cbn in Hin.
    destruct Hin as [<-|[<-|[<-|[<-|[]]]]]; cbn in Hfile, Hname;
      discriminate.
Defined.

Example candidates_mixed :
  candidates Cases.mixed_entries
  = [Str.path_join DICOM_PATH "CT001.DCM";
     Str.path_join DICOM_PATH "IMG0002"].
Proof. reflexivity. Qed.

(* ===================================================================== *)
(** ** Reading and ordering the slices *)

Section SliceFacts.

Variable lib : libraries.

Lemma read_slices_cons (file_path : string) (rest : list string) :
  read_slices lib (file_path :: rest)
  = match obind (ReadImage lib file_path) (fun slice_img =>
            obind (slice_position lib slice_img) (fun position =>
              Return (position, file_path, slice_img))) with
    | Return entry => entry :: read_slices lib rest
    | Raise _ => read_slices lib rest
    end.
Proof. reflexivity. Qed.

Lemma read_slices_paths (dicom_files : list string) :
  List.map (fun e : slice_entry => snd (fst e)) (read_slices lib dicom_files)
  = filter (readable lib) dicom_files.
Proof.
  induction dicom_files as [|file_path rest IH]; [reflexivity|].
  rewrite read_slices_cons. cbn [filter]. unfold readable.
  destruct (ReadImage lib file_path) as [img|e]; cbn [obind]; [|exact IH].
  destruct (slice_position lib img) as [pos|e]; cbn [obind]; [|exact IH].
  cbn [List.map fst snd]. now rewrite IH.
Qed.

Lemma read_slices_entries (dicom_files : list string) (position : float)
  (file_path : string) (slice_img : image) :
  In (position, file_path, slice_img) (read_slices lib dicom_files) ->
  In file_path dicom_files
  /\ ReadImage lib file_path = Return slice_img
  /\ slice_position lib slice_img = Return position.
Proof.
  induction dicom_files as [|fp rest IH]; [contradiction|].
  rewrite read_slices_cons.
  destruct (ReadImage lib fp) as [img|e] eqn:Hr; cbn [obind].
  - destruct (slice_position lib img) as [pos|e] eqn:Hp; cbn [obind].
    + intros [[= <- <- <-]|Hin].
      * repeat split; [now left|exact Hr|exact Hp].
      * destruct (IH Hin) as (H1 & H2 & H3). repeat split; auto. now right.
    + intros Hin. destruct (IH Hin) as (H1 & H2 & H3).
      repeat split; auto. now right.
  - intros Hin. destruct (IH Hin) as (H1 & H2 & H3).
    repeat split; auto. now right.
Qed.

End SliceFacts.

(** X9. Reading the slices keeps, in directory order, exactly the candidate
    files that can be read and whose ordering key can be extracted; a file
    whose reading or key extraction raises is skipped without failing the
    scan, and every entry carries the image read from its own file with the
    key extracted from that image. *)
Theorem read_slices_keeps_readable (lib : libraries)
  (dicom_files : list string) :
  List.map (fun e : slice_entry => snd (fst e)) (read_slices lib dicom_files)
  = filter (readable lib) dicom_files
  /\ forall position file_path slice_img,
       In (position, file_path, slice_img) (read_slices lib dicom_files) ->
       In file_path dicom_files
       /\ ReadImage lib file_path = Return slice_img
       /\ slice_position lib slice_img = Return position.
Proof.
  split.
  - apply read_slices_paths.
  - apply read_slices_entries.
Qed.

Lemma read_slices_keeps_readable_witness :
  In "a"%string ["a"; "bad"; "b"]%string
  /\ ReadImage Cases.lib_reads_all_but_bad "a" = Return Scenario.phantom
  /\ slice_position Cases.lib_reads_all_but_bad Scenario.phantom
     = Return 0%float.
Proof.
  apply (proj2 (read_slices_keeps_readable Cases.lib_reads_all_but_bad
                  ["a"; "bad"; "b"]%string)
           0%float "a"%string Scenario.phantom).
  cbn. auto.
Defined.

Example read_slices_skips_unreadable :
  List.map (fun e : slice_entry => snd (fst e))
    (read_slices Cases.lib_reads_all_but_bad ["a"; "bad"; "b"]%string)
  = ["a"; "b"]%string.
Proof. reflexivity. Qed.

(** float64 [<] is transitive and asymmetric, NaN included. *)
Ltac fold_pos_compare :=
  repeat match goal with
         | |- context [Pos.compare_cont Eq ?a ?b] =>
             change (Pos.compare_cont Eq a b) with (Pos.compare a b)
         end.

Lemma SFltb_trans (x y z : spec_float) :
  SFltb x y = true -> SFltb y z = true -> SFltb x z = true.
Proof.
  unfold SFltb, SFcompare.
  destruct x as [sx|sx| |sx mx ex], y as [sy|sy| |sy my ey],
           z as [sz|sz| |sz mz ez];
    try discriminate; try reflexivity;
    repeat match goal with s : bool |- _ => destruct s end;
    try discriminate; try reflexivity;
    fold_pos_compare;
    destruct (Z.compare_spec ex ey), (Z.compare_spec ey ez),
             (Z.compare_spec ex ez);
    try discriminate; try reflexivity; try lia; subst;
    destruct (Pos.compare_spec mx my), (Pos.compare_spec my mz),
             (Pos.compare_spec mx mz);
    cbn; try discriminate; try reflexivity; try lia.
Qed.

Lemma SFltb_asym (x y : spec_float) :
  SFltb x y = true -> SFltb y x = false.
Proof.
  unfold SFltb, SFcompare.
  destruct x as [sx|sx| |sx mx ex], y as [sy|sy| |sy my ey];
    try discriminate; try reflexivity;
    repeat match goal with s : bool |- _ => destruct s end;
    try discriminate; try reflexivity;
    fold_pos_compare;
    destruct (Z.compare_spec ex ey), (Z.compare_spec ey ex);
    try discriminate; try reflexivity; try lia; subst;
    destruct (Pos.compare_spec mx my), (Pos.compare_spec my mx);
    cbn; try discriminate; try reflexivity; try lia.
Qed.

Lemma ltb_trans (x y z : float) :
  (x <? y)%float = true -> (y <? z)%float = true -> (x <? z)%float = true.
Proof. rewrite !FloatAxioms.ltb_spec. apply SFltb_trans. Qed.

Lemma ltb_asym (x y : float) :
  (x <? y)%float = true -> (y <? x)%float = false.
Proof. rewrite !FloatAxioms.ltb_spec. apply SFltb_asym. Qed.

Lemma insert_slice_perm (e : slice_entry) (sorted : list slice_entry) :
  Permutation (insert_slice e sorted) (e :: sorted).
Proof.
  induction sorted as [|e' rest IH]; cbn [insert_slice]; [reflexivity|].
  destruct (sort_key e <? sort_key e')%float; [reflexivity|].
  rewrite IH. apply perm_swap.
Qed.

Lemma insert_slice_sorted (e : slice_entry) (sorted : list slice_entry) :
  StronglySorted may_follow sorted ->
  StronglySorted may_follow (insert_slice e sorted).
Proof.
  induction 1 as [|e' rest Hrest IH Hall]; cbn [insert_slice].
  - repeat constructor.
  - destruct (sort_key e <? sort_key e')%float eqn:Hlt.
    + constructor; [now constructor|].
      constructor; [now apply ltb_asym|].
      rewrite Forall_forall in *. intros y Hy. unfold may_follow in *.
      destruct (sort_key y <? sort_key e)%float eqn:Hy'; [|reflexivity].
      rewrite <- (Hall y Hy). symmetry.
      now apply ltb_trans with (y := sort_key e).
    + constructor; [exact IH|].
      rewrite Forall_forall in *. intros y Hy.
      apply (Permutation_in _ (insert_slice_perm e rest)) in Hy.
      destruct Hy as [<-|Hy]; [exact Hlt|now apply Hall].
Qed.

Lemma sort_from (slices_data sorted : list slice_entry) :
  StronglySorted may_follow sorted ->
  Permutation
    (fold_left (fun sorted e => insert_slice e sorted) slices_data sorted)
    (slices_data ++ sorted)
  /\ StronglySorted may_follow
       (fold_left (fun sorted e => insert_slice e sorted) slices_data sorted).
Proof.
  revert sorted.
  induction slices_data as [|e rest IH]; intros sorted Hs; cbn [fold_left].
  - split; [reflexivity|exact Hs].
  - destruct (IH (insert_slice e sorted) (insert_slice_sorted e Hs))
      as [Hp Hsorted].
    split; [|exact Hsorted].
    rewrite Hp, insert_slice_perm. cbn [app].
    symmetry. apply Permutation_middle.
Qed.

Lemma insertion_sort_perm (slices_data : list slice_entry) :
  Permutation (insertion_sort slices_data) slices_data.
Proof.
  unfold insertion_sort.
  destruct (@sort_from slices_data [] (SSorted_nil _)) as [Hp _].
  now rewrite app_nil_r in Hp.
Qed.

Lemma insertion_sort_strongly_sorted (slices_data : list slice_entry) :
  StronglySorted may_follow (insertion_sort slices_data).
Proof.
  unfold insertion_sort.
  now destruct (@sort_from slices_data [] (SSorted_nil _)) as [_ Hs].
Qed.

(** Keys without NaN are sorted by insertion, whatever the libraries. *)
Lemma sort_slices_ordered (lib : libraries)
  (slices_data : list slice_entry) :
  ordered_keys slices_data = true ->
  sort_slices lib slices_data = insertion_sort slices_data.
Proof. unfold sort_slices. now intros ->. Qed.

(** X10. When no key is NaN, sorting the slices loses and duplicates none
    of them and leaves them in ascending key order: no slice is followed,
    at any distance, by one whose key is strictly below its own.  With a
    NaN among the keys nothing of the kind is promised. *)
Theorem sort_slices_sorted (lib : libraries)
  (slices_data : list slice_entry) :
  ordered_keys slices_data = true ->
  Permutation (sort_slices lib slices_data) slices_data
  /\ StronglySorted may_follow (sort_slices lib slices_data).
Proof.
  intros Hkeys. unfold sort_slices. rewrite Hkeys. unfold insertion_sort.
  destruct (@sort_from slices_data [] (SSorted_nil _)) as [Hp Hs].
  split; [|exact Hs]. now rewrite app_nil_r in Hp.
Qed.

(** The two slices of instance numbers 2 and 1. *)
Lemma sort_slices_sorted_witness :
  Permutation
    (sort_slices Cases.lib_unjoinable
       (read_slices Cases.lib_unjoinable Cases.two_slices))
    (read_slices Cases.lib_unjoinable Cases.two_slices)
  /\ StronglySorted may_follow
       (sort_slices Cases.lib_unjoinable
          (read_slices Cases.lib_unjoinable Cases.two_slices)).
Proof.
  apply (@sort_slices_sorted Cases.lib_unjoinable
           (read_slices Cases.lib_unjoinable Cases.two_slices)).
  reflexivity.
Defined.

(* ===================================================================== *)
(** ** The decode path of the Volume Source *)

Section DecodeFacts.

Variable lib : libraries.

Lemma read_series_decodes (dicom_files : list string) (image : image)
  (w : world) :
  decodes lib dicom_files image ->
  read_series lib dicom_files w = (Return (inl image), w).
Proof.
  intros Hdec. open_read_series.
  destruct Hdec as [id others names image Hid Hnames Hex
                   |image Hid Hne Hex
                   |first rest e Hid Hsort Hex].
  - apply try_return. unfold bind at 1, lift at 1. rewrite Hid.
    unfold bind at 1, lift at 1. rewrite Hnames.
    unfold bind at 1, lift at 1. now rewrite Hex.
  - apply try_return. unfold bind at 1, lift at 1. rewrite Hid.
    destruct (read_slices lib dicom_files) as [|e es]; [contradiction|].
    cbv beta iota zeta. apply try_return. unfold bind at 1, lift at 1.
    unfold slice_entry in *. now rewrite Hex.
  - apply try_return. unfold bind at 1, lift at 1. rewrite Hid.
    destruct (read_slices lib dicom_files) as [|e0 es].
    { discriminate Hsort. }
    cbv beta iota zeta. apply try_raise_any with (w' := w).
    + exists e. unfold bind at 1, lift at 1.
      unfold slice_entry in *. now rewrite Hex.
    + intros _. now rewrite Hsort.
Qed.

(** With candidate files and a decoded image, the [try] block goes on to
    normalise, resample and store. *)
Lemma decode_and_store_image (entries : list dirent) (image : image)
  (w : world) :
  dicom_dir w = Directory entries ->
  candidates entries <> [] ->
  decodes lib (candidates entries) image ->
  decode_and_store lib w
  = bind (lift (resample lib (convert_to_hu (GetArrayFromImage image))
                         (reversed (GetSpacing image)) default_new_spacing))
         (fun rs =>
            let '(resampled_volume, new_spacing) := rs in
            bind (save set_volume_npy (Int16Array resampled_volume))
                 (fun _ => bind (save set_spacing_npy new_spacing)
                                (fun _ => ret true))) w.
Proof.
  intros Hdir Hcand Hdec. open_decode_and_store.
  unfold bind at 1, os_path_exists_DICOM_PATH. rewrite Hdir.
  unfold bind at 1. unfold bind at 1, os_listdir_DICOM_PATH.
  rewrite Hdir. unfold ret at 1.
  destruct entries as [|d entries']; [now contradiction Hcand|].
  cbn [List.length Nat.eqb]. unfold bind at 1. rewrite Hdir.
  destruct (candidates (d :: entries')) as [|f fs] eqn:Hc;
    [now contradiction Hcand|].
  unfold bind at 1. now rewrite (read_series_decodes w Hdec).
Qed.

End DecodeFacts.

(** X11. When the directory has candidate files and the series reader
    arrives at an image, the interpolation routine returns and the disk
    accepts two writes, the Volume Source returns True having stored the
    routine's result on the normalised samples as the int16 volume and the
    spacing recomputed from the rounded counts; it draws no noise and leaves
    the input directory, the mask and the mesh as they were. *)
Theorem process_dicom_stores_decoded (lib : libraries) (w : world)
  (entries : list dirent) (image : image) (resampled : ndarray Z) :
  dicom_dir w = Directory entries ->
  candidates entries <> [] ->
  decodes lib (candidates entries) image ->
  zoom lib (convert_to_hu (GetArrayFromImage image)) (zoom_factor image)
  = Return resampled ->
  accepts 2 (disk w) = true ->
  exists w',
    process_dicom lib w = (Return true, w')
    /\ volume_npy w' = stored_volume resampled
    /\ spacing_npy w' = stored_spacing image
    /\ keeps_downstream w w'
    /\ draws w' = draws w
    /\ disk w' = skipn 2 (disk w).
Proof.
  intros Hdir Hcand Hdec Hzoom Hdisk.
  apply accepts_2 in Hdisk as [H1 H2].
  open_process_dicom.
  eexists. split.
  - apply try_return.
    rewrite (decode_and_store_image w Hdir Hcand Hdec).
    unfold bind at 1, lift at 1, resample. unfold zoom_factor in Hzoom.
    rewrite Hzoom. cbn [obind].
    unfold bind at 1. rewrite save_accepted by exact H1.
    unfold bind at 1. rewrite save_accepted by exact H2.
    reflexivity.
  - destruct w as [dd v s g m d nz dr]. cbn [disk] in *.
    destruct d as [|o [|o' rest]]; repeat split; reflexivity.
Qed.

Lemma process_dicom_stores_decoded_witness :
  exists w',
    process_dicom (Scenario.lib_series Scenario.zoom_order0)
      (Scenario.uploaded []) = (Return true, w')
    /\ volume_npy w'
       = stored_volume (mk_ndarray (1, 2, 2) [0; 0; 300; 0]%Z)
    /\ spacing_npy w' = stored_spacing Scenario.phantom
    /\ keeps_downstream (Scenario.uploaded []) w'
    /\ draws w' = draws (Scenario.uploaded [])
    /\ disk w' = skipn 2 (disk (Scenario.uploaded [])).
Proof.
  apply (@process_dicom_stores_decoded
           (Scenario.lib_series Scenario.zoom_order0) (Scenario.uploaded [])
           [mk_dirent "ct001.dcm" true] Scenario.phantom
           (mk_ndarray (1, 2, 2) [0; 0; 300; 0]%Z)).
  - reflexivity.
  - discriminate.
  - apply decodes_series
      with (series_ID := "1.2.840.1"%string) (others := [])
           (dicom_series_files := [Str.path_join DICOM_PATH "ct001.dcm"]);
      reflexivity.
  - vm_compute. reflexivity.
  - reflexivity.
Defined.

(** X12. When GDCM identifies no series and the readable slices cannot be
    joined into one volume, the series reader does not fall back to
    synthesis: it carries on with a single slice, the first of the sorted
    list.  When no key is NaN, that slice was read from one of the
    candidate files and no other slice read has a key strictly below its
    key. *)
Theorem read_series_single_slice (lib : libraries)
  (dicom_files : list string) (w : world) (first : slice_entry)
  (rest : list slice_entry) (e : exn) :
  GetGDCMSeriesIDs lib DICOM_PATH = Return [] ->
  sort_slices lib (read_slices lib dicom_files) = first :: rest ->
  Execute lib
    (List.map (fun x : slice_entry => snd (fst x))
              (sort_slices lib (read_slices lib dicom_files)))
  = Raise e ->
  read_series lib dicom_files w = (Return (inl (snd first)), w)
  /\ (ordered_keys (read_slices lib dicom_files) = true ->
      In (snd (fst first)) dicom_files
      /\ ReadImage lib (snd (fst first)) = Return (snd first)
      /\ Forall (may_follow first) rest).
Proof.
  intros Hid Hsort Hex.
  split.
  { apply read_series_decodes.
    now apply decodes_first_slice with (rest := rest) (e := e). }
  intros Hkeys. rewrite (sort_slices_ordered lib _ Hkeys) in Hsort.
  assert (Hin : In first (read_slices lib dicom_files)).
  { apply (Permutation_in _ (insertion_sort_perm _)).
    rewrite Hsort. now left. }
  destruct first as [[position file_path] slice_img].
  destruct (read_slices_entries lib dicom_files _ _ _ Hin)
    as (Hfile & Hread & _).
  split; [exact Hfile|]. split; [exact Hread|].
  pose proof (insertion_sort_strongly_sorted (read_slices lib dicom_files))
    as Hs.
  rewrite Hsort in Hs. now inversion Hs.
Qed.

Lemma read_series_single_slice_witness :
  read_series Cases.lib_unjoinable Cases.two_slices (Scenario.uploaded [])
  = (Return (inl (Cases.slice "1")), Scenario.uploaded [])
  /\ In (Str.path_join DICOM_PATH "s1") Cases.two_slices
  /\ ReadImage Cases.lib_unjoinable (Str.path_join DICOM_PATH "s1")
     = Return (Cases.slice "1")
  /\ Forall (may_follow (1%float, Str.path_join DICOM_PATH "s1",
                         Cases.slice "1"))
       [(2%float, Str.path_join DICOM_PATH "s2", Cases.slice "2")].
Proof.
  destruct (@read_series_single_slice Cases.lib_unjoinable Cases.two_slices
              (Scenario.uploaded [])
              (1%float, Str.path_join DICOM_PATH "s1", Cases.slice "1")
              [(2%float, Str.path_join DICOM_PATH "s2", Cases.slice "2")]
              RuntimeError eq_refl eq_refl eq_refl) as [Hread Hfirst].
  split; [exact Hread|]. apply Hfirst. reflexivity.
Defined.

(* ===================================================================== *)
(** ** What a returning Volume Source has stored *)

Ltac stored_or_torn :=
  unfold stored_or_torn;
  first [left; reflexivity|right; eexists; reflexivity].

(** The synthesis returns only True, and only after writing the synthetic
    array and the unit spacing. *)
Lemma generate_synthetic_volume_returns (w w' : world) (b : bool) :
  generate_synthetic_volume w = (Return b, w') ->
  b = true
  /\ stored_or_torn
       (Some (Whole (Float64Array (synthetic_volume (normal w (draws w))))))
       (volume_npy w')
  /\ stored_or_torn (Some (Whole Synthetic.spacing)) (spacing_npy w').
Proof.
  unfold generate_synthetic_volume. rewrite try_reraise.
  unfold bind at 1, np_random_normal. rewrite shape_tabulate.
  fold (synthetic_volume (normal w (draws w))).
  generalize (synthetic_volume (normal w (draws w))). intros volume.
  destruct w as [dd v s g m d nz dr].
  destruct d as [|[[n|n]|] [|[[n'|n']|] rest]];
    cbv [bind save set_draws set_disk set_volume_npy set_spacing_npy
         ret disk dicom_dir volume_npy spacing_npy segmented_volume_npy
         organ_model_stl normal draws];
    intros H; pose proof (f_equal fst H) as Hb;
    pose proof (f_equal snd H) as Hw; cbn [fst snd] in Hb, Hw;
    try discriminate Hb; injection Hb as <-; subst w';
    (split; [reflexivity|split; stored_or_torn]).
Qed.

Section ReturnFacts.

Variable lib : libraries.

Lemma fallback_returns (w w' : world) (r : image + bool) :
  bind generate_synthetic_volume (fun b => ret (inr b)) w = (Return r, w') ->
  exists b, r = inr b /\ generate_synthetic_volume w = (Return b, w').
Proof.
  unfold bind, ret.
  destruct (generate_synthetic_volume w) as [[b|e] w1]; intros H.
  - pose proof (f_equal fst H) as Hr; pose proof (f_equal snd H) as Hw.
    cbn [fst snd] in Hr, Hw. injection Hr as <-. subst w1. now exists b.
  - pose proof (f_equal fst H) as Hr. discriminate Hr.
Qed.

Lemma fallback_world (w w' : world) (o : outcome (image + bool)) :
  bind generate_synthetic_volume (fun b => ret (inr b)) w = (o, w') ->
  (exists e, o = Raise e) \/
  exists b, o = Return (inr b) /\ generate_synthetic_volume w = (Return b, w').
Proof.
  destruct o as [r|e]; intros H; [right|left; now exists e].
  destruct (fallback_returns _ H) as (b & -> & Hgen). now exists b.
Qed.

(** What [read_series] returns: a decoded image with the world untouched,
    or the value of a synthesis that returned. *)
Lemma read_series_returns (dicom_files : list string) (w w' : world)
  (r : image + bool) :
  read_series lib dicom_files w = (Return r, w') ->
  match r with
  | inl image => w' = w /\ decodes lib dicom_files image
  | inr b => exists w0, generate_synthetic_volume w0 = (Return b, w')
  end.
Proof.
  open_read_series.
  set (handler := fun _ : exn =>
                    bind generate_synthetic_volume (fun b => ret (inr b))).
  assert (Hhandler : forall e w1,
             handler e w1 = (Return r, w') ->
             match r with
             | inl image => w' = w /\ decodes lib dicom_files image
             | inr b =>
                 exists w0, generate_synthetic_volume w0 = (Return b, w')
             end).
  { intros e w1 H. destruct (fallback_returns _ H) as (b & -> & Hgen).
    now exists w1. }
  unfold try_except at 1.
  unfold bind at 1, lift at 1.
  destruct (GetGDCMSeriesIDs lib DICOM_PATH) as [[|id others]|e0] eqn:Hid.
  - destruct (read_slices lib dicom_files) as [|e1 es] eqn:Hslices.
    + destruct (bind generate_synthetic_volume
                  (fun b => ret (inr b)) w) as [[r0|e0] w1] eqn:Hfb.
      * intros H. pose proof (f_equal fst H) as Hr.
        pose proof (f_equal snd H) as Hw. cbn [fst snd] in Hr, Hw.
        injection Hr as <-. subst w1.
        destruct (fallback_returns _ Hfb) as (b & -> & Hgen).
        now exists w.
      * apply Hhandler.
    + cbv beta iota zeta. unfold try_except at 1.
      unfold bind at 1, lift at 1. unfold slice_entry in *.
      destruct (Execute lib
                  (List.map (fun x => snd (fst x))
                            (sort_slices lib (e1 :: es))))
        as [image|e] eqn:Hex.
      * unfold ret. intros H. pose proof (f_equal fst H) as Hr.
        pose proof (f_equal snd H) as Hw. cbn [fst snd] in Hr, Hw.
        injection Hr as <-. subst w'. split; [reflexivity|].
        apply decodes_joined_slices; [exact Hid| |].
        -- rewrite Hslices. discriminate.
        -- unfold slice_entry. rewrite Hslices. exact Hex.
      * destruct (sort_slices lib (e1 :: es)) as [|first rest] eqn:Hsort.
        -- unfold raise. apply Hhandler.
        -- unfold ret. intros H. pose proof (f_equal fst H) as Hr.
           pose proof (f_equal snd H) as Hw. cbn [fst snd] in Hr, Hw.
           injection Hr as <-. subst w'. split; [reflexivity|].
           apply decodes_first_slice with (rest := rest) (e := e);
             [exact Hid| |].
           ++ rewrite Hslices. exact Hsort.
           ++ unfold slice_entry. rewrite Hslices, Hsort. exact Hex.
  - unfold bind at 1, lift at 1.
    destruct (GetGDCMSeriesFileNames lib DICOM_PATH id)
      as [names|e] eqn:Hnames; [|apply Hhandler].
    unfold bind at 1, lift at 1.
    destruct (Execute lib names) as [image|e] eqn:Hex; [|apply Hhandler].
    unfold ret. intros H. pose proof (f_equal fst H) as Hr.
    pose proof (f_equal snd H) as Hw. cbn [fst snd] in Hr, Hw.
    injection Hr as <-. subst w'. split; [reflexivity|].
    now apply decodes_series
      with (series_ID := id) (others := others) (dicom_series_files := names).
  - apply Hhandler.
Qed.

End ReturnFacts.

Section ReturnOfTheSource.

Variable lib : libraries.

Lemma store_decoded_returns (image : image) (w w' : world) (b : bool) :
  bind (lift (resample lib (convert_to_hu (GetArrayFromImage image))
                       (reversed (GetSpacing image)) default_new_spacing))
       (fun rs =>
          let '(resampled_volume, new_spacing) := rs in
          bind (save set_volume_npy (Int16Array resampled_volume))
               (fun _ => bind (save set_spacing_npy new_spacing)
                              (fun _ => ret true))) w
  = (Return b, w') ->
  b = true
  /\ exists resampled,
       zoom lib (convert_to_hu (GetArrayFromImage image)) (zoom_factor image)
       = Return resampled
       /\ stored_or_torn (stored_volume resampled) (volume_npy w')
       /\ stored_or_torn (stored_spacing image) (spacing_npy w').
Proof.
  unfold bind at 1, lift at 1, resample, zoom_factor.
  destruct (zoom lib (convert_to_hu (GetArrayFromImage image)) _)
    as [resampled|e]; cbn [obind].
  - destruct w as [dd v s g m d nz dr].
    destruct d as [|[[n|n]|] [|[[n'|n']|] rest]];
      cbv [bind save set_disk set_volume_npy set_spacing_npy
           ret disk dicom_dir volume_npy spacing_npy segmented_volume_npy
           organ_model_stl normal draws];
      intros H; pose proof (f_equal fst H) as Hb;
      pose proof (f_equal snd H) as Hw; cbn [fst snd] in Hb, Hw;
      try discriminate Hb; injection Hb as <-; subst w';
      (split; [reflexivity|]); exists resampled;
      (split; [reflexivity|split; stored_or_torn]).
  - intros H. pose proof (f_equal fst H) as Hb. discriminate Hb.
Qed.

Lemma decode_and_store_returns (w w' : world) (b : bool) :
  decode_and_store lib w = (Return b, w') ->
  (exists w0, generate_synthetic_volume w0 = (Return b, w'))
  \/ (b = true
      /\ exists entries image resampled,
           dicom_dir w = Directory entries
           /\ decodes lib (candidates entries) image
           /\ zoom lib (convert_to_hu (GetArrayFromImage image))
                   (zoom_factor image) = Return resampled
           /\ stored_or_torn (stored_volume resampled) (volume_npy w')
           /\ stored_or_torn (stored_spacing image) (spacing_npy w')).
Proof.
  open_decode_and_store.
  unfold bind at 1, os_path_exists_DICOM_PATH.
  destruct (dicom_dir w) as [| |entries] eqn:Hdir.
  - intros H. left. now exists w.
  - unfold bind at 1. unfold bind at 1, os_listdir_DICOM_PATH.
    rewrite Hdir. intros H. pose proof (f_equal fst H) as Hb.
    discriminate Hb.
  - unfold bind at 1. unfold bind at 1, os_listdir_DICOM_PATH.
    rewrite Hdir. unfold ret at 1.
    destruct entries as [|d entries'].
    { intros H. left. now exists w. }
    cbn [List.length Nat.eqb]. unfold bind at 1. rewrite Hdir.
    destruct (candidates (d :: entries')) as [|f fs] eqn:Hc.
    { intros H. left. now exists w. }
    unfold bind at 1.
    destruct (read_series lib (f :: fs) w) as [[[image|b0]|e] w1] eqn:Hrs.
    + destruct (read_series_returns lib _ _ Hrs) as [-> Hdec].
      intros H. destruct (store_decoded_returns image _ H)
        as (-> & resampled & Hzoom & Hvol & Hsp).
      right. split; [reflexivity|].
      exists (d :: entries'), image, resampled.
      rewrite Hc. now repeat split.
    + destruct (read_series_returns lib _ _ Hrs) as [w0 Hgen].
      unfold ret. intros H. pose proof (f_equal fst H) as Hb.
      pose proof (f_equal snd H) as Hw. cbn [fst snd] in Hb, Hw.
      injection Hb as <-. subst w1. left. now exists w0.
    + intros H. pose proof (f_equal fst H) as Hb. discriminate Hb.
Qed.

End ReturnOfTheSource.

(** X13. Whenever the Volume Source returns, it returns True, and the
    volume and spacing files come from one and the same pair of writes:
    those of the synthetic float64 array and of the unit spacing, or, for an
    image that the series reader decoded from the candidate files, those of
    the int16 result of the interpolation routine and of the spacing
    recomputed for that image.  Each of the two files is whole, or torn
    where its write was cut short unnoticed; a returning run never leaves a
    volume beside the spacing of another volume. *)
Theorem process_dicom_returns (lib : libraries) (w w' : world) (b : bool) :
  process_dicom lib w = (Return b, w') ->
  b = true
  /\ ((exists noise,
         stored_or_torn
           (Some (Whole (Float64Array (synthetic_volume noise))))
           (volume_npy w')
         /\ stored_or_torn (Some (Whole Synthetic.spacing)) (spacing_npy w'))
      \/ (exists entries image resampled,
            dicom_dir w = Directory entries
            /\ decodes lib (candidates entries) image
            /\ zoom lib (convert_to_hu (GetArrayFromImage image))
                    (zoom_factor image) = Return resampled
            /\ stored_or_torn (stored_volume resampled) (volume_npy w')
            /\ stored_or_torn (stored_spacing image) (spacing_npy w'))).
Proof.
  intros H.
  assert (Hsynth : forall w0,
             generate_synthetic_volume w0 = (Return b, w') ->
             b = true
             /\ ((exists noise,
                    stored_or_torn
                      (Some (Whole (Float64Array (synthetic_volume noise))))
                      (volume_npy w')
                    /\ stored_or_torn (Some (Whole Synthetic.spacing))
                                      (spacing_npy w'))
                 \/ (exists entries image resampled,
                       dicom_dir w = Directory entries
                       /\ decodes lib (candidates entries) image
                       /\ zoom lib (convert_to_hu (GetArrayFromImage image))
                               (zoom_factor image) = Return resampled
                       /\ stored_or_torn (stored_volume resampled)
                                         (volume_npy w')
                       /\ stored_or_torn (stored_spacing image)
                                         (spacing_npy w')))).
  { intros w0 Hgen.
    destruct (generate_synthetic_volume_returns _ Hgen) as (-> & Hv & Hs).
    split; [reflexivity|]. left. now exists (normal w0 (draws w0)). }
  revert H.
  open_process_dicom; unfold try_except.
  destruct (decode_and_store lib w) as [[b0|e] w1] eqn:Hdec.
  - intros H. pose proof (f_equal fst H) as Hb.
    pose proof (f_equal snd H) as Hw. cbn [fst snd] in Hb, Hw.
    injection Hb as ->. subst w1.
    destruct (decode_and_store_returns lib _ Hdec)
      as [[w0 Hgen]|[-> Hstored]].
    + now apply (Hsynth w0).
    + split; [reflexivity|]. now right.
  - apply Hsynth.
Qed.

(** The uploaded series when both writes are cut after 130 bytes,
    unnoticed: True over two torn files. *)
Lemma process_dicom_returns_witness :
  true = true
  /\ ((exists noise,
         stored_or_torn
           (Some (Whole (Float64Array (synthetic_volume noise))))
           (volume_npy Cases.torn_decoded)
         /\ stored_or_torn (Some (Whole Synthetic.spacing))
                           (spacing_npy Cases.torn_decoded))
      \/ (exists entries image resampled,
            dicom_dir (Scenario.uploaded
                         [Some (Unnoticed 130); Some (Unnoticed 130)])
            = Directory entries
            /\ decodes (Scenario.lib_series Scenario.zoom_order0)
                 (candidates entries) image
            /\ zoom (Scenario.lib_series Scenario.zoom_order0)
                 (convert_to_hu (GetArrayFromImage image)) (zoom_factor image)
               = Return resampled
            /\ stored_or_torn (stored_volume resampled)
                              (volume_npy Cases.torn_decoded)
            /\ stored_or_torn (stored_spacing image)
                              (spacing_npy Cases.torn_decoded))).
Proof.
  apply (@process_dicom_returns (Scenario.lib_series Scenario.zoom_order0)
           (Scenario.uploaded [Some (Unnoticed 130); Some (Unnoticed 130)])
           Cases.torn_decoded true).
  lazy. reflexivity.
Defined.

(* ===================================================================== *)
(** ** What the Volume Source leaves untouched *)

Section Frames.

Variable keeps : world -> world -> Prop.
Hypothesis keeps_refl : forall w, keeps w w.
Hypothesis keeps_trans :
  forall w1 w2 w3, keeps w1 w2 -> keeps w2 w3 -> keeps w1 w3.

Lemma frames_pure {A} (m : py A) :
  (forall w, snd (m w) = w) -> frames keeps m.
Proof.
  intros Hm w r w' H. pose proof (Hm w) as Hw. rewrite H in Hw.
  cbn [snd] in Hw. subst w'. apply keeps_refl.
Qed.

Lemma frames_ret {A} (a : A) : frames keeps (ret a).
Proof. now apply frames_pure. Qed.

Lemma frames_raise {A} (e : exn) : frames keeps (@raise A e).
Proof. now apply frames_pure. Qed.

Lemma frames_lift {A} (o : outcome A) : frames keeps (lift o).
Proof. now apply frames_pure. Qed.

Lemma frames_bind {A B} (m : py A) (k : A -> py B) :
  frames keeps m -> (forall a, frames keeps (k a)) ->
  frames keeps (bind m k).
Proof.
  intros Hm Hk w r w'. unfold bind.
  destruct (m w) as [[a|e] w1] eqn:Hmw; intros H.
  - apply keeps_trans with (w2 := w1).
    + exact (Hm _ _ _ Hmw).
    + exact (Hk a _ _ _ H).
  - pose proof (f_equal snd H) as Hw. cbn [snd] in Hw. subst w'.
    exact (Hm _ _ _ Hmw).
Qed.

Lemma frames_try {A} (m : py A) (h : exn -> py A) :
  frames keeps m -> (forall e, frames keeps (h e)) ->
  frames keeps (try_except m h).
Proof.
  intros Hm Hh w r w'. unfold try_except.
  destruct (m w) as [[a|e] w1] eqn:Hmw; intros H.
  - pose proof (f_equal snd H) as Hw. cbn [snd] in Hw. subst w'.
    exact (Hm _ _ _ Hmw).
  - apply keeps_trans with (w2 := w1).
    + exact (Hm _ _ _ Hmw).
    + exact (Hh e _ _ _ H).
Qed.

End Frames.

Lemma keeps_downstream_refl (w : world) : keeps_downstream w w.
Proof. now repeat split. Qed.

Lemma keeps_downstream_trans (w1 w2 w3 : world) :
  keeps_downstream w1 w2 -> keeps_downstream w2 w3 ->
  keeps_downstream w1 w3.
Proof.
  intros (H1 & H2 & H3) (K1 & K2 & K3). repeat split; congruence.
Qed.

Lemma save_volume_keeps_downstream (v : npy) :
  frames keeps_downstream (save set_volume_npy v).
Proof.
  intros w r w'. unfold save.
  destruct w as [dd vv s g m d nz dr]. cbn [disk].
  destruct d as [|[[n|n]|] rest]; intros H;
    pose proof (f_equal snd H) as Hw; cbn [snd] in Hw; subst w';
    repeat split.
Qed.

Lemma save_spacing_keeps_downstream (sp : vec3 float) :
  frames keeps_downstream (save set_spacing_npy sp).
Proof.
  intros w r w'. unfold save.
  destruct w as [dd vv s g m d nz dr]. cbn [disk].
  destruct d as [|[[n|n]|] rest]; intros H;
    pose proof (f_equal snd H) as Hw; cbn [snd] in Hw; subst w';
    repeat split.
Qed.

Lemma np_random_normal_keeps_downstream (sh : shape3) :
  frames keeps_downstream (np_random_normal sh).
Proof.
  intros w r w'. unfold np_random_normal. intros H.
  pose proof (f_equal snd H) as Hw. cbn [snd] in Hw. subst w'.
  repeat split.
Qed.

(** One step of a frame proof: through the monad, into the branches. *)
Ltac frame_step :=
  first
    [ apply frames_ret; exact keeps_downstream_refl
    | apply frames_raise; exact keeps_downstream_refl
    | apply frames_lift; exact keeps_downstream_refl
    | apply save_volume_keeps_downstream
    | apply save_spacing_keeps_downstream
    | apply np_random_normal_keeps_downstream
    | apply frames_pure; [exact keeps_downstream_refl|intros ?; reflexivity]
    | apply frames_bind; [exact keeps_downstream_trans| |intros ?]
    | apply frames_try; [exact keeps_downstream_trans| |intros ?]
    | match goal with
      | |- frames _ (match ?x with _ => _ end) => destruct x
      end ].

Lemma generate_synthetic_volume_keeps_downstream :
  frames keeps_downstream generate_synthetic_volume.
Proof. unfold generate_synthetic_volume. cbv zeta. repeat frame_step. Qed.

Lemma os_path_exists_keeps (w : world) :
  snd (os_path_exists_DICOM_PATH w) = w.
Proof. reflexivity. Qed.

Lemma os_listdir_keeps (w : world) : snd (os_listdir_DICOM_PATH w) = w.
Proof. unfold os_listdir_DICOM_PATH. now destruct (dicom_dir w). Qed.

Lemma read_series_keeps_downstream (lib : libraries)
  (dicom_files : list string) :
  frames keeps_downstream (read_series lib dicom_files).
Proof.
  pose proof generate_synthetic_volume_keeps_downstream as Hgen.
  open_read_series. cbv zeta.
  repeat first [exact Hgen | frame_step].
Qed.

Lemma decode_and_store_keeps_downstream (lib : libraries) :
  frames keeps_downstream (decode_and_store lib).
Proof.
  pose proof generate_synthetic_volume_keeps_downstream as Hgen.
  pose proof (read_series_keeps_downstream lib) as Hread.
  open_decode_and_store. cbv zeta.
  repeat first
    [ exact Hgen | apply Hread
    | apply frames_pure;
        [exact keeps_downstream_refl
        |first [exact os_path_exists_keeps|exact os_listdir_keeps]]
    | frame_step ].
Qed.

(** X14. Whatever the libraries do and whatever its outcome, the Volume
    Source never modifies the input directory, the mask or the mesh: it
    writes to the volume and spacing files only. *)
Theorem process_dicom_keeps_downstream (lib : libraries) (w w' : world)
  (r : outcome bool) :
  process_dicom lib w = (r, w') ->
  dicom_dir w' = dicom_dir w
  /\ segmented_volume_npy w' = segmented_volume_npy w
  /\ organ_model_stl w' = organ_model_stl w.
Proof.
  revert w r w'. change (frames keeps_downstream (process_dicom lib)).
  open_process_dicom.
  apply frames_try;
    [exact keeps_downstream_trans
    |apply decode_and_store_keeps_downstream
    |intros _; apply generate_synthetic_volume_keeps_downstream].
Qed.

Lemma process_dicom_keeps_downstream_witness :
  dicom_dir Cases.decoded = dicom_dir (Scenario.uploaded [])
  /\ segmented_volume_npy Cases.decoded
     = segmented_volume_npy (Scenario.uploaded [])
  /\ organ_model_stl Cases.decoded = organ_model_stl (Scenario.uploaded []).
Proof.
  apply (@process_dicom_keeps_downstream
           (Scenario.lib_series Scenario.zoom_order0) (Scenario.uploaded [])
           Cases.decoded (Return true)).
  lazy. reflexivity.
Defined.

(* ===================================================================== *)
(** ** The stages in sequence *)

Lemma process_dicom_frames (lib : libraries) :
  frames keeps_downstream (process_dicom lib).
Proof.
  open_process_dicom.
  apply frames_try;
    [exact keeps_downstream_trans
    |apply decode_and_store_keeps_downstream
    |intros _; apply generate_synthetic_volume_keeps_downstream].
Qed.

Lemma process_dicom_returns_true (lib : libraries) (w w' : world)
  (b : bool) :
  process_dicom lib w = (Return b, w') -> b = true.
Proof.
  open_process_dicom; unfold try_except.
  assert (Hsynth : forall w0,
             generate_synthetic_volume w0 = (Return b, w') -> b = true).
  { intros w0 Hgen.
    now destruct (generate_synthetic_volume_returns _ Hgen) as (-> & _). }
  destruct (decode_and_store lib w) as [[b0|e] w1] eqn:Hdec.
  - intros H. pose proof (f_equal fst H) as Hb.
    pose proof (f_equal snd H) as Hw. cbn [fst snd] in Hb, Hw.
    injection Hb as ->. subst w1.
    destruct (decode_and_store_returns lib _ Hdec)
      as [[w0 Hgen]|[-> _]]; [now apply (Hsynth w0)|reflexivity].
  - apply Hsynth.
Qed.

(** The outcome of a write: the file is replaced, by the whole content or
    by a part of it, and only a part that was reported raises. *)
Lemma save_cases {A} (put : option (file A) -> world -> world)
  (content : A) (w w' : world) (r : outcome unit) :
  save put content w = (r, w') ->
  exists f,
    w' = put (Some f) (set_disk (tl (disk w)) w)
    /\ ((r = Return tt /\ (f = Whole content \/ exists n, f = Torn n))
        \/ (r = Raise OSError /\ exists n, f = Torn n)).
Proof.
  unfold save. destruct w as [dd v s g m d nz dr]. cbn [disk].
  destruct d as [|[[n|n]|] rest]; intros H;
    pose proof (f_equal fst H) as Hr; pose proof (f_equal snd H) as Hw;
    cbn [fst snd] in Hr, Hw; subst r w'; eexists; (split; [reflexivity|]).
  - left. split; [reflexivity|now left].
  - right. split; [reflexivity|now exists n].
  - left. split; [reflexivity|right; now exists n].
  - left. split; [reflexivity|now left].
Qed.

Lemma run_segmentation_returns (w w' : world) (b : bool) :
  run_segmentation w = (Return b, w') ->
  b = true
  /\ exists volume f,
       volume_npy w = Some (Whole volume)
       /\ w' = set_segmented_volume_npy (Some f) (set_disk (tl (disk w)) w)
       /\ (f = Whole (astype_uint8 (greater volume threshold))
           \/ exists n, f = Torn n).
Proof.
  pose proof (run_segmentation_cases w) as Hc. intros H.
  destruct (volume_npy w) as [[volume|[|n]]|] eqn:Hv;
    rewrite Hc in H; try (pose proof (f_equal fst H) as Hb; discriminate Hb).
  revert H. unfold bind, ret.
  destruct (save set_segmented_volume_npy
              (astype_uint8 (greater volume threshold)) w)
    as [[[]|e] w1] eqn:Hsave; intros H;
    pose proof (f_equal fst H) as Hb; pose proof (f_equal snd H) as Hw;
    cbn [fst snd] in Hb, Hw; try discriminate Hb.
  injection Hb as <-. subst w1. split; [reflexivity|].
  destruct (save_cases _ _ _ Hsave) as (f & -> & [[_ Hf]|[Hr _]]);
    [|discriminate Hr].
  now exists volume, f.
Qed.

Lemma run_segmentation_keeps_mesh (w w' : world) (r : outcome bool) :
  run_segmentation w = (r, w') -> organ_model_stl w' = organ_model_stl w.
Proof.
  pose proof (run_segmentation_cases w) as Hc. intros H.
  destruct (volume_npy w) as [[volume|[|n]]|] eqn:Hv; rewrite Hc in H;
    try (pose proof (f_equal snd H) as Hw; cbn [snd] in Hw; now subst w').
  revert H. unfold bind, ret.
  destruct (save set_segmented_volume_npy
              (astype_uint8 (greater volume threshold)) w)
    as [[[]|e] w1] eqn:Hsave; intros H;
    pose proof (f_equal snd H) as Hw; cbn [snd] in Hw; subst w1;
    destruct (save_cases _ _ _ Hsave) as (f & -> & _);
    reflexivity.
Qed.

Lemma run_segmentation_keeps_dir (w w' : world) (r : outcome bool) :
  run_segmentation w = (r, w') -> dicom_dir w' = dicom_dir w.
Proof.
  pose proof (run_segmentation_cases w) as Hc. intros H.
  destruct (volume_npy w) as [[volume|[|n]]|] eqn:Hv; rewrite Hc in H;
    try (pose proof (f_equal snd H) as Hw; cbn [snd] in Hw; now subst w').
  revert H. unfold bind, ret.
  destruct (save set_segmented_volume_npy
              (astype_uint8 (greater volume threshold)) w)
    as [[[]|e] w1] eqn:Hsave; intros H;
    pose proof (f_equal snd H) as Hw; cbn [snd] in Hw; subst w1;
    destruct (save_cases _ _ _ Hsave) as (f & -> & _);
    reflexivity.
Qed.

Section SurfaceCases.

Variable lewiner : ndarray Z -> float -> list vertex * list face.

(** The outcome of [create_3d_model] by cases on the mask file, the
    extraction and the filling of the vectors. *)
Lemma create_3d_model_cases (w : world) :
  match segmented_volume_npy w with
  | None => create_3d_model lewiner w = (Raise FileNotFoundError, w)
  | Some (Torn 0) => create_3d_model lewiner w = (Raise EOFError, w)
  | Some (Torn (S _)) => create_3d_model lewiner w = (Raise ValueError, w)
  | Some (Whole mask) =>
      match marching_cubes lewiner (Np.transpose_2_1_0 0%Z mask) 0.5 with
      | Raise e => create_3d_model lewiner w = (Raise e, w)
      | Return (verts, faces) =>
          match fill_vectors verts faces with
          | Raise e => create_3d_model lewiner w = (Raise e, w)
          | Return soup =>
              create_3d_model lewiner w
              = bind (save set_organ_model_stl soup) (fun _ => ret true) w
          end
      end
  end.
Proof.
  destruct (segmented_volume_npy w) as [[mask|n]|] eqn:Hseg.
  - destruct (marching_cubes lewiner (Np.transpose_2_1_0 0%Z mask) 0.5)
      as [[verts faces]|e] eqn:Hmc.
    + destruct (fill_vectors verts faces) as [soup|e] eqn:Hfill.
      * now apply create_3d_model_saves
          with (mask := mask) (verts := verts) (faces := faces).
      * now apply create_3d_model_fill_raises
          with (mask := mask) (verts := verts) (faces := faces).
    + now apply create_3d_model_extraction_raises with (mask := mask).
  - pose proof (create_3d_model_torn_mask lewiner w Hseg) as H.
    now destruct n.
  - now apply create_3d_model_no_mask.
Qed.

Lemma create_3d_model_returns (w w' : world) (b : bool) :
  create_3d_model lewiner w = (Return b, w') ->
  b = true
  /\ exists mask verts faces soup f,
       segmented_volume_npy w = Some (Whole mask)
       /\ marching_cubes lewiner (Np.transpose_2_1_0 0%Z mask) 0.5
          = Return (verts, faces)
       /\ fill_vectors verts faces = Return soup
       /\ w' = set_organ_model_stl (Some f) (set_disk (tl (disk w)) w)
       /\ (f = Whole soup \/ exists n, f = Torn n).
Proof.
  pose proof (create_3d_model_cases w) as Hc. intros H.
  destruct (segmented_volume_npy w) as [[mask|[|n]]|] eqn:Hseg;
    try (rewrite Hc in H; pose proof (f_equal fst H) as Hb; discriminate Hb).
  destruct (marching_cubes lewiner (Np.transpose_2_1_0 0%Z mask) 0.5)
    as [[verts faces]|e] eqn:Hmc;
    try (rewrite Hc in H; pose proof (f_equal fst H) as Hb; discriminate Hb).
  destruct (fill_vectors verts faces) as [soup|e] eqn:Hfill;
    try (rewrite Hc in H; pose proof (f_equal fst H) as Hb; discriminate Hb).
  rewrite Hc in H. revert H. unfold bind, ret.
  destruct (save set_organ_model_stl soup w) as [[[]|e] w1] eqn:Hsave;
    intros H; pose proof (f_equal fst H) as Hb;
    pose proof (f_equal snd H) as Hw; cbn [fst snd] in Hb, Hw;
    try discriminate Hb.
  injection Hb as <-. subst w1. split; [reflexivity|].
  destruct (save_cases _ _ _ Hsave) as (f & -> & [[_ Hf]|[Hr _]]);
    [|discriminate Hr].
  exists mask, verts, faces, soup, f. now repeat split.
Qed.

Lemma create_3d_model_raises (w w' : world) (e : exn) :
  create_3d_model lewiner w = (Raise e, w') ->
  w' = w
  \/ (e = OSError
      /\ exists n,
           w' = set_organ_model_stl (Some (Torn n))
                  (set_disk (tl (disk w)) w)).
Proof.
  pose proof (create_3d_model_cases w) as Hc. intros H.
  destruct (segmented_volume_npy w) as [[mask|[|n]]|] eqn:Hseg;
    try (rewrite Hc in H; pose proof (f_equal snd H) as Hw;
         cbn [snd] in Hw; now left).
  destruct (marching_cubes lewiner (Np.transpose_2_1_0 0%Z mask) 0.5)
    as [[verts faces]|e0] eqn:Hmc;
    try (rewrite Hc in H; pose proof (f_equal snd H) as Hw;
         cbn [snd] in Hw; now left).
  destruct (fill_vectors verts faces) as [soup|e0] eqn:Hfill;
    try (rewrite Hc in H; pose proof (f_equal snd H) as Hw;
         cbn [snd] in Hw; now left).
  rewrite Hc in H. revert H. unfold bind, ret.
  destruct (save set_organ_model_stl soup w) as [[[]|e0] w1] eqn:Hsave;
    intros H; pose proof (f_equal fst H) as Hb;
    pose proof (f_equal snd H) as Hw; cbn [fst snd] in Hb, Hw;
    try discriminate Hb.
  injection Hb as <-. subst w1. right.
  destruct (save_cases _ _ _ Hsave) as (f & -> & [[Hr _]|[Hr [n ->]]]);
    [discriminate Hr|].
  injection Hr as ->. split; [reflexivity|]. now exists n.
Qed.

End SurfaceCases.

(* ===================================================================== *)
(** ** The HTTP handlers *)

Lemma serve_answer {A} (get : world -> option (file A))
  (wrap : file A -> payload) (not_found : string) (w : world) :
  serve get wrap not_found w
  = (Return match get w with
            | None => JsonError (Text not_found) 404
            | Some f => SendFile (wrap f)
            end, w).
Proof.
  unfold serve, try_except, bind, exists_file, send_file, ret.
  cbv beta.
  destruct (get w) as [f|] eqn:E; cbn [negb]; cbv beta iota;
    rewrite ?E; reflexivity.
Qed.



Section ProcessingRequest.

Variable lib : libraries.
Variable lewiner : ndarray Z -> float -> list vertex * list face.

(** The answer of [start_processing] by cases on the three stages. *)
Lemma start_processing_cases (w : world) :
  start_processing lib lewiner w
  = match process_dicom lib w with
    | (Raise e, w1) => (Return (processing_error e), w1)
    | (Return _, w1) =>
        match run_segmentation w1 with
        | (Raise e, w2) => (Return (processing_error e), w2)
        | (Return _, w2) =>
            match create_3d_model lewiner w2 with
            | (Raise e, w3) => (Return (processing_error e), w3)
            | (Return _, w3) => (Return processing_complete, w3)
            end
        end
    end.
Proof.
  unfold start_processing, try_except, bind, ret.
  destruct (process_dicom lib w) as [[b1|e1] w1]; [|reflexivity].
  destruct (run_segmentation w1) as [[b2|e2] w2]; [|reflexivity].
  now destruct (create_3d_model lewiner w2) as [[b3|e3] w3].
Qed.

End ProcessingRequest.

(** X16. The processing handler never raises: it runs the Volume Source,
    the Segmenter and the Surface Extractor in this order, each on the store
    its predecessor left; it answers "success" with status 200 exactly when
    all three returned, and otherwise stops at the first stage that raises
    and answers "error" with status 500 and the text of that exception. *)
Theorem start_processing_answer (lib : libraries)
  (lewiner : ndarray Z -> float -> list vertex * list face) (w : world) :
  exists resp w',
    start_processing lib lewiner w = (Return resp, w')
    /\ ((resp = processing_complete
         /\ exists w1 w2,
              process_dicom lib w = (Return true, w1)
              /\ run_segmentation w1 = (Return true, w2)
              /\ create_3d_model lewiner w2 = (Return true, w'))
        \/ (exists e,
              resp = processing_error e
              /\ (process_dicom lib w = (Raise e, w')
                  \/ (exists w1,
                        process_dicom lib w = (Return true, w1)
                        /\ run_segmentation w1 = (Raise e, w'))
                  \/ (exists w1 w2,
                        process_dicom lib w = (Return true, w1)
                        /\ run_segmentation w1 = (Return true, w2)
                        /\ create_3d_model lewiner w2 = (Raise e, w'))))).
Proof.
  rewrite start_processing_cases.
  destruct (process_dicom lib w) as [[b1|e1] w1] eqn:H1.
  - pose proof (process_dicom_returns_true _ _ H1) as ->.
    destruct (run_segmentation w1) as [[b2|e2] w2] eqn:H2.
    + destruct (run_segmentation_returns _ H2) as [-> _].
      destruct (create_3d_model lewiner w2) as [[b3|e3] w3] eqn:H3.
      * destruct (create_3d_model_returns _ _ H3) as [-> _].
        exists processing_complete, w3. split; [reflexivity|]. left.
        split; [reflexivity|]. now exists w1, w2.
      * exists (processing_error e3), w3. split; [reflexivity|]. right.
        exists e3. split; [reflexivity|]. right. right. now exists w1, w2.
    + exists (processing_error e2), w2. split; [reflexivity|]. right.
      exists e2. split; [reflexivity|]. right. left. now exists w1.
  - exists (processing_error e1), w1. split; [reflexivity|]. right.
    exists e1. split; [reflexivity|]. now left.
Qed.

(** X17. After a processing request answered with status 200 the volume
    and the mask on disk are complete and the mask is the threshold mask of
    the volume; the mesh file is the triangle soup of the extraction of that
    mask or, when its write was cut short unnoticed, a torn file.  Each
    download handler then sends its file as it is. *)
Theorem start_processing_success (lib : libraries)
  (lewiner : ndarray Z -> float -> list vertex * list face)
  (w w' : world) (resp : response) :
  start_processing lib lewiner w = (Return resp, w') ->
  status_code resp = 200 ->
  exists volume verts faces soup mesh,
    volume_npy w' = Some (Whole volume)
    /\ segmented_volume_npy w'
       = Some (Whole (astype_uint8 (greater volume threshold)))
    /\ marching_cubes lewiner
         (Np.transpose_2_1_0 0%Z (astype_uint8 (greater volume threshold)))
         0.5 = Return (verts, faces)
    /\ fill_vectors verts faces = Return soup
    /\ organ_model_stl w' = Some mesh
    /\ (mesh = Whole soup \/ exists n, mesh = Torn n)
    /\ serve_volume w' = (Return (SendFile (VolumeFile (Whole volume))), w')
    /\ serve_segmented_volume w'
       = (Return (SendFile
                    (SegmentedFile
                       (Whole (astype_uint8 (greater volume threshold))))),
          w')
    /\ serve_model w' = (Return (SendFile (ModelFile mesh)), w').
Proof.
  rewrite start_processing_cases.
  destruct (process_dicom lib w) as [[b1|e1] w1] eqn:H1;
    [|intros [= <- <-]; discriminate].
  destruct (run_segmentation w1) as [[b2|e2] w2] eqn:H2;
    [|intros [= <- <-]; discriminate].
  destruct (create_3d_model lewiner w2) as [[b3|e3] w3] eqn:H3;
    [|intros [= <- <-]; discriminate].
  intros [= <- <-] _.
  destruct (run_segmentation_returns _ H2)
    as (_ & volume & f & Hvol & -> & Hf).
  destruct (create_3d_model_returns _ _ H3)
    as (_ & mask & verts & faces & soup & mesh & Hmask & Hmc & Hfill
        & -> & Hmesh).
  assert (Hm : f = Whole mask).
  { destruct w1; cbn in Hmask. now injection Hmask as ->. }
  assert (Hmask' : mask = astype_uint8 (greater volume threshold)).
  { subst f. destruct Hf as [Hf|[n Hf]]; [now injection Hf|discriminate]. }
  subst f mask.
  assert (Hv : volume_npy
                 (set_organ_model_stl (Some mesh)
                    (set_disk
                       (tl (disk
                              (set_segmented_volume_npy
                                 (Some (Whole (astype_uint8
                                                 (greater volume threshold))))
                                 (set_disk (tl (disk w1)) w1))))
                       (set_segmented_volume_npy
                          (Some (Whole (astype_uint8
                                          (greater volume threshold))))
                          (set_disk (tl (disk w1)) w1))))
               = Some (Whole volume)).
  { destruct w1; exact Hvol. }
  exists volume, verts, faces, soup, mesh.
  split; [exact Hv|]. split; [now destruct w1|].
  split; [exact Hmc|]. split; [exact Hfill|].
  split; [now destruct w1|]. split; [exact Hmesh|].
  unfold serve_volume, serve_segmented_volume, serve_model.
  rewrite !serve_answer, Hv. now destruct w1.
Qed.

(** The bright-corner series when the write of the mesh is cut after the
    84 bytes of its header, unnoticed: the request is answered with 200 and
    the model handler sends the torn file. *)
Lemma start_processing_success_witness :
  exists volume verts faces soup mesh,
    volume_npy Cases.interrupted = Some (Whole volume)
    /\ segmented_volume_npy Cases.interrupted
       = Some (Whole (astype_uint8 (greater volume threshold)))
    /\ marching_cubes Scenario.lewiner_corner
         (Np.transpose_2_1_0 0%Z (astype_uint8 (greater volume threshold)))
         0.5 = Return (verts, faces)
    /\ fill_vectors verts faces = Return soup
    /\ organ_model_stl Cases.interrupted = Some mesh
    /\ (mesh = Whole soup \/ exists n, mesh = Torn n)
    /\ serve_volume Cases.interrupted
       = (Return (SendFile (VolumeFile (Whole volume))), Cases.interrupted)
    /\ serve_segmented_volume Cases.interrupted
       = (Return (SendFile
                    (SegmentedFile
                       (Whole (astype_uint8 (greater volume threshold))))),
          Cases.interrupted)
    /\ serve_model Cases.interrupted
       = (Return (SendFile (ModelFile mesh)), Cases.interrupted).
Proof.
  apply (@start_processing_success Cases.lib_bright Scenario.lewiner_corner
           (Scenario.uploaded [None; None; None; Some (Unnoticed 84)])
           Cases.interrupted processing_complete);
    reflexivity.
Defined.

(** X18. A processing request answered with status 500 never leaves a new
    complete mesh: the mesh file is as it was before the request, so the
    model handler keeps sending the earlier mesh, or it is torn by the
    interrupted write of the last stage.  The input directory is as
    before. *)
Theorem start_processing_failure (lib : libraries)
  (lewiner : ndarray Z -> float -> list vertex * list face)
  (w w' : world) (resp : response) :
  start_processing lib lewiner w = (Return resp, w') ->
  status_code resp = 500 ->
  dicom_dir w' = dicom_dir w
  /\ (organ_model_stl w' = organ_model_stl w
      \/ exists n, organ_model_stl w' = Some (Torn n)).
Proof.
  rewrite start_processing_cases.
  destruct (process_dicom lib w) as [[b1|e1] w1] eqn:H1.
  - destruct (process_dicom_frames _ _ H1) as (Hd1 & _ & Hm1).
    destruct (run_segmentation w1) as [[b2|e2] w2] eqn:H2.
    + pose proof (run_segmentation_keeps_mesh _ H2) as Hm2.
      pose proof (run_segmentation_keeps_dir _ H2) as Hd2.
      destruct (create_3d_model lewiner w2) as [[b3|e3] w3] eqn:H3.
      * intros [= <- <-]. discriminate.
      * intros [= <- <-] _.
        destruct (create_3d_model_raises _ _ H3) as [->|(_ & n & ->)].
        -- split; [congruence|left; congruence].
        -- split; [destruct w2; cbn in *; congruence|].
           right. exists n. now destruct w2.
    + intros [= <- <-] _.
      pose proof (run_segmentation_keeps_mesh _ H2) as Hm2.
      pose proof (run_segmentation_keeps_dir _ H2) as Hd2.
      split; [congruence|left; congruence].
  - intros [= <- <-] _.
    destruct (process_dicom_frames _ _ H1) as (Hd1 & _ & Hm1).
    split; [exact Hd1|now left].
Qed.

(** The one-slice series: the mask is one voxel deep, the extraction
    raises, and the request fails without a mesh being written. *)
Lemma start_processing_failure_witness :
  dicom_dir Cases.unextractable = dicom_dir (Scenario.uploaded [])
  /\ (organ_model_stl Cases.unextractable
      = organ_model_stl (Scenario.uploaded [])
      \/ exists n, organ_model_stl Cases.unextractable = Some (Torn n)).
Proof.
  apply (@start_processing_failure
           (Scenario.lib_series Scenario.zoom_order0)
           Scenario.lewiner_corner
           (Scenario.uploaded []) Cases.unextractable
           (processing_error ValueError));
    reflexivity.
Defined.

(* ===================================================================== *)
(** ** The upload handler *)

Lemma keeps_artifacts_refl (w : world) : keeps_artifacts w w.
Proof. now repeat split. Qed.

Lemma keeps_artifacts_trans (w1 w2 w3 : world) :
  keeps_artifacts w1 w2 -> keeps_artifacts w2 w3 -> keeps_artifacts w1 w3.
Proof.
  intros (H1 & H2 & H3 & H4 & H5) (K1 & K2 & K3 & K4 & K5).
  repeat split; congruence.
Qed.

Lemma filter_filter {A} (f g : A -> bool) (l : list A) :
  filter g (filter f l) = filter (fun x => f x && g x) l.
Proof.
  induction l as [|x l IH]; [reflexivity|]. cbn [filter].
  destruct (f x); cbn [filter andb]; [|exact IH].
  destruct (g x); now rewrite IH.
Qed.

(** The clearing loop removes the regular files it was given and nothing
    else. *)
Lemma clear_files_spec (old_files : list dirent) :
  forall (w : world) (entries : list dirent),
    dicom_dir w = Directory entries ->
    clear_files old_files w
    = (Return tt,
       set_dicom_dir
         (Directory
            (filter (fun d =>
                       negb (d_isfile d
                             && existsb (fun o =>
                                           d_isfile o
                                           && String.eqb (d_name d)
                                                         (d_name o))
                                        old_files))
                    entries)) w).
Proof.
  induction old_files as [|o rest IH]; intros w entries Hdir.
  - cbn [clear_files existsb]. unfold ret.
    replace (filter _ entries) with entries.
    + destruct w; cbn in Hdir; now subst.
    + symmetry. rewrite <- (filter_ext_in (fun _ => true)).
      * clear. induction entries as [|d l IH]; [reflexivity|].
        cbn [filter]. now rewrite IH.
      * intros d _. now rewrite Bool.andb_false_r.
  - cbn [clear_files]. unfold bind.
    destruct (d_isfile o) eqn:Ho.
    + unfold os_unlink. rewrite Hdir.
      erewrite IH by reflexivity.
      f_equal. unfold set_dicom_dir; cbn. f_equal. f_equal.
      rewrite filter_filter. apply filter_ext. intros d.
      cbn [existsb]. rewrite Ho. cbn [andb].
      destruct (d_isfile d); cbn [andb negb].
      * rewrite Bool.andb_true_r.
        now destruct (String.eqb (d_name d) (d_name o)).
      * now rewrite Bool.andb_false_r.
    + unfold ret. rewrite (IH w entries Hdir). do 3 f_equal.
      apply filter_ext. intros d. cbn [existsb]. now rewrite Ho.
Qed.

Lemma clear_all_files (entries : list dirent) :
  filter (fun d =>
            negb (d_isfile d
                  && existsb (fun o =>
                                d_isfile o
                                && String.eqb (d_name d) (d_name o))
                             entries)) entries
  = filter (fun d => negb (d_isfile d)) entries.
Proof.
  apply filter_ext_in. intros d Hd.
  destruct (d_isfile d) eqn:Hf; [|reflexivity]. cbn [andb].
  f_equal. apply existsb_exists. exists d. split; [exact Hd|].
  now rewrite Hf, String.eqb_refl.
Qed.

Lemma In_with_file (filename : string) (entries : list dirent)
  (d : dirent) :
  In d (with_file filename entries) ->
  In d entries \/ d = mk_dirent filename true.
Proof.
  unfold with_file.
  destruct (existsb _ entries); [now left|].
  intros H. apply in_app_or in H. destruct H as [H|[H|[]]]; auto.
Qed.

Lemma incl_with_file (filename : string) (entries : list dirent) :
  incl entries (with_file filename entries).
Proof.
  unfold with_file. destruct (existsb _ entries).
  - apply incl_refl.
  - apply incl_appl, incl_refl.
Qed.

(** After a save that was not refused, the name is the name of a regular
    file of the directory. *)
Lemma with_file_present (filename : string) (entries : list dirent) :
  existsb (fun d => String.eqb (d_name d) filename && negb (d_isfile d))
          entries = false ->
  In (mk_dirent filename true) (with_file filename entries).
Proof.
  intros Hno. unfold with_file.
  destruct (existsb (fun d => String.eqb (d_name d) filename) entries)
    eqn:Hex.
  - apply existsb_exists in Hex. destruct Hex as (d & Hd & Hname).
    apply String.eqb_eq in Hname.
    destruct (d_isfile d) eqn:Hf.
    + destruct d as [n f]; cbn in *. now subst.
    + exfalso. apply Bool.not_true_iff_false in Hno. apply Hno.
      apply existsb_exists. exists d. split; [exact Hd|].
      rewrite Hf. cbn. rewrite Bool.andb_true_r. now apply String.eqb_eq.
  - apply in_or_app. right. now left.
Qed.

(** The outcome of one save. *)
Lemma file_save_cases (filename : string) (w : world)
  (entries : list dirent) :
  dicom_dir w = Directory entries ->
  exists r w',
    file_save filename w = (r, w')
    /\ keeps_artifacts w w'
    /\ ((r = Raise OSError /\ dicom_dir w' = Directory entries)
        \/ (r = Raise OSError
            /\ dicom_dir w' = Directory (with_file filename entries))
        \/ (r = Return tt
            /\ filename <> EmptyString
            /\ In (mk_dirent filename true) (with_file filename entries)
            /\ dicom_dir w' = Directory (with_file filename entries))).
Proof.
  intros Hdir. unfold file_save. rewrite Hdir.
  destruct (String.eqb filename EmptyString) eqn:Hname; cbn [orb].
  - exists (Raise OSError), w. split; [reflexivity|].
    split; [apply keeps_artifacts_refl|]. now left.
  - destruct (existsb _ entries) eqn:Hsub.
    + exists (Raise OSError), w. split; [reflexivity|].
      split; [apply keeps_artifacts_refl|]. now left.
    + apply String.eqb_neq in Hname.
      pose proof (with_file_present _ _ Hsub) as Hin.
      cbv zeta. destruct (disk w) as [|[n|] rest];
        eexists _, _; (split; [reflexivity|]);
        (split; [now repeat split|]).
      * right. right. now repeat split.
      * right. left. now split.
      * right. right. now repeat split.
Qed.

Section UploadFacts.

Variable secure_filename : string -> string.

Lemma uploaded_names_cons (filename : string) (rest : list string) :
  uploaded_names secure_filename (filename :: rest)
  = if String.eqb filename EmptyString
    then uploaded_names secure_filename rest
    else secure_filename filename :: uploaded_names secure_filename rest.
Proof.
  unfold uploaded_names. cbn [filter].
  now destruct (String.eqb filename EmptyString).
Qed.

Lemma In_uploaded_names (name : string) (files : list string) :
  In name (uploaded_names secure_filename files)
  <-> exists filename,
        In filename files /\ filename <> EmptyString
        /\ name = secure_filename filename.
Proof.
  unfold uploaded_names. rewrite in_map_iff. split.
  - intros (f & <- & Hf). apply filter_In in Hf. destruct Hf as [Hin Hne].
    exists f. repeat split; [exact Hin|].
    apply String.eqb_neq. now destruct (String.eqb f EmptyString).
  - intros (f & Hin & Hne & ->). exists f. split; [reflexivity|].
    apply filter_In. split; [exact Hin|].
    apply String.eqb_neq in Hne. now rewrite Hne.
Qed.

(** The saving loop: entries are only added, every added entry is a regular
    file under an uploaded name, a failure is an OSError, and on return
    every uploaded name is there and the count is the number of saves. *)
Lemma save_files_spec (files : list string) :
  forall (uploaded_count : nat) (w : world) (entries : list dirent),
    dicom_dir w = Directory entries ->
    exists r w' entries',
      save_files secure_filename files uploaded_count w = (r, w')
      /\ dicom_dir w' = Directory entries'
      /\ keeps_artifacts w w'
      /\ incl entries entries'
      /\ (forall d, In d entries' ->
                    In d entries
                    \/ (d_isfile d = true
                        /\ In (d_name d)
                              (uploaded_names secure_filename files)))
      /\ match r with
         | Return n =>
             n = uploaded_count
                 + List.length (uploaded_names secure_filename files)
             /\ ~ In EmptyString (uploaded_names secure_filename files)
             /\ forall name,
                  In name (uploaded_names secure_filename files) ->
                  In (mk_dirent name true) entries'
         | Raise e => e = OSError
         end.
Proof.
  induction files as [|filename rest IH]; intros c w entries Hdir.
  - exists (Return c), w, entries. cbn [save_files]. unfold ret.
    split; [reflexivity|]. split; [exact Hdir|].
    split; [apply keeps_artifacts_refl|]. split; [apply incl_refl|].
    split; [now left|]. cbn. repeat split; [lia|tauto|tauto].
  - cbn [save_files]. rewrite uploaded_names_cons.
    destruct (String.eqb filename EmptyString) eqn:Hname;
      [exact (IH c w entries Hdir)|].
    unfold bind.
    destruct (file_save_cases (secure_filename filename) w Hdir)
      as (r1 & w1 & Hsave & Hkeep1 & Hcases).
    rewrite Hsave.
    destruct Hcases as [[-> Hd1]|[[-> Hd1]|(-> & Hne & Hin1 & Hd1)]].
    + exists (Raise OSError), w1, entries. split; [reflexivity|].
      split; [exact Hd1|]. split; [exact Hkeep1|].
      split; [apply incl_refl|]. split; [now left|reflexivity].
    + exists (Raise OSError), w1, (with_file (secure_filename filename)
                                             entries).
      split; [reflexivity|]. split; [exact Hd1|]. split; [exact Hkeep1|].
      split; [apply incl_with_file|]. split; [|reflexivity].
      intros d Hd. destruct (In_with_file _ _ _ Hd) as [H| ->];
        [now left|right]. cbn. split; [reflexivity|now left].
    + destruct (IH (c + 1) w1 _ Hd1)
        as (r & w' & entries' & Hrun & Hd' & Hkeep & Hincl & Hnew & Hret).
      exists r, w', entries'. split; [exact Hrun|]. split; [exact Hd'|].
      split; [exact (keeps_artifacts_trans Hkeep1 Hkeep)|].
      split; [exact (incl_tran (incl_with_file _ _) Hincl)|].
      split.
      * intros d Hd. destruct (Hnew d Hd) as [H|[Hf Hn]].
        -- destruct (In_with_file _ _ _ H) as [H'| ->]; [now left|right].
           cbn. split; [reflexivity|now left].
        -- right. split; [exact Hf|now right].
      * destruct r as [n|e]; [|exact Hret].
        destruct Hret as (-> & Hnone & Hall). cbn [List.length].
        split; [lia|]. split.
        -- intros [H|H]; [now apply Hne|now apply Hnone].
        -- intros name [<-|H]; [now apply Hincl|now apply Hall].
Qed.

(** A file whose secure name is empty stops the loop, at that file at the
    latest. *)
Lemma save_files_unnameable (files : list string) (filename : string) :
  In filename files -> filename <> EmptyString ->
  secure_filename filename = EmptyString ->
  forall (uploaded_count : nat) (w : world),
  exists e w',
    save_files secure_filename files uploaded_count w = (Raise e, w').
Proof.
  intros Hin Hne Hsec.
  induction files as [|f rest IH]; intros c w; [destruct Hin|].
  cbn [save_files].
  destruct (String.eqb f EmptyString) eqn:Hf.
  - apply String.eqb_eq in Hf. destruct Hin as [->|Hin]; [contradiction|].
    now apply IH.
  - unfold bind.
    destruct (file_save (secure_filename f) w) as [[[]|e] w1] eqn:Hsave;
      [|now exists e, w1].
    destruct Hin as [->|Hin]; [|now apply IH].
    exfalso. revert Hsave. rewrite Hsec. unfold file_save.
    destruct (dicom_dir w); cbn; discriminate.
Qed.

Lemma rejected_forallb (files : list string) :
  (List.length files =? 0)
  || forallb (fun filename => String.eqb filename EmptyString) files = true
  <-> rejected (Some files).
Proof.
  cbn [rejected]. split.
  - intros H filename Hin. apply Bool.orb_true_iff in H.
    destruct H as [H|H].
    + destruct files; [destruct Hin|discriminate].
    + rewrite forallb_forall in H. now apply String.eqb_eq, H.
  - intros H. apply Bool.orb_true_iff. right. apply forallb_forall.
    intros f Hf. now apply String.eqb_eq, H.
Qed.

(** The handler on a request that is not rejected: the directory is
    cleared, created if need be, and the files are saved in it. *)
Lemma upload_dicom_accepted (files : list string) (w : world) :
  ~ rejected (Some files) ->
  upload_dicom secure_filename (Some files) w
  = match dicom_dir w with
    | RegularFile => (Return (processing_error NotADirectoryError), w)
    | _ =>
        match
          save_files secure_filename files 0
            (set_dicom_dir
               (Directory
                  (filter (fun d => negb (d_isfile d)) (old_entries w))) w)
        with
        | (Return n, w') => (Return (upload_complete n), w')
        | (Raise e, w') => (Return (processing_error e), w')
        end
    end.
Proof.
  intros Hacc. unfold upload_dicom.
  destruct ((List.length files =? 0)
            || forallb (fun filename => String.eqb filename EmptyString)
                       files) eqn:Hrej.
  { exfalso. now apply Hacc, rejected_forallb. }
  unfold try_except, bind, os_path_exists_DICOM_PATH,
    os_listdir_DICOM_PATH, old_entries.
  cbv beta.
  destruct (dicom_dir w) as [| |entries] eqn:Hdir; cbv beta iota.
  - unfold ret, os_makedirs_DICOM_PATH. rewrite Hdir. cbn [filter].
    destruct (save_files _ files 0 _) as [[n|e] w']; reflexivity.
  - rewrite Hdir. reflexivity.
  - rewrite Hdir. cbv beta iota.
    rewrite (clear_files_spec entries w Hdir), clear_all_files.
    unfold os_makedirs_DICOM_PATH. cbn [dicom_dir set_dicom_dir].
    unfold ret.
    destruct (save_files _ files 0 _) as [[n|e] w']; reflexivity.
Qed.

End UploadFacts.

Section UploadOutcomes.

Variable secure_filename : string -> string.

(** The handler on a request that is not rejected, over a path that is not
    a regular file. *)
Lemma upload_dicom_saved (files : list string) (w : world) :
  ~ rejected (Some files) ->
  dicom_dir w <> RegularFile ->
  exists r w' entries',
    upload_dicom secure_filename (Some files) w
    = (Return match r with
              | Return n => upload_complete n
              | Raise e => processing_error e
              end, w')
    /\ dicom_dir w' = Directory entries'
    /\ keeps_artifacts w w'
    /\ (forall d, In d entries' ->
                  (d_isfile d = false /\ In d (old_entries w))
                  \/ (d_isfile d = true
                      /\ In (d_name d)
                            (uploaded_names secure_filename files)))
    /\ (forall d, In d (old_entries w) -> d_isfile d = false ->
                  In d entries')
    /\ match r with
       | Return n =>
           n = List.length (uploaded_names secure_filename files)
           /\ ~ In EmptyString (uploaded_names secure_filename files)
           /\ forall name,
                In name (uploaded_names secure_filename files) ->
                In (mk_dirent name true) entries'
       | Raise e => e = OSError
       end.
Proof.
  intros Hacc Hdir. rewrite (upload_dicom_accepted _ _ Hacc).
  destruct (save_files_spec secure_filename files 0
              (set_dicom_dir
                 (Directory
                    (filter (fun d => negb (d_isfile d)) (old_entries w)))
                 w) eq_refl)
    as (r & w' & entries' & Hrun & Hd' & Hkeep & Hincl & Hnew & Hret).
  exists r, w', entries'. split.
  { destruct (dicom_dir w); [|contradiction|]; rewrite Hrun;
      now destruct r. }
  split; [exact Hd'|]. split.
  { apply keeps_artifacts_trans with (2 := Hkeep). now repeat split. }
  split.
  { intros d Hd. destruct (Hnew d Hd) as [H|H]; [left|now right].
    apply filter_In in H. destruct H as [Hin Hf].
    split; [now destruct (d_isfile d)|exact Hin]. }
  split.
  { intros d Hin Hf. apply Hincl, filter_In. split; [exact Hin|].
    now rewrite Hf. }
  destruct r as [n|e]; [|exact Hret].
  destruct Hret as (-> & Hnone & Hall). now repeat split.
Qed.

(** A request answered with another status than 400 has a file with a
    name. *)
Lemma upload_dicom_not_rejected (request_files : option (list string))
  (w w' : world) (resp : response) :
  upload_dicom secure_filename request_files w = (Return resp, w') ->
  status_code resp <> 400 ->
  exists files, request_files = Some files /\ ~ rejected (Some files).
Proof.
  destruct request_files as [files|]; unfold upload_dicom.
  - intros Hrun Hcode. exists files. split; [reflexivity|].
    intros Hrej. apply rejected_forallb in Hrej. rewrite Hrej in Hrun.
    injection Hrun as <- <-. now apply Hcode.
  - intros [= <- <-] Hcode. now destruct Hcode.
Qed.

End UploadOutcomes.

(** X19. The upload handler never raises, and it answers with status 400
    exactly when the request has no [dicomFiles] part or no file with a
    name; such a request changes nothing in the store, not even the input
    directory. *)
Theorem upload_dicom_rejection (secure_filename : string -> string)
  (request_files : option (list string)) (w : world) :
  exists resp w',
    upload_dicom secure_filename request_files w = (Return resp, w')
    /\ (status_code resp = 400 <-> rejected request_files)
    /\ (rejected request_files ->
        w' = w
        /\ exists text, resp = JsonStatus "error" (Text text) 400).
Proof.
  destruct request_files as [files|].
  - destruct ((List.length files =? 0)
              || forallb (fun filename => String.eqb filename EmptyString)
                         files) eqn:Hrej.
    + exists (JsonStatus "error" (Text "No files selected") 400), w.
      unfold upload_dicom. rewrite Hrej.
      split; [reflexivity|]. apply rejected_forallb in Hrej.
      split; [now split|]. intros _. split; [reflexivity|now eexists].
    + assert (Hacc : ~ rejected (Some files)).
      { intros H. apply rejected_forallb in H. congruence. }
      rewrite (upload_dicom_accepted _ _ Hacc).
      destruct (dicom_dir w).
      1, 3: destruct (save_files _ files 0 _) as [[n|e] w'];
        eexists _, _; (split; [reflexivity|]);
        (split; [split; [discriminate|contradiction]|contradiction]).
      eexists _, _. split; [reflexivity|].
      split; [split; [discriminate|contradiction]|contradiction].
  - exists (JsonStatus "error" (Text "No files part in the request") 400),
      w.
    split; [reflexivity|]. split; [now split|].
    intros _. split; [reflexivity|now eexists].
Qed.

(** X20. After an upload answered with status 200 the input directory
    holds the sub-directories it held before and, as regular files, exactly
    the secure names of the uploaded files that have a name: every earlier
    regular file under another name is gone.  The reported count is the
    number of files saved, which exceeds the number of files stored when
    two uploads share a secure name.  The artifacts of an earlier
    processing run are left in place. *)
Theorem upload_dicom_success (secure_filename : string -> string)
  (request_files : option (list string)) (w w' : world) (resp : response) :
  upload_dicom secure_filename request_files w = (Return resp, w') ->
  status_code resp = 200 ->
  exists files entries',
    request_files = Some files
    /\ resp = upload_complete
                (List.length (uploaded_names secure_filename files))
    /\ dicom_dir w' = Directory entries'
    /\ (forall d,
          In d entries'
          <-> (d_isfile d = false /\ In d (old_entries w))
              \/ (d_isfile d = true
                  /\ In (d_name d) (uploaded_names secure_filename files)))
    /\ ~ In EmptyString (uploaded_names secure_filename files)
    /\ keeps_artifacts w w'.
Proof.
  intros Hrun Hcode.
  destruct (upload_dicom_not_rejected _ _ _ Hrun) as (files & -> & Hacc);
    [congruence|].
  assert (Hdir : dicom_dir w <> RegularFile).
  { intros Hdir. rewrite (upload_dicom_accepted _ _ Hacc), Hdir in Hrun.
    injection Hrun as <- <-. discriminate. }
  destruct (upload_dicom_saved secure_filename _ Hacc Hdir)
    as (r & w1 & entries' & Hrun1 & Hd' & Hkeep & Hnew & Hold & Hret).
  rewrite Hrun in Hrun1. injection Hrun1 as -> ->.
  destruct r as [n|e]; [|discriminate].
  destruct Hret as (-> & Hnone & Hall).
  exists files, entries'.
  split; [reflexivity|]. split; [reflexivity|]. split; [exact Hd'|].
  split; [|split; [exact Hnone|exact Hkeep]].
  intros d. split; [apply Hnew|].
  intros [[Hf Hin]|[Hf Hin]]; [now apply Hold|].
  specialize (Hall _ Hin). destruct d as [name isfile]; cbn in *.
  now subst.
Qed.

Lemma upload_dicom_success_witness :
  exists files entries',
    Some Cases.request = Some files
    /\ upload_complete 3
       = upload_complete
           (List.length (uploaded_names Cases.secure_basic files))
    /\ dicom_dir Cases.after_upload = Directory entries'
    /\ (forall d,
          In d entries'
          <-> (d_isfile d = false /\ In d (old_entries Cases.earlier_upload))
              \/ (d_isfile d = true
                  /\ In (d_name d)
                        (uploaded_names Cases.secure_basic files)))
    /\ ~ In EmptyString (uploaded_names Cases.secure_basic files)
    /\ keeps_artifacts Cases.earlier_upload Cases.after_upload.
Proof.
  apply (@upload_dicom_success Cases.secure_basic (Some Cases.request)
           Cases.earlier_upload Cases.after_upload (upload_complete 3));
    reflexivity.
Defined.

(** X21. An upload answered with status 500 is not undone.  Unless the
    input path is a regular file, in which case nothing was touched, the
    failure is an OSError of a save, and the earlier regular files are
    deleted all the same: the directory holds its earlier sub-directories
    and, as regular files, only secure names of this request. *)
Theorem upload_dicom_failure (secure_filename : string -> string)
  (request_files : option (list string)) (w w' : world) (resp : response) :
  upload_dicom secure_filename request_files w = (Return resp, w') ->
  status_code resp = 500 ->
  exists files,
    request_files = Some files
    /\ ((dicom_dir w = RegularFile
         /\ w' = w
         /\ resp = processing_error NotADirectoryError)
        \/ (resp = processing_error OSError
            /\ keeps_artifacts w w'
            /\ exists entries',
                 dicom_dir w' = Directory entries'
                 /\ (forall d, In d (old_entries w) -> d_isfile d = false ->
                               In d entries')
                 /\ (forall d,
                       In d entries' -> d_isfile d = true ->
                       In (d_name d)
                          (uploaded_names secure_filename files)))).
Proof.
  intros Hrun Hcode.
  destruct (upload_dicom_not_rejected _ _ _ Hrun) as (files & -> & Hacc);
    [congruence|].
  exists files. split; [reflexivity|].
  destruct (dicom_dir w) as [| |entries] eqn:Hdir.
  2: { left. rewrite (upload_dicom_accepted _ _ Hacc), Hdir in Hrun.
       injection Hrun as <- <-. now repeat split. }
  all: right;
    assert (Hnot : dicom_dir w <> RegularFile) by (rewrite Hdir; discriminate);
    destruct (upload_dicom_saved secure_filename _ Hacc Hnot)
      as (r & w1 & entries' & Hrun1 & Hd' & Hkeep & Hnew & Hold & Hret);
    rewrite Hrun in Hrun1; injection Hrun1 as -> ->;
    (destruct r as [n|e]; [discriminate|]); subst e;
    (split; [reflexivity|]); (split; [exact Hkeep|]);
    exists entries'; (split; [exact Hd'|]); (split; [exact Hold|]);
    intros d Hd Hf; destruct (Hnew d Hd) as [[Hf' _]|[_ Hin]];
    [congruence|exact Hin].
Qed.

Lemma upload_dicom_failure_witness :
  exists files,
    Some Cases.request = Some files
    /\ ((dicom_dir Cases.earlier_upload_faulty = RegularFile
         /\ Cases.after_upload = Cases.earlier_upload_faulty
         /\ processing_error OSError = processing_error NotADirectoryError)
        \/ (processing_error OSError = processing_error OSError
            /\ keeps_artifacts Cases.earlier_upload_faulty
                               Cases.after_upload
            /\ exists entries',
                 dicom_dir Cases.after_upload = Directory entries'
                 /\ (forall d,
                       In d (old_entries Cases.earlier_upload_faulty) ->
                       d_isfile d = false -> In d entries')
                 /\ (forall d,
                       In d entries' -> d_isfile d = true ->
                       In (d_name d)
                          (uploaded_names Cases.secure_basic files)))).
Proof.
  apply (@upload_dicom_failure Cases.secure_basic (Some Cases.request)
           Cases.earlier_upload_faulty Cases.after_upload
           (processing_error OSError));
    reflexivity.
Defined.

(** X22. A file whose name is not empty but whose secure name is, makes
    the whole upload fail with status 500, whatever the other files are:
    its save path is the input directory itself. *)
Theorem upload_dicom_unnameable (secure_filename : string -> string)
  (files : list string) (filename : string) (w : world) :
  In filename files ->
  filename <> EmptyString ->
  secure_filename filename = EmptyString ->
  exists e w',
    upload_dicom secure_filename (Some files) w
    = (Return (processing_error e), w').
Proof.
  intros Hin Hne Hsec.
  assert (Hacc : ~ rejected (Some files)).
  { intros H. now apply Hne, H. }
  rewrite (upload_dicom_accepted _ _ Hacc).
  destruct (dicom_dir w).
  2: now eexists _, _.
  all: match goal with
       | |- context [save_files _ _ _ ?w0] =>
           destruct (save_files_unnameable secure_filename files Hin Hne
                       Hsec 0 w0) as (e & w' & ->)
       end; now exists e, w'.
Qed.

Lemma upload_dicom_unnameable_witness :
  exists e w',
    upload_dicom Cases.secure_basic (Some Cases.request_dots)
                 Cases.earlier_upload
    = (Return (processing_error e), w').
Proof.
  apply (@upload_dicom_unnameable Cases.secure_basic Cases.request_dots
           ".." Cases.earlier_upload).
  - right. now left.
  - discriminate.
  - reflexivity.
Defined.
